(** * SF50-TOLD table extraction: a shallow embedding of the AFM extractors

    The development embeds the two flight-manual extractors of
    [Data/make-tables] ([extract_g1_data.py], [extract_g2plus_data.py]) and
    states the properties of their table reconstruction engine.

    Layout:
    - [Py]     the Python string, integer and float operations the
               extractors use;
    - [Re]     a backtracking matcher for the fragment of Python's [re]
               syntax that occurs in the extractors;
    - [G1]     [AFMDataExtractor] of [extract_g1_data.py];
    - [G2Plus] [G2PlusAFMDataExtractor] of [extract_g2plus_data.py];
    - the theorems.

    Conventions.  Page text is a [string] read as Latin-1: every character
    class below is Python's class restricted to the code points 0..255.
    A Python exception is the outcome [None] of an [option]-valued
    function.  A table row is Python's four-element list
    [[str(weight), altitude, str(temperature), value]]. *)

From Stdlib Require Import ZArith Floats Ascii String DecimalString DecimalZ.
From stdpp Require Import gmap strings list sorting.

Set Warnings "-inexact-float".

(* ===================================================================== *)
(** * Python primitives *)
(* ===================================================================== *)

Module Py.

(** [str.isspace] on one character; also the class [\s] of [re] on [str]
    patterns.  Latin-1 members: TAB LF VT FF CR, FS GS RS US, space, NEL,
    NBSP. *)
Definition isspace (c : ascii) : bool :=
  let n := nat_of_ascii c in
  ((9 <=? n) && (n <=? 13)) || ((28 <=? n) && (n <=? 32))
  || (n =? 133) || (n =? 160).

(** The class [\d] of [re]: the decimal digits.  In Latin-1 these are the
    ASCII digits only. *)
Definition isdecimal (c : ascii) : bool :=
  let n := nat_of_ascii c in (48 <=? n) && (n <=? 57).

(** [str.isdigit] on one character: the decimal digits and, in Latin-1,
    the superscripts two, three and one. *)
Definition isdigit (c : ascii) : bool :=
  let n := nat_of_ascii c in
  isdecimal c || (n =? 178) || (n =? 179) || (n =? 185).

Definition isupper_ascii (c : ascii) : bool :=
  let n := nat_of_ascii c in (65 <=? n) && (n <=? 90).

(** [all(p(c) for c in s)] *)
Fixpoint forallb_string (p : ascii -> bool) (s : string) : bool :=
  match s with
  | EmptyString => true
  | String c s' => p c && forallb_string p s'
  end.

(** [''.join(c for c in s if p(c))] *)
Fixpoint filter_string (p : ascii -> bool) (s : string) : string :=
  match s with
  | EmptyString => EmptyString
  | String c s' =>
      if p c then String c (filter_string p s') else filter_string p s'
  end.

(** [value.isdigit()]: false on the empty string. *)
Definition str_isdigit (s : string) : bool :=
  match s with
  | EmptyString => false
  | _ => forallb_string isdigit s
  end.

(** [len(s)] *)
Definition len (s : string) : nat := String.length s.

(** [s[a:]] for [0 <= a]. *)
Fixpoint drop_str (a : nat) (s : string) : string :=
  match a, s with
  | 0, _ => s
  | S a', EmptyString => EmptyString
  | S a', String _ s' => drop_str a' s'
  end.

(** [s[a:b]] for [0 <= a]; empty when [b <= a]. *)
Definition slice (a b : nat) (s : string) : string := substring a (b - a) s.

(** [s[i:]] for any integer [i]: a negative index counts from the end. *)
Definition slice_from (i : Z) (s : string) : string :=
  if (i <? 0)%Z then drop_str (Z.to_nat (Z.of_nat (len s) + i)) s
  else drop_str (Z.to_nat i) s.

(** [s.startswith(p)] *)
Definition startswith (p s : string) : bool := String.prefix p s.

(** [s.find(sub)]: the least index at which [sub] occurs, [-1] if none. *)
Fixpoint find_from (sub s : string) (i : nat) : Z :=
  if String.prefix sub s then Z.of_nat i
  else match s with
       | EmptyString => (-1)%Z
       | String _ s' => find_from sub s' (S i)
       end.

Definition find (sub s : string) : Z := find_from sub s 0.

(** [sub in s] *)
Definition contains (sub s : string) : bool := (0 <=? find sub s)%Z.

(** [s.lstrip()], [s.rstrip()], [s.strip()] *)
Fixpoint lstrip (s : string) : string :=
  match s with
  | String c s' => if isspace c then lstrip s' else s
  | EmptyString => EmptyString
  end.

Fixpoint rstrip (s : string) : string :=
  match s with
  | EmptyString => EmptyString
  | String c s' =>
      match rstrip s' with
      | EmptyString => if isspace c then EmptyString else String c EmptyString
      | r => String c r
      end
  end.

Definition strip (s : string) : string := rstrip (lstrip s).

(** [s.split(sep)] for a one-character separator: the pieces between the
    separators, the empty ones included; [''.split(sep) == ['']]. *)
Fixpoint split_on (sep : ascii) (s : string) : list string :=
  match s with
  | EmptyString => [EmptyString]
  | String c s' =>
      if Ascii.eqb c sep then EmptyString :: split_on sep s'
      else match split_on sep s' with
           | p :: ps => String c p :: ps
           | [] => [String c EmptyString]
           end
  end.

(** [s.split()]: the maximal runs of non-blank characters. *)
Fixpoint split_ws_aux (cur : option string) (s : string) : list string :=
  match s with
  | EmptyString =>
      match cur with Some w => [w] | None => [] end
  | String c s' =>
      if isspace c then
        match cur with
        | Some w => w :: split_ws_aux None s'
        | None => split_ws_aux None s'
        end
      else
        match cur with
        | Some w => split_ws_aux (Some (w +:+ String c EmptyString)) s'
        | None => split_ws_aux (Some (String c EmptyString)) s'
        end
  end.

Definition split_ws (s : string) : list string := split_ws_aux None s.

(** [s.replace(old, new)] for a non-empty [old]: occurrences are replaced
    from the left and do not overlap.  [skip] counts the characters of an
    occurrence already replaced. *)
Fixpoint replace_aux (old new : string) (skip : nat) (s : string) : string :=
  match s with
  | EmptyString => EmptyString
  | String c s' =>
      match skip with
      | S k => replace_aux old new k s'
      | 0 =>
          if String.prefix old s
          then new +:+ replace_aux old new (len old - 1) s'
          else String c (replace_aux old new 0 s')
      end
  end.

Definition replace (old new s : string) : string := replace_aux old new 0 s.

(** [str(n)] for an [int]. *)
Definition str_int (n : Z) : string := NilZero.string_of_int (Z.to_int n).

(** [int(s)] on the tokens the extractors pass to it: a non-empty run of
    decimal digits (a match of [\d+], or one of the literals ['0'] and
    ['10000']).  On any other string the model reports [ValueError];
    Python's own [int] also accepts blanks, a sign and underscores, which
    no call site can produce. *)
Fixpoint int_digits (acc : Z) (s : string) : option Z :=
  match s with
  | EmptyString => Some acc
  | String c s' =>
      if isdecimal c
      then int_digits (10 * acc + Z.of_nat (nat_of_ascii c - 48))%Z s'
      else None
  end.

Definition int (s : string) : option Z :=
  match s with
  | EmptyString => None
  | _ => int_digits 0 s
  end.

(** [range(start, stop, step)] for [0 < step], as the list it iterates. *)
Fixpoint range_aux (n : nat) (start step : nat) : list nat :=
  match n with
  | 0 => []
  | S n' => start :: range_aux n' (start + step) step
  end.

Definition range_step (start stop step : nat) : list nat :=
  range_aux ((stop - start + (step - 1)) / step) start step.

(** [range(start, stop)] over the integers. *)
Definition range (start stop : Z) : list Z :=
  map (fun i => (start + Z.of_nat i)%Z) (seq 0 (Z.to_nat (stop - start))).

(** [range(start, stop, -1)] over the integers: [start], [start - 1], ...
    down to [stop + 1]. *)
Definition range_down (start stop : Z) : list Z :=
  map (fun i => (start - Z.of_nat i)%Z) (seq 0 (Z.to_nat (start - stop))).

(** [l[a:b]] for [0 <= a <= b]. *)
Definition slice_list {A : Type} (a b : nat) (l : list A) : list A :=
  take (b - a) (drop a l).

(** [l[i]] for any integer [i]: a negative index counts from the end;
    [IndexError] outside [-len(l) <= i < len(l)]. *)
Definition index {A : Type} (l : list A) (i : Z) : option A :=
  if (i <? 0)%Z then
    if (Z.of_nat (length l) + i <? 0)%Z then None
    else l !! Z.to_nat (Z.of_nat (length l) + i)
  else l !! Z.to_nat i.

(** [l[i]] for a natural index. *)
Definition item {A : Type} (l : list A) (i : nat) : option A := l !! i.

(** A [for] loop over [xs] whose body may raise: the state after the last
    iteration, or the first exception. *)
Fixpoint for_each {A S : Type} (xs : list A) (body : S -> A -> option S)
    (s : S) : option S :=
  match xs with
  | [] => Some s
  | x :: xs' =>
      match body s x with
      | Some s' => for_each xs' body s'
      | None => None
      end
  end.

(** [enumerate(l)] *)
Definition enumerate {A : Type} (l : list A) : list (nat * A) :=
  zip (seq 0 (length l)) l.

(** ** Floats

    Python's [float] is IEEE binary64, Rocq's primitive [float]. *)

(** The least magnitude whose nearest binary64 value is infinite. *)
Definition float_overflow_bound : Z := (2 ^ 1024 - 2 ^ 970)%Z.

(** The conversion of an [int] operand of a float operation: the nearest
    binary64 value (ties to even); [OverflowError] when there is none. *)
Definition float_of_int (n : Z) : option float :=
  if (float_overflow_bound <=? Z.abs n)%Z then None
  else Some (SF2Prim (SpecFloat.binary_normalize prec emax n 0 false)).

End Py.

(* ===================================================================== *)
(** * Regular expressions *)
(* ===================================================================== *)

(** The patterns of the extractors use literals, character classes under a
    counted (greedy or lazy) repetition, alternation, groups and the two
    anchors.  The matcher below is a backtracking matcher in
    continuation-passing style: alternatives are tried in the order in
    which Python's [re] tries them, so the first success is Python's
    match. *)

Module Re.

Inductive cclass : Type :=
| Digit                 (* \d      *)
| Space                 (* \s      *)
| DigitSpace            (* [\d\s]  *)
| Upper                 (* [A-Z]   *)
| Dot                   (* .       *)
| Chr (c : ascii).      (* one literal character *)

Definition in_class (k : cclass) (c : ascii) : bool :=
  match k with
  | Digit => Py.isdecimal c
  | Space => Py.isspace c
  | DigitSpace => Py.isdecimal c || Py.isspace c
  | Upper => Py.isupper_ascii c
  | Dot => negb (Ascii.eqb c "010")
  | Chr d => Ascii.eqb c d
  end.

Inductive regex : Type :=
| Lit (s : string)                                   (* literal text *)
| Rep (k : cclass) (lo : nat) (hi : option nat) (greedy : bool)
                                                     (* k{lo,hi} / k{lo,hi}? *)
| Seq (r1 r2 : regex)                                (* r1 r2 *)
| Alt (r1 r2 : regex)                                (* r1|r2 *)
| Group (n : nat) (r : regex)                        (* n-th ( ) *)
| Bol                                                (* ^ *)
| Eol.                                               (* $ *)

Notation "r1 ⋅ r2" := (Seq r1 r2) (at level 41, right associativity).
Definition Star (k : cclass) : regex := Rep k 0 None true.         (* k*  *)
Definition Plus (k : cclass) : regex := Rep k 1 None true.         (* k+  *)
Definition Opt (k : cclass) : regex := Rep k 0 (Some 1) true.      (* k?  *)
Definition LazyStar (k : cclass) : regex := Rep k 0 None false.    (* k*? *)
Definition LazyPlus (k : cclass) : regex := Rep k 1 None false.    (* k+? *)
Definition Between (k : cclass) (lo hi : nat) : regex :=
  Rep k lo (Some hi) true.                                         (* k{lo,hi} *)

(** The spans [(start, stop)] of the groups matched so far, the latest
    first. *)
Definition captures : Type := list (nat * (nat * nat)).

Section Matcher.
Context {R : Type}.

(** A continuation receives the position reached, the text left and the
    groups. *)
Definition cont : Type := nat -> string -> captures -> option R.

Definition below (hi : option nat) (n : nat) : bool :=
  match hi with
  | None => true
  | Some h => n <? h
  end.

(** [k{lo,hi}] after [n] repetitions.  Greedy: one more repetition is
    tried before stopping; lazy: stopping is tried first. *)
Fixpoint rep (k : cclass) (lo : nat) (hi : option nat) (greedy : bool)
    (n : nat) (pos : nat) (rest : string) (caps : captures) (kont : cont)
    {struct rest} : option R :=
  let stop (_ : unit) := if lo <=? n then kont pos rest caps else None in
  let more (_ : unit) :=
    match rest with
    | String c rest' =>
        if in_class k c && below hi n
        then rep k lo hi greedy (S n) (S pos) rest' caps kont
        else None
    | EmptyString => None
    end in
  if greedy then
    match more tt with
    | Some r => Some r
    | None => stop tt
    end
  else
    match stop tt with
    | Some r => Some r
    | None => more tt
    end.

Fixpoint lit (s : string) (pos : nat) (rest : string) (caps : captures)
    (kont : cont) {struct s} : option R :=
  match s with
  | EmptyString => kont pos rest caps
  | String c s' =>
      match rest with
      | String d rest' =>
          if Ascii.eqb c d then lit s' (S pos) rest' caps kont else None
      | EmptyString => None
      end
  end.

(** [$] holds at the end of the text and before a final line feed. *)
Definition at_eol (rest : string) : bool :=
  match rest with
  | EmptyString => true
  | String c EmptyString => Ascii.eqb c "010"
  | _ => false
  end.

Fixpoint run (r : regex) (pos : nat) (rest : string) (caps : captures)
    (kont : cont) {struct r} : option R :=
  match r with
  | Lit s => lit s pos rest caps kont
  | Rep k lo hi greedy => rep k lo hi greedy 0 pos rest caps kont
  | Seq r1 r2 =>
      run r1 pos rest caps (fun pos' rest' caps' => run r2 pos' rest' caps' kont)
  | Alt r1 r2 =>
      match run r1 pos rest caps kont with
      | Some x => Some x
      | None => run r2 pos rest caps kont
      end
  | Group n r1 =>
      run r1 pos rest caps
        (fun pos' rest' caps' => kont pos' rest' ((n, (pos, pos')) :: caps'))
  | Bol => if pos =? 0 then kont pos rest caps else None
  | Eol => if at_eol rest then kont pos rest caps else None
  end.
End Matcher.

(** A match object: the text searched, the span of the match, the groups. *)
Record mobj : Type := MObj {
  m_text : string;
  m_start : nat;
  m_end : nat;
  m_groups : captures
}.

Fixpoint assoc (n : nat) (caps : captures) : option (nat * nat) :=
  match caps with
  | [] => None
  | (m, sp) :: caps' => if n =? m then Some sp else assoc n caps'
  end.

(** [m.group(n)] for [1 <= n].  Every group of the extractors' patterns
    takes part in every match, where Python returns its text; a group
    that took no part reads as the empty string here. *)
Definition group (m : mobj) (n : nat) : string :=
  match assoc n (m_groups m) with
  | Some (a, b) => Py.slice a b (m_text m)
  | None => EmptyString
  end.

(** The match of [r] that starts at position [pos], [rest] being the text
    from there. *)
Definition match_at (r : regex) (s : string) (pos : nat) (rest : string)
    : option mobj :=
  run r pos rest [] (fun stop _ caps => Some (MObj s pos stop caps)).

(** [re.match(r, s)] *)
Definition rmatch (r : regex) (s : string) : option mobj := match_at r s 0 s.

(** The leftmost match that starts at [pos] or later. *)
Fixpoint search_from (r : regex) (s : string) (pos : nat) (rest : string)
    {struct rest} : option mobj :=
  match match_at r s pos rest with
  | Some m => Some m
  | None =>
      match rest with
      | EmptyString => None
      | String _ rest' => search_from r s (S pos) rest'
      end
  end.

(** [re.search(r, s)] *)
Definition search (r : regex) (s : string) : option mobj := search_from r s 0 s.

(** [re.finditer(r, s)]: successive leftmost matches that do not overlap.
    The scan is at position [pos] with [rest] the text from there; [skip]
    counts the characters still covered by the last match.  Every pattern
    the extractors hand to [findall] and [sub] matches at least one
    character; after an empty match the scan here moves one character
    on. *)
Fixpoint finditer_at (r : regex) (s : string) (pos skip : nat) (rest : string)
    {struct rest} : list mobj :=
  match skip, rest with
  | S k, String _ rest' => finditer_at r s (S pos) k rest'
  | S _, EmptyString => []
  | 0, _ =>
      match match_at r s pos rest with
      | Some m =>
          m :: match rest with
               | String _ rest' =>
                   finditer_at r s (S pos) (m_end m - pos - 1) rest'
               | EmptyString => []
               end
      | None =>
          match rest with
          | String _ rest' => finditer_at r s (S pos) 0 rest'
          | EmptyString => []
          end
      end
  end.

Definition finditer (r : regex) (s : string) : list mobj :=
  finditer_at r s 0 0 s.

(** [re.findall(r, s)] for a pattern without groups: the matched texts. *)
Definition findall (r : regex) (s : string) : list string :=
  map (fun m => Py.slice (m_start m) (m_end m) s) (finditer r s).

(** [re.sub(r, '', s)]: the text outside the matches. *)
Fixpoint delete_spans (ms : list mobj) (pos : nat) (s : string) : string :=
  match ms with
  | [] => Py.drop_str pos s
  | m :: ms' => Py.slice pos (m_start m) s +:+ delete_spans ms' (m_end m) s
  end.

Definition sub_empty (r : regex) (s : string) : string :=
  delete_spans (finditer r s) 0 s.

End Re.

(* ===================================================================== *)
(** * Records shared by the two extractors *)
(* ===================================================================== *)

(** The temperature cell of a row.  [str(temps[j])] and the temperature
    texts cut from a line are [Text]; [str(isa_temp)] is kept as the float
    it prints, [FloatRepr]: Python prints a float with the shortest digits
    that read back as the same float, always with a point or an exponent,
    so the printed cell determines the float and differs from every
    integer text. *)
Inductive cell : Type :=
| Text (s : string)
| FloatRepr (f : float).

(** One row [[str(weight), altitude, str(temperature), value]]. *)
Record row : Type := Row {
  r_weight : string;
  r_altitude : string;
  r_temperature : cell;
  r_value : string
}.

(** [['weight', 'altitude', 'temperature', 'value']] *)
Definition header : row := Row "weight" "altitude" (Text "temperature") "value".

(** The key of a row. *)
Definition key (r : row) : string * string * cell :=
  (r_weight r, r_altitude r, r_temperature r).

(** [\d+] *)
Definition re_digits : Re.regex := Re.Plus Re.Digit.

(** The reference-atmosphere table of [calculate_isa_temp], the same in
    both extractors. *)
Definition isa_values : gmap Z float :=
  list_to_map
    [ (0%Z, 15.0%float);
      (1000%Z, 13.0188%float);
      (2000%Z, 11.037600000000001%float);
      (3000%Z, 9.0564%float);
      (4000%Z, 7.075200000000001%float);
      (5000%Z, 5.094000000000001%float);
      (6000%Z, 3.112800000000002%float);
      (7000%Z, 1.1316000000000006%float);
      (8000%Z, (-0.8495999999999988)%float);
      (9000%Z, (-2.8308)%float);
      (10000%Z, (-4.811999999999998)%float) ].

(** [self.isa_lapse_rate] *)
Definition isa_lapse_rate : float := 1.98%float.

(** [isa_values.get(altitude, 15.0 - (altitude / 1000.0 * self.isa_lapse_rate))].
    Python evaluates the default before the lookup, so the conversion of
    [altitude] to a float happens for every altitude. *)
Definition calculate_isa_temp (altitude : Z) : option float :=
  x ← Py.float_of_int altitude;
  let fallback := (15.0 - (x / 1000.0 * isa_lapse_rate))%float in
  Some (default fallback (isa_values !! altitude)).

(* ===================================================================== *)
(** * [extract_g1_data.py]: [AFMDataExtractor] *)
(* ===================================================================== *)

Module G1.
Import Re.

(** The document: [pdf_reader.pages], each page standing for the text its
    [extract_text()] returns. *)
Definition document : Type := list string.

(** [extract_text_from_page(page_num)] *)
Definition extract_text_from_page (pages : document) (page_num : Z)
    : option string :=
  if (page_num <=? Z.of_nat (length pages))%Z
  then Py.index pages (page_num - 1)
  else Some EmptyString.

(** ** Takeoff tables *)

(** [_add_performance_values(data, weight, altitude, values, temps)]:
    the list [data] after the call. *)
Definition _add_performance_values (data : list row) (weight : Z)
    (altitude : string) (values : list string) (temps : list Z)
    : option (list row) :=
  alt_int ← Py.int altitude;
  let expected_cols :=
    if (5000 <=? alt_int)%Z && (length values <=? 9) then
      if length values =? 9 then 8
      else if length values =? 8 then 7
      else if length values =? 7 then 6
      else min (length values) 8
    else min (length values) 8 in
  data ← Py.for_each (seq 0 expected_cols)
    (fun data j =>
       if (j <? length temps) && (j <? length values) then
         t ← Py.item temps j;
         v ← Py.item values j;
         Some (data ++ [Row (Py.str_int weight) altitude (Text (Py.str_int t)) v])
       else Some data)
    data;
  if expected_cols <? length values then
    isa_temp ← calculate_isa_temp alt_int;
    v ← Py.index values (-1);
    Some (data ++ [Row (Py.str_int weight) altitude (FloatRepr isa_temp) v])
  else Some data.

(** [(SL|\d+)\s*Gnd\s*Roll] *)
Definition re_gnd_roll : regex :=
  Group 1 (Alt (Lit "SL") (Plus Digit)) ⋅ Star Space ⋅ Lit "Gnd"
  ⋅ Star Space ⋅ Lit "Roll".

(** [^.*?Gnd\s*Roll\s*] *)
Definition re_upto_gnd_roll : regex :=
  Bol ⋅ LazyStar Dot ⋅ Lit "Gnd" ⋅ Star Space ⋅ Lit "Roll" ⋅ Star Space.

(** [^.*?Total\s*] *)
Definition re_upto_total : regex :=
  Bol ⋅ LazyStar Dot ⋅ Lit "Total" ⋅ Star Space.

(** The variables of the line loop of [parse_takeoff_tables] and
    [parse_landing_tables]. *)
Record tables : Type := Tables {
  ground_run_data : list row;
  total_distance_data : list row;
  current_altitude : option string
}.

(** The altitude token of a ground-roll match:
    ['0' if alt_match.group(1) == 'SL' else alt_match.group(1)], and
    ["000"] read as ["10000"]. *)
Definition altitude_token (alt_match : mobj) : string :=
  let a := if String.eqb (group alt_match 1) "SL" then "0"
           else group alt_match 1 in
  if String.eqb a "000" then "10000" else a.

(** One iteration of the line loop of [parse_takeoff_tables]. *)
Definition takeoff_line (weight : Z) (temps : list Z) (st : tables)
    (line : string) : option tables :=
  let line := Py.strip line in
  if Py.contains "Gnd Roll" line then
    match search re_gnd_roll line with
    | Some alt_match =>
        let current_altitude := altitude_token alt_match in
        let values_text := sub_empty re_upto_gnd_roll line in
        let values := findall re_digits values_text in
        match values with
        | [] => Some (Tables (ground_run_data st) (total_distance_data st)
                        (Some current_altitude))
        | _ =>
            data ← _add_performance_values (ground_run_data st) weight
                     current_altitude values temps;
            Some (Tables data (total_distance_data st) (Some current_altitude))
        end
    | None => Some st
    end
  else if Py.contains "Total" line then
    match current_altitude st with
    | Some current_altitude =>
        let values_text := sub_empty re_upto_total line in
        let values_text := Py.replace "," "" values_text in
        let values := findall re_digits values_text in
        match values with
        | [] => Some st
        | _ =>
            data ← _add_performance_values (total_distance_data st) weight
                     current_altitude values temps;
            Some (Tables (ground_run_data st) data (Some current_altitude))
        end
    | None => Some st
    end
  else Some st.

(** [parse_takeoff_tables(page_num, weight)]:
    [(ground_run_data, total_distance_data)]. *)
Definition parse_takeoff_tables (pages : document) (page_num : Z) (weight : Z)
    : option (list row * list row) :=
  text ← extract_text_from_page pages page_num;
  let temps := [-20; -10; 0; 10; 20; 30; 40; 50]%Z in
  let lines := Py.split_on "010" text in
  st ← Py.for_each lines (takeoff_line weight temps) (Tables [] [] None);
  Some (ground_run_data st, total_distance_data st).

(** ** Landing tables *)

(** [_add_landing_values(data, weight, altitude, values, flap_setting)]:
    the list [data] after the call. *)
Definition _add_landing_values (data : list row) (weight : Z)
    (altitude : string) (values : list string) (flap_setting : string)
    : option (list row) :=
  alt_int ← Py.int altitude;
  if 0 <? length values then
    v0 ← Py.item values 0;
    let '(data, all_temps) :=
      if String.eqb flap_setting "50 ice"
      then (data ++ [Row (Py.str_int weight) altitude (Text "-20") v0],
            [-10; 0; 10]%Z)
      else (data ++ [Row (Py.str_int weight) altitude (Text "0") v0],
            [10; 20; 30; 40; 50]%Z) in
    if 1 <? length values then
      let num_temp_values := length values - 2 in
      let add_temperature (data : list row) (i : nat) :=
        if i <? length all_temps then
          t ← Py.item all_temps i;
          v ← Py.item values (i + 1);
          Some (data ++ [Row (Py.str_int weight) altitude (Text (Py.str_int t)) v])
        else Some data in
      if String.eqb flap_setting "50 ice" then
        Py.for_each (seq 0 (length values - 1)) add_temperature data
      else
        data ← Py.for_each (seq 0 num_temp_values) add_temperature data;
        isa_temp ← calculate_isa_temp alt_int;
        v ← Py.index values (-1);
        Some (data ++ [Row (Py.str_int weight) altitude (FloatRepr isa_temp) v])
    else Some data
  else Some data.

(** ** Climb matrices *)

(** [weights] of [parse_climb_gradient_tables] *)
Definition weights : list Z := [6000; 5500; 5000; 4500]%Z.

(** [\d+-\d+(\d{4})-40\s+([\d\s]+)] *)
Definition re_embedded : regex :=
  Plus Digit ⋅ Lit "-" ⋅ Plus Digit ⋅ Group 1 (Between Digit 4 4)
  ⋅ Lit "-40" ⋅ Plus Space ⋅ Group 2 (Plus DigitSpace).

(** [^(\d{1,5})\s*-40\s+([\d\s]+)] *)
Definition re_standalone : regex :=
  Bol ⋅ Group 1 (Between Digit 1 5) ⋅ Star Space ⋅ Lit "-40" ⋅ Plus Space
  ⋅ Group 2 (Plus DigitSpace).

(** [^\d{2}\s+\d] *)
Definition re_two_digit_row : regex :=
  Bol ⋅ Between Digit 2 2 ⋅ Plus Space ⋅ Between Digit 1 1.

(** [^(\d{2})\s+([\d\s]+?)(?:[A-Z]|$)] *)
Definition re_special_temp : regex :=
  Bol ⋅ Group 1 (Between Digit 2 2) ⋅ Plus Space
  ⋅ Group 2 (LazyPlus DigitSpace) ⋅ Alt (Between Upper 1 1) Eol.

(** An entry [(i, altitude, values[:4])] of [altitude_data]. *)
Definition anchor : Type := nat * string * list string.

(** What one of the two altitude patterns adds to [altitude_data] for
    line [i]; the source repeats this block for each pattern. *)
Definition anchor_of (i : nat) (m : option mobj) : option (list anchor) :=
  match m with
  | None => Some []
  | Some m =>
      let altitude := group m 1 in
      a ← Py.int altitude;
      if (a <=? 10000)%Z && (a mod 1000 =? 0)%Z then
        let values := findall re_digits (group m 2) in
        if 4 <=? length values then Some [(i, altitude, take 4 values)]
        else Some []
      else Some []
  end.

(** The first loop over [enumerate(lines)]: [altitude_data]. *)
Definition find_altitudes (lines : list string) : option (list anchor) :=
  Py.for_each (Py.enumerate lines)
    (fun altitude_data '(i, line) =>
       e ← anchor_of i (search re_embedded line);
       s ← anchor_of i (search re_standalone line);
       Some (altitude_data ++ e ++ s))
    [].

(** The condition that sends a line to the handling of a mangled 0 °C
    row. *)
Definition mangled_entry (next_line : string) : bool :=
  Py.startswith "0" next_line && (10 <? Py.len next_line)
  && (Py.contains " " (Py.slice 1 5 next_line)
      || negb (Py.startswith "0 " next_line)).

(** [values] as the [if]/[elif] chain on [len(remaining)] builds it. *)
Definition partition_digits (altitude remaining : string) : list string :=
  let n := Py.len remaining in
  if n =? 16 then
    map (fun i => Py.slice i (i + 4) remaining) (Py.range_step 0 16 4)
  else if n =? 15 then
    [Py.slice 0 3 remaining; Py.slice 3 7 remaining;
     Py.slice 7 11 remaining; Py.slice 11 15 remaining]
  else if n =? 14 then
    if String.eqb altitude "10000" && Py.startswith "809" remaining then
      [Py.slice 0 3 remaining; Py.slice 3 6 remaining;
       Py.slice 6 10 remaining; Py.slice 10 14 remaining]
    else
      [Py.slice 0 3 remaining; Py.slice 3 7 remaining;
       Py.slice 7 11 remaining; Py.slice 11 14 remaining]
  else if 12 <=? n then
    if bool_decide (altitude ∈ ["8000"; "9000"; "10000"]) then
      [Py.slice 0 3 remaining; Py.slice 3 7 remaining; Py.slice 7 11 remaining]
      ++ (if 15 <=? n then [Py.slice 11 15 remaining] else [])
    else
      flat_map
        (fun i => if i + 3 <? n then [Py.slice i (i + 4) remaining] else [])
        (Py.range_step 0 (min n 16) 4)
  else [].

(** The handling of a mangled 0 °C row: [Some (values[:4])] when the
    block stores [temp_data[0]] and continues with the next line, [None]
    when the line falls through to the checks below it. *)
Definition mangled_zero (altitude next_line : string) : option (list string) :=
  if mangled_entry next_line then
    let all_digits := Py.filter_string Py.isdigit next_line in
    if (13 <=? Py.len all_digits) && String.eqb (Py.slice 0 1 all_digits) "0"
    then
      let remaining := Py.drop_str 1 all_digits in
      let values := partition_digits altitude remaining in
      if 3 <=? length values then Some (take 4 values) else None
    else None
  else None.

(** The variables of the [while] loop that collects the temperature rows
    of one altitude. *)
Record scan : Type := Scan {
  temp_data : gmap Z (list string);
  processed_lines : gset nat
}.

(** [temps] of the [while] loop *)
Definition temps : list Z := [-30; -20; -10; 0; 10; 20; 30; 40; 50]%Z.

(** The loop [for temp in temps] on one line, with its [break]: the state
    and [temp_found] after it. *)
Fixpoint normal_temperature (temps : list Z) (altitude next_line : string)
    (idx : nat) (st : scan) : option (scan * bool) :=
  match temps with
  | [] => Some (st, false)
  | temp :: temps' =>
      if Py.startswith (Py.str_int temp +:+ " ") next_line then
        let values :=
          findall re_digits (Py.drop_str (Py.len (Py.str_int temp)) next_line) in
        a ← Py.int altitude;
        let min_values := if (9000 <=? a)%Z && (40 <=? temp)%Z then 3 else 4 in
        if min_values <=? length values then
          Some (Scan (<[temp := take 4 values]> (temp_data st))
                     ({[idx]} ∪ processed_lines st), true)
        else normal_temperature temps' altitude next_line idx st
      else normal_temperature temps' altitude next_line idx st
  end.

(** The check for the temperatures 41..50 on one line. *)
Definition special_temperature (next_line : string) (idx : nat) (st : scan)
    : option (scan * bool) :=
  match rmatch re_two_digit_row next_line with
  | None => Some (st, false)
  | Some _ =>
      match rmatch re_special_temp next_line with
      | None => Some (st, false)
      | Some temp_match =>
          temp_val ← Py.int (group temp_match 1);
          if (41 <=? temp_val)%Z && (temp_val <=? 50)%Z then
            let num_part := group temp_match 2 in
            let values := findall re_digits num_part in
            if 3 <=? length values then
              Some (Scan (<[temp_val := take 4 values]> (temp_data st))
                         ({[idx]} ∪ processed_lines st), true)
            else Some (st, false)
          else Some (st, false)
      end
  end.

(** [while j < 15 and line_idx + j < len(lines)].  [j] starts at 1 and
    every iteration that does not leave the loop adds one to it, so the
    loop runs over the values [js = 1, ..., 14] of [j] for as long as its
    second condition holds. *)
Fixpoint collect (js : list nat) (lines : list string) (altitude : string)
    (line_idx : nat) (st : scan) : option scan :=
  match js with
  | [] => Some st
  | j :: js' =>
      if line_idx + j <? length lines then
        if bool_decide (line_idx + j ∈ processed_lines st) then
          collect js' lines altitude line_idx st
        else
          l ← Py.item lines (line_idx + j);
          let next_line := Py.strip l in
          match mangled_zero altitude next_line with
          | Some values =>
              collect js' lines altitude line_idx
                (Scan (<[0%Z := values]> (temp_data st))
                      ({[line_idx + j]} ∪ processed_lines st))
          | None =>
              match normal_temperature temps altitude next_line (line_idx + j) st
              with
              | None => None
              | Some (st, temp_found) =>
                  match (if temp_found then Some (st, true)
                         else special_temperature next_line (line_idx + j) st)
                  with
                  | None => None
                  | Some (st, temp_found) =>
                      if temp_found then
                        collect js' lines altitude line_idx st
                      else if Py.contains "Engine" next_line
                              || Py.contains "Press" next_line
                              || Py.contains "-40" next_line
                      then Some st
                      else collect js' lines altitude line_idx st
                  end
              end
          end
      else Some st
  end.

(** The rows of one [(temp, values)] item of [temp_data]. *)
Definition emit_temperature (altitude : string) (data : list row)
    (item : Z * list string) : option (list row) :=
  let '(temp, values) := item in
  if length values <? length weights then
    let weight_offset := length weights - length values in
    Py.for_each (Py.enumerate values)
      (fun data '(v_idx, value) =>
         if Py.str_isdigit value then
           w ← Py.item weights (weight_offset + v_idx);
           Some (data ++ [Row (Py.str_int w) altitude (Text (Py.str_int temp)) value])
         else Some data)
      data
  else
    Py.for_each (Py.enumerate values)
      (fun data '(w_idx, value) =>
         if (w_idx <? length weights) && Py.str_isdigit value then
           w ← Py.item weights w_idx;
           Some (data ++ [Row (Py.str_int w) altitude (Text (Py.str_int temp)) value])
         else Some data)
      data.

(** [sorted(temp_data.items())]: the keys of a dictionary are distinct, so
    the order is the order of the temperatures. *)
Definition item_le (a b : Z * list string) : Prop := (a.1 <= b.1)%Z.

#[local] Instance item_le_dec (a b : Z * list string) : Decision (item_le a b).
Proof. unfold item_le. apply _. Defined.

Definition sorted_items (temp_data : gmap Z (list string))
    : list (Z * list string) :=
  merge_sort item_le (map_to_list temp_data).

(** [for temp, values in sorted(temp_data.items())] *)
Definition emit_altitude (altitude : string) (data : list row)
    (temp_data : gmap Z (list string)) : option (list row) :=
  Py.for_each (sorted_items temp_data) (emit_temperature altitude) data.

(** One iteration of [for line_idx, altitude, initial_values in
    altitude_data]; the state is [(data, processed_lines)]. *)
Definition process_altitude (lines : list string)
    (acc : list row * gset nat) (a : anchor) : option (list row * gset nat) :=
  let '(line_idx, altitude, initial_values) := a in
  let '(data, processed) := acc in
  if bool_decide (line_idx ∈ processed) then Some acc
  else
    st ← collect (seq 1 14) lines altitude line_idx
           (Scan {[ (-40)%Z := initial_values ]} processed);
    data ← emit_altitude altitude data (temp_data st);
    Some (data, processed_lines st).

(** [parse_climb_gradient_tables(start_page, end_page)] *)
Definition parse_climb_gradient_tables (pages : document)
    (start_page end_page : Z) : option (list row) :=
  all_text ← Py.for_each (Py.range start_page (end_page + 1))
    (fun all_text page =>
       t ← extract_text_from_page pages page;
       Some (all_text +:+ t +:+ String "010" EmptyString))
    EmptyString;
  let all_text := Py.replace "10,000" "10000" all_text in
  let lines := Py.split_on "010" all_text in
  altitude_data ← find_altitudes lines;
  acc ← Py.for_each altitude_data (process_altitude lines) ([header], ∅);
  Some acc.1.

(** [parse_climb_rate_tables(start_page, end_page)] *)
Definition parse_climb_rate_tables (pages : document)
    (start_page end_page : Z) : option (list row) :=
  parse_climb_gradient_tables pages start_page end_page.

(** ** Page ranges and the page tables *)

(** [extract_text_from_pages(start_page, end_page)] *)
Definition extract_text_from_pages (pages : document) (start_page end_page : Z)
    : option string :=
  Py.for_each
    (Py.range (start_page - 1) (Z.min end_page (Z.of_nat (length pages))))
    (fun text page_num =>
       t ← Py.index pages page_num;
       Some (text +:+ t +:+ String "010" EmptyString))
    EmptyString.

(** One iteration of the line loop of [parse_landing_tables]. *)
Definition landing_line (weight : Z) (flap_setting : string) (st : tables)
    (line : string) : option tables :=
  let line := Py.strip line in
  if Py.contains "Gnd Roll" line then
    match search re_gnd_roll line with
    | Some alt_match =>
        let current_altitude := altitude_token alt_match in
        let values_text := sub_empty re_upto_gnd_roll line in
        let values := findall re_digits values_text in
        match values with
        | [] => Some (Tables (ground_run_data st) (total_distance_data st)
                        (Some current_altitude))
        | _ =>
            data ← _add_landing_values (ground_run_data st) weight
                     current_altitude values flap_setting;
            Some (Tables data (total_distance_data st) (Some current_altitude))
        end
    | None => Some st
    end
  else if Py.contains "Total" line then
    match current_altitude st with
    | Some current_altitude =>
        let values_text := sub_empty re_upto_total line in
        let values_text := Py.replace "," "" values_text in
        let values := findall re_digits values_text in
        match values with
        | [] => Some st
        | _ =>
            data ← _add_landing_values (total_distance_data st) weight
                     current_altitude values flap_setting;
            Some (Tables (ground_run_data st) data (Some current_altitude))
        end
    | None => Some st
    end
  else Some st.

(** [parse_landing_tables(page_num, weight, flap_setting)]:
    [(ground_run_data, total_distance_data)]. *)
Definition parse_landing_tables (pages : document) (page_num : Z) (weight : Z)
    (flap_setting : string) : option (list row * list row) :=
  text ← extract_text_from_page pages page_num;
  let lines := Py.split_on "010" text in
  st ← Py.for_each lines (landing_line weight flap_setting) (Tables [] [] None);
  Some (ground_run_data st, total_distance_data st).

(** [self.page_locations['takeoff']], in the order of the dictionary. *)
Definition takeoff_locations : list (Z * (Z * Z)) :=
  [(6000, (271, 272)); (5500, (273, 274)); (5000, (275, 276))]%Z.

(** [extract_takeoff_data()]: the tables [all_ground_run] and
    [all_total_distance] it hands to [save_csv]. *)
Definition extract_takeoff_data (pages : document)
    : option (list row * list row) :=
  Py.for_each takeoff_locations
    (fun (acc : list row * list row) (loc : Z * (Z * Z)) =>
       let weight := loc.1 in
       let start_page := loc.2.1 in
       let end_page := loc.2.2 in
       match parse_takeoff_tables pages start_page weight with
       | None => None
       | Some (ground_run_data, total_distance_data) =>
           let all_ground_run := acc.1 ++ ground_run_data in
           let all_total_distance := acc.2 ++ total_distance_data in
           if (start_page <? end_page)%Z then
             match parse_takeoff_tables pages end_page weight with
             | None => None
             | Some (ground_run_data, total_distance_data) =>
                 Some (all_ground_run ++ ground_run_data,
                       all_total_distance ++ total_distance_data)
             end
           else Some (all_ground_run, all_total_distance)
       end)
    ([header], [header]).

(** [flap_configs] of [extract_landing_data]: each flap setting with its
    [self.page_locations] entry, in the order of the dictionary. *)
Definition flap_configs : list (string * list (Z * (Z * Z))) :=
  [ ("100"%string, [(5550, (381, 382)); (4500, (388, 389))]%Z);
    ("50"%string, [(5550, (383, 384)); (4500, (390, 391))]%Z);
    ("50 ice"%string, [(5550, (385, 386)); (4500, (392, 393))]%Z) ].

(** The tables [all_ground_run] and [all_total_distance] of one flap
    setting: the body of the outer loop of [extract_landing_data]. *)
Definition landing_tables (pages : document) (flap_setting : string)
    (weight_pages : list (Z * (Z * Z))) : option (list row * list row) :=
  Py.for_each weight_pages
    (fun (acc : list row * list row) (loc : Z * (Z * Z)) =>
       let weight := loc.1 in
       let end_page := loc.2.2 in
       match parse_landing_tables pages end_page weight flap_setting with
       | None => None
       | Some (ground_run_data, total_distance_data) =>
           Some (acc.1 ++ ground_run_data, acc.2 ++ total_distance_data)
       end)
    ([header], [header]).

(** [extract_landing_data()]: for each flap setting, in order, the two
    tables it hands to [save_csv]. *)
Definition extract_landing_data (pages : document)
    : option (list (string * (list row * list row))) :=
  Py.for_each flap_configs
    (fun saved (cfg : string * list (Z * (Z * Z))) =>
       match landing_tables pages cfg.1 cfg.2 with
       | None => None
       | Some tables => Some (saved ++ [(cfg.1, tables)])
       end)
    [].

(** [extract_climb_data()]: the tables [gradient_data] and [rate_data]
    it hands to [save_csv], from [page_locations['climb_gradient']] and
    [page_locations['climb_rate']]. *)
Definition extract_climb_data (pages : document)
    : option (list row * list row) :=
  gradient_data ← parse_climb_gradient_tables pages 276 281;
  rate_data ← parse_climb_rate_tables pages 282 287;
  Some (gradient_data, rate_data).

(** ** Contamination tables *)

(** A row of a contamination or reference-speed table: a list of
    cells. *)
Definition cells : Type := list string.

(** [^(\d{4})\s+(.+)] *)
Definition re_distance_row : regex :=
  Bol ⋅ Group 1 (Between Digit 4 4) ⋅ Plus Space ⋅ Group 2 (Plus Dot).

(** [depths], and [slush_depths] *)
Definition depths : list string := ["0.125"; "0.2"; "0.3"; "0.4"; "0.5"].

(** One iteration of the loop over the lines of the water page. *)
Definition water_line (water_data : list cells) (line : string)
    : option (list cells) :=
  match rmatch re_distance_row line with
  | Some m =>
      let distance := group m 1 in
      let values := findall re_digits (group m 2) in
      if 5 <=? length values then
        let water_data := water_data ++ [[distance; "0.0"%string; distance]] in
        Py.for_each (Py.enumerate depths)
          (fun (water_data : list cells) (id : nat * string) =>
             if id.1 <? length values then
               v ← Py.item values id.1;
               Some (water_data ++ [[distance; id.2; v]])
             else Some water_data)
          water_data
      else Some water_data
  | None => Some water_data
  end.

(** [water_data] of [extract_contamination_data], from the text of the
    water page. *)
Definition water_table (water_text : string) : option (list cells) :=
  Py.for_each (Py.split_on "010" water_text) water_line
    [["distance"; "depth"; "value"]%string].

(** The three tables of the snow page. *)
Record snow : Type := Snow {
  slush_data : list cells;
  dry_snow_data : list cells;
  compact_snow_data : list cells
}.

(** One iteration of the loop over the lines of the snow page. *)
Definition snow_line (st : snow) (line : string) : option snow :=
  match rmatch re_distance_row line with
  | Some m =>
      let distance := group m 1 in
      let values := findall re_digits (group m 2) in
      if 7 <=? length values then
        slush ← Py.for_each (Py.enumerate depths)
          (fun (slush_data : list cells) (id : nat * string) =>
             if id.1 <? 5 then
               v ← Py.item values id.1;
               Some (slush_data ++ [[distance; id.2; v]])
             else Some slush_data)
          (slush_data st);
        v5 ← Py.item values 5;
        v6 ← Py.item values 6;
        Some (Snow slush (dry_snow_data st ++ [[distance; v5]])
                (compact_snow_data st ++ [[distance; v6]]))
      else Some st
  | None => Some st
  end.

(** [slush_data], [dry_snow_data] and [compact_snow_data] of
    [extract_contamination_data], from the text of the snow page. *)
Definition snow_tables (snow_text : string) : option snow :=
  Py.for_each (Py.split_on "010" snow_text) snow_line
    (Snow [["distance"; "depth"; "value"]%string]
          [["distance"; "value"]%string]
          [["distance"; "value"]%string]).

(** [extract_contamination_data()]: the water table and the snow tables
    it hands to [save_csv], from the pages 418 and 419. *)
Definition extract_contamination_data (pages : document)
    : option (list cells * snow) :=
  water_text ← extract_text_from_page pages 418;
  snow_text ← extract_text_from_page pages 419;
  water_data ← water_table water_text;
  tables ← snow_tables snow_text;
  Some (water_data, tables).

(** ** Reference speeds *)

(** [weights] of [extract_vref_data] *)
Definition vref_weights : list string :=
  ["4000"; "4500"; "5000"; "5500"; "6000"].

(** [values[-5:]] *)
Definition last_five (values : list string) : list string :=
  drop (length values - 5) values.

(** [[['weight', 'value']]] extended by [[w, v]] for each
    [w, v in zip(weights, values[-5:])]. *)
Definition vref_rows (values : list string) : list cells :=
  ["weight"; "value"]%string
  :: zip_with (fun w v => [w; v]) vref_weights (last_five values).

(** One iteration of [for i, line in enumerate(lines)] of
    [extract_vref_data]: [vref_data] after it. *)
Definition vref_line (vref_data : gmap string (list cells))
    (il : nat * string) : gmap string (list cells) :=
  let i := il.1 in
  let line := il.2 in
  let values := findall re_digits line in
  if Py.contains "UP or UNKNOWN" line then
    if 5 <=? length values
    then <["up.csv"%string := vref_rows values]> vref_data
    else vref_data
  else if Py.contains "SPEED HIGH Advisory)" line then
    if 5 <=? length values then
      if (11 <=? i) && (i <=? 13)
      then <["up ice.csv"%string := vref_rows values]> vref_data
      else if (15 <=? i) && (i <=? 17)
      then <["50 ice.csv"%string := vref_rows values]> vref_data
      else vref_data
    else vref_data
  else if String.eqb (Py.strip line) "50%"
          || (Py.startswith "50%" (Py.strip line) && (Py.len line <? 20)) then
    if 5 <=? length values
    then <["50.csv"%string := vref_rows values]> vref_data
    else vref_data
  else if Py.startswith "100%" (Py.strip line) then
    if 5 <=? length values
    then <["100.csv"%string := vref_rows values]> vref_data
    else vref_data
  else vref_data.

(** [vref_data] of [extract_vref_data], from the text of the page. *)
Definition vref_tables (text : string) : gmap string (list cells) :=
  foldl vref_line ∅ (Py.enumerate (Py.split_on "010" text)).

(** [extract_vref_data()]: the tables it hands to [save_csv], by file
    name, from page 380. *)
Definition extract_vref_data (pages : document)
    : option (gmap string (list cells)) :=
  text ← extract_text_from_page pages 380;
  Some (vref_tables text).

End G1.

(* ===================================================================== *)
(** * [extract_g2plus_data.py]: [G2PlusAFMDataExtractor] *)
(* ===================================================================== *)

Module G2Plus.
Import Re.

(** The document: [self.pdf_reader.pages], each page standing for the
    text its [extract_text()] returns. *)
Definition document : Type := list string.

(** [extract_text_from_page(page_num)] *)
Definition extract_text_from_page (pages : document) (page_num : Z)
    : option string :=
  if (page_num <? Z.of_nat (length pages))%Z
  then Py.index pages page_num
  else Some EmptyString.

(** ** Takeoff tables *)

(** [_process_takeoff_values(data, weight, altitude, values)]: the list
    [data] after the call. *)
Definition _process_takeoff_values (data : list row) (weight : Z)
    (altitude : string) (values : list string) : option (list row) :=
  alt_int ← Py.int altitude;
  let temps := [-20; -10; 0; 10; 20; 30; 40; 50]%Z in
  if (7000 <=? alt_int)%Z then
    let num_temp_values := length values - 1 in
    data ← Py.for_each (seq 0 num_temp_values)
      (fun data j =>
         if j <? length temps then
           t ← Py.item temps j;
           v ← Py.item values j;
           Some (data ++ [Row (Py.str_int weight) altitude (Text (Py.str_int t)) v])
         else Some data)
      data;
    isa_temp ← calculate_isa_temp alt_int;
    v ← Py.index values (-1);
    Some (data ++ [Row (Py.str_int weight) altitude (FloatRepr isa_temp) v])
  else
    data ← Py.for_each (seq 0 (min 8 (length values)))
      (fun data j =>
         t ← Py.item temps j;
         v ← Py.item values j;
         Some (data ++ [Row (Py.str_int weight) altitude (Text (Py.str_int t)) v]))
      data;
    if 8 <? length values then
      isa_temp ← calculate_isa_temp alt_int;
      v ← Py.item values 8;
      Some (data ++ [Row (Py.str_int weight) altitude (FloatRepr isa_temp) v])
    else Some data.

(** [(SL|\d+)\s*Gnd\s*Roll] *)
Definition re_gnd_roll : regex :=
  Group 1 (Alt (Lit "SL") (Plus Digit)) ⋅ Star Space ⋅ Lit "Gnd"
  ⋅ Star Space ⋅ Lit "Roll".

(** [^.*?Roll\s*] *)
Definition re_upto_roll : regex :=
  Bol ⋅ LazyStar Dot ⋅ Lit "Roll" ⋅ Star Space.

(** [^.*?Total\s*] *)
Definition re_upto_total : regex :=
  Bol ⋅ LazyStar Dot ⋅ Lit "Total" ⋅ Star Space.

(** ['0' if alt_match.group(1) == 'SL' else alt_match.group(1)] *)
Definition altitude_token (alt_match : mobj) : string :=
  if String.eqb (group alt_match 1) "SL" then "0" else group alt_match 1.

(** The look-back [for j in range(i-1, max(0, i-5), -1)] of a total row,
    with its [break]: [all_total_distance] after it. *)
Fixpoint look_back (js : list Z) (lines : list string) (weight : Z)
    (values : list string) (all_total_distance : list row)
    : option (list row) :=
  match js with
  | [] => Some all_total_distance
  | j :: js' =>
      l ← Py.index lines j;
      let prev_line := Py.strip l in
      if Py.contains "Gnd" prev_line && Py.contains "Roll" prev_line then
        match search re_gnd_roll prev_line with
        | Some alt_match =>
            _process_takeoff_values all_total_distance weight
              (altitude_token alt_match) values
        | None => look_back js' lines weight values all_total_distance
        end
      else look_back js' lines weight values all_total_distance
  end.

(** One iteration of [for i, line in enumerate(lines)] of
    [extract_takeoff_data]; the state is
    [(all_ground_run, all_total_distance)]. *)
Definition takeoff_line (lines : list string) (weight : Z)
    (acc : list row * list row) (il : nat * string)
    : option (list row * list row) :=
  let '(all_ground_run, all_total_distance) := acc in
  let '(i, line) := il in
  let line := Py.strip line in
  if Py.contains "Gnd" line && Py.contains "Roll" line then
    match search re_gnd_roll line with
    | Some alt_match =>
        let altitude := altitude_token alt_match in
        let values_text := sub_empty re_upto_roll line in
        let values := findall re_digits values_text in
        match values with
        | [] => Some acc
        | _ =>
            data ← _process_takeoff_values all_ground_run weight altitude values;
            Some (data, all_total_distance)
        end
    | None => Some acc
    end
  else if Py.contains "Total" line && negb (Py.contains "Takeoff" line) then
    let values_text := sub_empty re_upto_total line in
    let values := findall re_digits values_text in
    match values with
    | [] => Some acc
    | _ =>
        let i := Z.of_nat i in
        data ← look_back (Py.range_down (i - 1) (Z.max 0 (i - 5))) lines weight
                 values all_total_distance;
        Some (all_ground_run, data)
    end
  else Some acc.

(** [weight_pages] of [extract_takeoff_data], in the order of the
    dictionary. *)
Definition weight_pages : list (Z * list Z) :=
  [(6000, [4]); (5500, [6]); (5000, [8])]%Z.

(** The body of [for page_num in pages] of [extract_takeoff_data]. *)
Definition takeoff_page (pages : document) (weight : Z)
    (acc : list row * list row) (page_num : Z) : option (list row * list row) :=
  text ← extract_text_from_page pages page_num;
  let text := Py.replace "10,000" "10000" text in
  let lines := Py.split_on "010" text in
  Py.for_each (Py.enumerate lines) (takeoff_line lines weight) acc.

(** [extract_takeoff_data()]: the tables [all_ground_run] and
    [all_total_distance] it hands to [save_csv]. *)
Definition extract_takeoff_data (pages : document)
    : option (list row * list row) :=
  Py.for_each weight_pages
    (fun acc '(weight, page_nums) =>
       Py.for_each page_nums (takeoff_page pages weight) acc)
    ([header], [header]).

(** ** Climb matrices *)

(** [weights] of [parse_climb_gradient_tables] *)
Definition weights : list Z := [6000; 5500; 5000; 4500]%Z.

(** [expected_altitudes] *)
Definition expected_altitudes : list string :=
  ["0"; "1000"; "2000"; "3000"; "4000"; "5000"; "6000"; "7000"; "8000";
   "9000"; "10000"].

(** [^(-?\d+)\s+(\d+)\s+(\d+)\s+(\d+)\s+(\d+)] *)
Definition re_temperature_row : regex :=
  Bol ⋅ Group 1 (Opt (Chr "-") ⋅ Plus Digit) ⋅ Plus Space
  ⋅ Group 2 (Plus Digit) ⋅ Plus Space ⋅ Group 3 (Plus Digit) ⋅ Plus Space
  ⋅ Group 4 (Plus Digit) ⋅ Plus Space ⋅ Group 5 (Plus Digit).

(** [for w_idx, weight in enumerate(weights): if w_idx < len(values):
    data.append([str(weight), altitude, temp, values[w_idx]])]; the
    source writes this loop once per kind of line. *)
Definition append_rows (data : list row) (altitude temp : string)
    (values : list string) : option (list row) :=
  Py.for_each (Py.enumerate weights)
    (fun data '(w_idx, weight) =>
       if w_idx <? length values then
         v ← Py.item values w_idx;
         Some (data ++ [Row (Py.str_int weight) altitude (Text temp) v])
       else Some data)
    data.

(** The rows of a temperature line
    [match.group(1), [match.group(2), ..., match.group(5)]]. *)
Definition temperature_row (data : list row) (altitude : string)
    (line : string) : option (list row) :=
  match rmatch re_temperature_row line with
  | Some m =>
      let temp := group m 1 in
      let values := [group m 2; group m 3; group m 4; group m 5] in
      append_rows data altitude temp values
  | None => Some data
  end.

(** One line of page 9, which holds altitude 0 only. *)
Definition page9_line (data : list row) (line : string) : option (list row) :=
  let line := Py.strip line in
  if Py.startswith "0-" line then
    let parts := Py.split_ws line in
    if 5 <=? length parts then
      p0 ← Py.item parts 0;
      let temp := Py.drop_str 1 p0 in
      let values := Py.slice_list 1 5 parts in
      append_rows data "0" temp values
    else Some data
  else temperature_row data "0" line.

(** The rows of an altitude marker found in [parts], the pieces of the
    line from the marker on. *)
Definition marker_rows (data : list row) (alt : string) (parts : list string)
    : option (list row) :=
  p0 ← Py.item parts 0;
  temp ← Py.item (Py.split_on "-" p0) 1;
  let values := Py.slice_list 1 5 parts in
  append_rows data alt ("-" +:+ temp) values.

(** [for alt in expected_altitudes] on one line, with its [break]s: the
    state [(data, current_altitude)] after it. *)
Fixpoint altitude_marker (alts : list string) (line : string)
    (data : list row) (current_altitude : option string)
    : option (list row * option string) :=
  match alts with
  | [] => Some (data, current_altitude)
  | alt :: alts' =>
      if Py.startswith (alt +:+ "-") line then
        let parts := Py.split_ws line in
        if 5 <=? length parts then
          data ← marker_rows data alt parts;
          Some (data, Some alt)
        else altitude_marker alts' line data current_altitude
      else if Py.contains (alt +:+ "-") line && Py.contains "of" line then
        let idx := Py.find (alt +:+ "-") line in
        let rest := Py.slice_from idx line in
        let parts := Py.split_ws rest in
        if 5 <=? length parts then
          data ← marker_rows data alt parts;
          Some (data, Some alt)
        else altitude_marker alts' line data current_altitude
      else altitude_marker alts' line data current_altitude
  end.

(** [any(line.startswith(f"{alt}-") or f"{alt}-" in line for alt in
    expected_altitudes)] *)
Definition mentions_altitude (line : string) : bool :=
  existsb
    (fun alt => Py.startswith (alt +:+ "-") line || Py.contains (alt +:+ "-") line)
    expected_altitudes.

(** One iteration of [for line in lines] on the pages 10 to 14; the state
    is [(data, current_altitude)]. *)
Definition climb_line (acc : list row * option string) (line : string)
    : option (list row * option string) :=
  let '(data, current_altitude) := acc in
  let line := Py.strip line in
  match altitude_marker expected_altitudes line data current_altitude with
  | None => None
  | Some (data, current_altitude) =>
      match current_altitude with
      | Some altitude =>
          if negb (mentions_altitude line) then
            data ← temperature_row data altitude line;
            Some (data, current_altitude)
          else Some (data, current_altitude)
      | None => Some (data, current_altitude)
      end
  end.

(** The body of [for page_num in range(10, 15)] after its [break] test:
    [data] after the page. *)
Definition climb_page (pages : document) (data : list row) (page_num : Z)
    : option (list row) :=
  text ← extract_text_from_page pages page_num;
  let text := Py.replace "10,000" "10000" text in
  let lines := Py.split_on "010" text in
  acc ← Py.for_each lines climb_line (data, None);
  Some acc.1.

(** [for page_num in range(10, 15)] with
    [if page_num >= len(self.pdf_reader.pages): break]. *)
Fixpoint climb_pages (page_nums : list Z) (pages : document) (data : list row)
    : option (list row) :=
  match page_nums with
  | [] => Some data
  | page_num :: page_nums' =>
      if (Z.of_nat (length pages) <=? page_num)%Z then Some data
      else
        data ← climb_page pages data page_num;
        climb_pages page_nums' pages data
  end.

(** [parse_climb_gradient_tables()] *)
Definition parse_climb_gradient_tables (pages : document) : option (list row) :=
  data ← (if 9 <? length pages then
            text ← extract_text_from_page pages 9;
            let text := Py.replace "10,000" "10000" text in
            let lines := Py.split_on "010" text in
            Py.for_each lines page9_line [header]
          else Some [header]);
  climb_pages (Py.range 10 15) pages data.

(** ** Landing tables *)

(** [_process_landing_values(data, weight, altitude, values)]: the list
    [data] after the call. *)
Definition _process_landing_values (data : list row) (weight : Z)
    (altitude : string) (values : list string) : option (list row) :=
  alt_int ← Py.int altitude;
  if 0 <? length values then
    v0 ← Py.item values 0;
    let data := data ++ [Row (Py.str_int weight) altitude (Text "0") v0] in
    let temps := [10; 20; 30; 40; 50]%Z in
    let num_temp_values := (Z.of_nat (length values) - 2)%Z in
    data ← Py.for_each (Py.range 0 num_temp_values)
      (fun data i =>
         if (i <? Z.of_nat (length temps))%Z then
           t ← Py.index temps i;
           v ← Py.index values (i + 1);
           Some (data ++ [Row (Py.str_int weight) altitude (Text (Py.str_int t)) v])
         else Some data)
      data;
    if 1 <? length values then
      isa_temp ← calculate_isa_temp alt_int;
      v ← Py.index values (-1);
      Some (data ++ [Row (Py.str_int weight) altitude (FloatRepr isa_temp) v])
    else Some data
  else Some data.

(** [(SL|\d+)\s*Gnd\s*Roll\s*([\d\s]+)] *)
Definition re_gnd_roll_values : regex :=
  Group 1 (Alt (Lit "SL") (Plus Digit)) ⋅ Star Space ⋅ Lit "Gnd"
  ⋅ Star Space ⋅ Lit "Roll" ⋅ Star Space ⋅ Group 2 (Plus DigitSpace).

(** [(SL|\d+)\s*Total\s*([\d\s]+)] *)
Definition re_total_values : regex :=
  Group 1 (Alt (Lit "SL") (Plus Digit)) ⋅ Star Space ⋅ Lit "Total"
  ⋅ Star Space ⋅ Group 2 (Plus DigitSpace).

(** The look-back [for j in range(i-1, max(0, i-2), -1)] of a landing
    total row, with its [break]: [all_total_distance] after it. *)
Fixpoint landing_look_back (js : list Z) (lines : list string) (weight : Z)
    (values : list string) (all_total_distance : list row)
    : option (list row) :=
  match js with
  | [] => Some all_total_distance
  | j :: js' =>
      l ← Py.index lines j;
      let prev_line := Py.strip l in
      if Py.contains "Gnd Roll" prev_line then
        match search re_gnd_roll prev_line with
        | Some alt_match =>
            _process_landing_values all_total_distance weight
              (altitude_token alt_match) values
        | None => landing_look_back js' lines weight values all_total_distance
        end
      else landing_look_back js' lines weight values all_total_distance
  end.

(** One iteration of [for i, line in enumerate(lines)] of
    [extract_landing_data]; the state is
    [(all_ground_run, all_total_distance)]. *)
Definition landing_line (lines : list string) (weight : Z)
    (acc : list row * list row) (il : nat * string)
    : option (list row * list row) :=
  let '(all_ground_run, all_total_distance) := acc in
  let '(i, line) := il in
  let line := Py.strip line in
  if Py.contains "Gnd Roll" line then
    match rmatch re_gnd_roll_values line with
    | Some m =>
        let altitude := altitude_token m in
        let values := findall re_digits (group m 2) in
        match values with
        | [] => Some acc
        | _ =>
            data ← _process_landing_values all_ground_run weight altitude values;
            Some (data, all_total_distance)
        end
    | None => Some acc
    end
  else if Py.contains "Total" line && negb (Py.contains "Landing" line) then
    match rmatch re_total_values line with
    | Some m =>
        let altitude := altitude_token m in
        let values := findall re_digits (group m 2) in
        match values with
        | [] => Some acc
        | _ =>
            data ← _process_landing_values all_total_distance weight altitude
                     values;
            Some (all_ground_run, data)
        end
    | None =>
        let values_text := sub_empty re_upto_total line in
        let values_text := Py.replace "," "" values_text in
        let values := findall re_digits values_text in
        match values with
        | [] => Some acc
        | _ =>
            let i := Z.of_nat i in
            data ← landing_look_back (Py.range_down (i - 1) (Z.max 0 (i - 2)))
                     lines weight values all_total_distance;
            Some (all_ground_run, data)
        end
    end
  else Some acc.

(** [landing_configs] of [extract_landing_data], in the order of the
    dictionaries. *)
Definition landing_configs : list (string * list (Z * list Z)) :=
  [ ("100"%string, [(5550, [22]); (4500, [26])]%Z);
    ("50"%string, [(5550, [24]); (4500, [28])]%Z) ].

(** The body of [for page_num in pages] of [extract_landing_data]. *)
Definition landing_page (pages : document) (weight : Z)
    (acc : list row * list row) (page_num : Z) : option (list row * list row) :=
  text ← extract_text_from_page pages page_num;
  let text := Py.replace "10,000" "10000" text in
  let lines := Py.split_on "010" text in
  Py.for_each (Py.enumerate lines) (landing_line lines weight) acc.

(** The tables [all_ground_run] and [all_total_distance] of one flap
    setting: the body of the outer loop of [extract_landing_data]. *)
Definition landing_tables (pages : document) (weight_pages : list (Z * list Z))
    : option (list row * list row) :=
  Py.for_each weight_pages
    (fun acc (wp : Z * list Z) =>
       Py.for_each wp.2 (landing_page pages wp.1) acc)
    ([header], [header]).

(** [extract_landing_data()]: for each flap setting, in order, the two
    tables it hands to [save_csv]. *)
Definition extract_landing_data (pages : document)
    : option (list (string * (list row * list row))) :=
  Py.for_each landing_configs
    (fun saved (cfg : string * list (Z * list Z)) =>
       match landing_tables pages cfg.2 with
       | None => None
       | Some tables => Some (saved ++ [(cfg.1, tables)])
       end)
    [].

(** ** The climb-rate matrix *)

(** [parse_climb_rate_tables()]: the text of
    [parse_climb_gradient_tables] with the pages 15 and 16 to 20 in the
    place of 9 and 10 to 14. *)
Definition parse_climb_rate_tables (pages : document) : option (list row) :=
  data ← (if 15 <? length pages then
            text ← extract_text_from_page pages 15;
            let text := Py.replace "10,000" "10000" text in
            let lines := Py.split_on "010" text in
            Py.for_each lines page9_line [header]
          else Some [header]);
  climb_pages (Py.range 16 21) pages data.

(** [extract_climb_data()]: the tables [gradient_data] and [rate_data]
    it hands to [save_csv]. *)
Definition extract_climb_data (pages : document)
    : option (list row * list row) :=
  gradient_data ← parse_climb_gradient_tables pages;
  rate_data ← parse_climb_rate_tables pages;
  Some (gradient_data, rate_data).

End G2Plus.

(* ===================================================================== *)
(** * Vocabulary of the statements *)
(* ===================================================================== *)

(** The altitudes of the documented grid: 0 to 10000 ft in 1000-ft steps. *)
Definition on_grid (altitude : Z) : Prop :=
  (0 <= altitude <= 10000)%Z /\ (altitude mod 1000 = 0)%Z.

(** A cell that prints a negative integer temperature. *)
Definition negative_temperature (c : cell) : Prop :=
  exists t : Z, (t < 0)%Z /\ c = Text (Py.str_int t).

(** The rows the 50-ice landing configuration adds for [values]. *)
Definition ice_rows (weight : Z) (altitude : string) (values : list string)
    : list row :=
  zip_with (fun t v => Row (Py.str_int weight) altitude (Text t) v)
    ["-20"; "-10"; "0"; "10"]%string values.

(** The rows of a takeoff line with nine tokens: eight temperatures from
    the coldest on, then the reference-atmosphere row. *)
Definition nine_token_rows (weight : Z) (altitude : string) (t : float)
    (v1 v2 v3 v4 v5 v6 v7 v8 v9 : string) : list row :=
  let w := Py.str_int weight in
  [ Row w altitude (Text "-20") v1; Row w altitude (Text "-10") v2;
    Row w altitude (Text "0") v3; Row w altitude (Text "10") v4;
    Row w altitude (Text "20") v5; Row w altitude (Text "30") v6;
    Row w altitude (Text "40") v7; Row w altitude (Text "50") v8;
    Row w altitude (FloatRepr t) v9 ].

(** The ground-run line of the takeoff scenario. *)
Definition scenario_line : string :=
  "SLGnd Roll 550 600 650 700 750 800 850 900 910"%string.

(** The rows of one temperature of a climb matrix: the values that are
    digit strings, each beside its weight; the weights are the last
    [len(values)] ones when there are fewer values than weights. *)
Definition rows_of (altitude : string) (temp : Z) (values : list string)
    : list row :=
  flat_map
    (fun wv : Z * string =>
       if Py.str_isdigit wv.2
       then [Row (Py.str_int wv.1) altitude (Text (Py.str_int temp)) wv.2]
       else [])
    (zip (drop (length G1.weights - length values) G1.weights) values).

(** ['\n'.join(lines)]: a page given by its lines. *)
Definition page_of (lines : list string) : string :=
  String.concat (String "010" EmptyString) lines.

(** The anchor line of the climb-matrix scenario. *)
Definition anchor_line : string := "1000-40 1232 1301 1378 1455"%string.

(** The rows of one temperature at altitude 1000, heaviest weight first. *)
Definition rows_1000 (temp v1 v2 v3 v4 : string) : list row :=
  [ Row "6000" "1000" (Text temp) v1; Row "5500" "1000" (Text temp) v2;
    Row "5000" "1000" (Text temp) v3; Row "4500" "1000" (Text temp) v4 ].

(** A page with the same anchor twice, the values differing. *)
Definition repeated_anchor : string :=
  page_of ["1000-40 1232 1301 1378 1455"; "1000-40 1240 1310 1380 1460"]%string.

(** A page with one temperature twice under one anchor. *)
Definition repeated_temperature : string :=
  page_of ["1000-40 1232 1301 1378 1455"; "-30 1217 1286 1362 1439";
           "-30 1200 1270 1350 1420"]%string.

(** ** What a pattern matches *)

(** The texts a pattern matches, the anchors aside. *)
Fixpoint matches (r : Re.regex) (w : string) : Prop :=
  match r with
  | Re.Lit s => w = s
  | Re.Rep k lo hi _ =>
      Py.forallb_string (Re.in_class k) w = true
      /\ lo <= Py.len w
      /\ match hi with Some h => Py.len w <= h | None => True end
  | Re.Seq r1 r2 =>
      exists w1 w2, w = w1 +:+ w2 /\ matches r1 w1 /\ matches r2 w2
  | Re.Alt r1 r2 => matches r1 w \/ matches r2 w
  | Re.Group _ r1 => matches r1 w
  | Re.Bol | Re.Eol => w = EmptyString
  end.

(** The groups of a pattern, each with its number. *)
Fixpoint groups (r : Re.regex) : list (nat * Re.regex) :=
  match r with
  | Re.Seq r1 r2 | Re.Alt r1 r2 => groups r1 ++ groups r2
  | Re.Group n r1 => (n, r1) :: groups r1
  | _ => []
  end.

(** The group [n] takes part in every match of the pattern. *)
Fixpoint binds (n : nat) (r : Re.regex) : bool :=
  match r with
  | Re.Seq r1 r2 => binds n r1 || binds n r2
  | Re.Alt r1 r2 => binds n r1 && binds n r2
  | Re.Group m r1 => (n =? m) || binds n r1
  | _ => false
  end.

(** A match object of the pattern [r] on the text [s]: its span lies in
    [s] and holds a text that [r] matches, and so does the span of every
    group that takes part in every match. *)
Definition match_ok (r : Re.regex) (s : string) (m : Re.mobj) : Prop :=
  Re.m_text m = s
  /\ Re.m_start m <= Re.m_end m <= Py.len s
  /\ matches r (Py.slice (Re.m_start m) (Re.m_end m) s)
  /\ (forall n, binds n r = true ->
        exists r1, (n, r1) ∈ groups r /\ matches r1 (Re.group m n)).

(** A non-empty run of decimal digits. *)
Definition digits (w : string) : Prop :=
  Py.forallb_string Py.isdecimal w = true /\ 1 <= Py.len w.

(** The scan of [s] is at position [pos], with [rest] the text from
    there. *)
Definition at_position (s : string) (pos : nat) (rest : string) : Prop :=
  exists pre, s = pre +:+ rest /\ Py.len pre = pos.

(** The four rows of one temperature line of a G2+ climb matrix,
    heaviest weight first. *)
Definition climb_block (altitude temp v1 v2 v3 v4 : string) : list row :=
  [ Row "6000" altitude (Text temp) v1; Row "5500" altitude (Text temp) v2;
    Row "5000" altitude (Text temp) v3; Row "4500" altitude (Text temp) v4 ].

(** The rows of a run of temperatures beside a run of values. *)
Definition temperature_rows (weight : Z) (altitude : string) (temps : list Z)
    (values : list string) : list row :=
  zip_with (fun t v => Row (Py.str_int weight) altitude (Text (Py.str_int t)) v)
    temps values.

(** The reference-atmosphere row of the value [v]. *)
Definition isa_row (weight : Z) (altitude : string) (t : float) (v : string)
    : row :=
  Row (Py.str_int weight) altitude (FloatRepr t) v.

(** [temps] of the takeoff tables *)
Definition takeoff_temps : list Z := [-20; -10; 0; 10; 20; 30; 40; 50]%Z.

(** [all_temps] of the landing tables other than 50 ice *)
Definition landing_temps : list Z := [10; 20; 30; 40; 50]%Z.

(** The number of temperature columns G1 reads off [n] tokens at the
    altitude [a]. *)
Definition g1_expected_cols (a : Z) (n : nat) : nat :=
  if (5000 <=? a)%Z && (7 <=? n) && (n <=? 9) then n - 1 else min n 8.

(** The handler of the landing tables other than 50 ice, in closed form:
    the code of either extractor. *)
Definition landing_closed (data : list row) (weight : Z) (altitude : string)
    (values : list string) : option (list row) :=
  a ← Py.int altitude;
  match values with
  | [] => Some data
  | v0 :: rest =>
      let first := Row (Py.str_int weight) altitude (Text "0") v0 in
      match rest with
      | [] => Some (data ++ [first])
      | _ =>
          t ← calculate_isa_temp a;
          v ← last rest;
          Some (data
                  ++ first
                     :: take (length rest - 1)
                          (temperature_rows weight altitude landing_temps rest)
                  ++ [isa_row weight altitude t v])
      end
  end.

(** [Some x ≫= f] is [f x]. *)
Ltac bind_some :=
  repeat match goal with
         | |- context [Some ?x ≫= ?f] =>
             change (Some x ≫= f) with (f x); cbv beta
         end.

(** The texts of a run of pages, a line feed after each:
    [''.join(t + '\n' for t in texts)]. *)
Definition pages_text (texts : list string) : string :=
  foldr (fun t acc => t +:+ String "010" EmptyString +:+ acc) EmptyString texts.

(** ** The rows of the climb matrices *)

(** An entry of G1's [altitude_data] for the lines [lines]: the index of
    a line, an altitude token that reads as an altitude of the grid, and
    four values, each a run of digits. *)
Definition anchor_ok (lines : list string) (a : G1.anchor) : Prop :=
  a.1.1 < length lines
  /\ (exists alt, Py.int a.1.2 = Some alt /\ on_grid alt)
  /\ length a.2 = 4
  /\ Forall digits a.2.

(** A data row of a G1 climb matrix: one of the four weights, an altitude
    token that reads as an altitude of the grid, an integer temperature
    from -40 to 50, and a value [str.isdigit] accepts. *)
Definition g1_climb_row (r : row) : Prop :=
  r_weight r ∈ ["6000"; "5500"; "5000"; "4500"]%string
  /\ (exists alt, Py.int (r_altitude r) = Some alt /\ on_grid alt)
  /\ (exists t, r_temperature r = Text (Py.str_int t) /\ (-40 <= t <= 50)%Z)
  /\ Py.str_isdigit (r_value r) = true.

(** The keys of [temp_data] are temperatures from -40 to 50. *)
Definition temperatures_ok (temp_data : gmap Z (list string)) : Prop :=
  forall t values, temp_data !! t = Some values -> (-40 <= t <= 50)%Z.

(** Data rows that come in blocks of four, each block at one of the
    expected altitudes. *)
Inductive climb_blocks : list row -> Prop :=
| climb_blocks_nil : climb_blocks []
| climb_blocks_app (rows : list row) (altitude temp v1 v2 v3 v4 : string) :
    climb_blocks rows ->
    altitude ∈ G2Plus.expected_altitudes ->
    climb_blocks (rows ++ climb_block altitude temp v1 v2 v3 v4).

(** No character of [s] is a blank. *)
Definition no_blank (s : string) : Prop :=
  Py.forallb_string (fun c => negb (Py.isspace c)) s = true.

(** ** The rows of the contamination and reference-speed tables *)

(** Exactly four decimal digits. *)
Definition four_digits (w : string) : Prop := digits w /\ Py.len w = 4.

(** The six rows the water table holds for one distance. *)
Definition water_block (d v1 v2 v3 v4 v5 : string) : list G1.cells :=
  [ [d; "0.0"; d]; [d; "0.125"; v1]; [d; "0.2"; v2]; [d; "0.3"; v3];
    [d; "0.4"; v4]; [d; "0.5"; v5] ]%string.

(** Rows that come in blocks of six, one block for each distance. *)
Inductive water_rows : list G1.cells -> Prop :=
| water_rows_nil : water_rows []
| water_rows_app (rows : list G1.cells) (d v1 v2 v3 v4 v5 : string) :
    water_rows rows ->
    four_digits d -> Forall digits [v1; v2; v3; v4; v5] ->
    water_rows (rows ++ water_block d v1 v2 v3 v4 v5).

(** The five rows the slush table holds for one distance. *)
Definition slush_block (d v1 v2 v3 v4 v5 : string) : list G1.cells :=
  [ [d; "0.125"; v1]; [d; "0.2"; v2]; [d; "0.3"; v3]; [d; "0.4"; v4];
    [d; "0.5"; v5] ]%string.

(** The data rows of the three snow tables, side by side: each distance
    has five rows in the slush table and one row in each of the other
    two. *)
Inductive snow_rows : list G1.cells -> list G1.cells -> list G1.cells -> Prop :=
| snow_rows_nil : snow_rows [] [] []
| snow_rows_app (slush dry compact : list G1.cells)
    (d v1 v2 v3 v4 v5 v6 v7 : string) :
    snow_rows slush dry compact ->
    four_digits d -> Forall digits [v1; v2; v3; v4; v5; v6; v7] ->
    snow_rows (slush ++ slush_block d v1 v2 v3 v4 v5)
      (dry ++ [[d; v6]]) (compact ++ [[d; v7]]).

(** A reference-speed table: the header and one row for each weight. *)
Definition vref_table (table : list G1.cells) : Prop :=
  exists v1 v2 v3 v4 v5,
    table = [ ["weight"; "value"]; ["4000"; v1]; ["4500"; v2]; ["5000"; v3];
              ["5500"; v4]; ["6000"; v5] ]%string
    /\ Forall digits [v1; v2; v3; v4; v5].

(** The file names of the reference-speed tables. *)
Definition vref_files : list string :=
  ["up.csv"; "up ice.csv"; "50 ice.csv"; "50.csv"; "100.csv"].

(** A string of known length is a sequence of that many characters. *)
Ltac explode s H :=
  repeat (destruct s as [|? s]; [discriminate H |]; simpl in H);
  destruct s as [|? s]; [clear H | discriminate H].

(* ===================================================================== *)
(** * Properties of the Python primitives *)
(* ===================================================================== *)

Section Primitives.

Lemma to_int_proper (z : Z) :
  Z.to_int z <> Decimal.Pos Decimal.Nil /\ Z.to_int z <> Decimal.Neg Decimal.Nil.
Proof.
  destruct z as [|p|p]; simpl; split; try discriminate;
    intros [= H]; exact (DecimalPos.Unsigned.to_uint_nonnil p H).
Qed.

(** [str] is injective on the integers. *)
Lemma str_int_inj (a b : Z) : Py.str_int a = Py.str_int b -> a = b.
Proof.
  unfold Py.str_int. intros H.
  destruct (to_int_proper a) as [Ha1 Ha2], (to_int_proper b) as [Hb1 Hb2].
  pose proof (NilZero.isi _ Ha1 Ha2) as Ea.
  pose proof (NilZero.isi _ Hb1 Hb2) as Eb.
  rewrite H in Ea. rewrite Ea in Eb. injection Eb as Eb.
  rewrite <- (DecimalZ.of_to a), <- (DecimalZ.of_to b). now rewrite Eb.
Qed.

#[global] Instance str_int_injective : Inj (=) (=) Py.str_int.
Proof. intros a b. apply str_int_inj. Qed.

Lemma str_int_negative_not_zero (t : Z) :
  (t < 0)%Z -> Py.str_int t <> "0"%string.
Proof. intros Ht H. apply (str_int_inj t 0) in H. lia. Qed.

Lemma float_neq (f g : float) : Prim2SF f <> Prim2SF g -> f <> g.
Proof. intros H ->. now apply H. Qed.

Lemma startswith_zero (s : string) :
  Py.startswith "0" s = true -> exists s', s = String "0" s'.
Proof.
  unfold Py.startswith. intros H. apply prefix_correct in H.
  destruct s as [|c s]; simpl in H; [discriminate|].
  injection H as ->. eauto.
Qed.

Context {A S : Type}.

Lemma for_each_cons (x : A) (xs : list A) (body : S -> A -> option S) (s : S) :
  Py.for_each (x :: xs) body s = body s x ≫= Py.for_each xs body.
Proof. simpl. by destruct (body s x). Qed.

(** A loop whose iterations all leave the state alone leaves it alone. *)
Lemma for_each_noop (xs : list A) (body : S -> A -> option S) (s : S) :
  (forall x, x ∈ xs -> body s x = Some s) ->
  Py.for_each xs body s = Some s.
Proof.
  induction xs as [|x xs IH]; intros H; simpl; [done|].
  rewrite (H x) by set_solver. apply IH. intros y Hy. apply H. set_solver.
Qed.

Lemma index_nonneg (l : list A) (i : Z) :
  (0 <= i)%Z -> Py.index l i = l !! Z.to_nat i.
Proof. intros H. unfold Py.index. destruct (Z.ltb_spec i 0); [lia | done]. Qed.

Lemma index_negative (l : list A) (i : Z) :
  (- Z.of_nat (length l) <= i < 0)%Z ->
  Py.index l i = l !! Z.to_nat (Z.of_nat (length l) + i).
Proof.
  intros H. unfold Py.index. destruct (Z.ltb_spec i 0); [|lia].
  destruct (Z.ltb_spec (Z.of_nat (length l) + i) 0); [lia | done].
Qed.

Lemma index_below (l : list A) (i : Z) :
  (i < - Z.of_nat (length l))%Z -> Py.index l i = None.
Proof.
  intros H. unfold Py.index. destruct (Z.ltb_spec i 0); [|lia].
  destruct (Z.ltb_spec (Z.of_nat (length l) + i) 0); [done | lia].
Qed.

Lemma drop_not_in_take (l : list A) (k : nat) (x : A) :
  NoDup l -> x ∈ drop k l -> x ∉ take k l.
Proof.
  intros Hnd Hd Ht. rewrite <- (take_drop k l) in Hnd.
  apply NoDup_app in Hnd as (_ & Hdisj & _). by apply (Hdisj x).
Qed.

End Primitives.

(* ===================================================================== *)
(** * The reference-atmosphere resolver *)
(* ===================================================================== *)

Section ReferenceAtmosphere.

Lemma isa_values_off_grid (altitude : Z) :
  ~ on_grid altitude -> isa_values !! altitude = None.
Proof.
  intros H. unfold isa_values. simpl.
  repeat (rewrite lookup_insert_ne;
          [| intros <-; apply H; unfold on_grid; split; [lia | reflexivity]]).
  apply lookup_empty.
Qed.

Lemma float_of_int_overflow (n : Z) :
  Py.float_of_int n = None <-> (Py.float_overflow_bound <= Z.abs n)%Z.
Proof.
  unfold Py.float_of_int.
  destruct (Z.leb_spec Py.float_overflow_bound (Z.abs n)); split; try done; lia.
Qed.

(** C2, as the code has it.  The resolver fails exactly on the integers
    that have no nearest binary64 value, of magnitude [2^1024 - 2^970] or
    more: the fallback is computed before the table is consulted.  On
    every other altitude it returns a value: on the grid 0, 1000, ...,
    10000 the entry of its table, which at 5000 ft is 5.094000000000001
    and at 9000 ft is -2.8308, and off the grid
    [15.0 - (altitude / 1000.0 * 1.98)] in binary64 arithmetic. *)
Theorem calculate_isa_temp_spec (altitude : Z) :
  (calculate_isa_temp altitude = None
     <-> (Py.float_overflow_bound <= Z.abs altitude)%Z)
  /\ (forall t : float,
        In (altitude, t)
          [ (0%Z, 15.0%float); (1000%Z, 13.0188%float);
            (2000%Z, 11.037600000000001%float); (3000%Z, 9.0564%float);
            (4000%Z, 7.075200000000001%float);
            (5000%Z, 5.094000000000001%float);
            (6000%Z, 3.112800000000002%float);
            (7000%Z, 1.1316000000000006%float);
            (8000%Z, (-0.8495999999999988)%float);
            (9000%Z, (-2.8308)%float);
            (10000%Z, (-4.811999999999998)%float) ] ->
        calculate_isa_temp altitude = Some t)
  /\ (forall x : float,
        ~ on_grid altitude ->
        Py.float_of_int altitude = Some x ->
        calculate_isa_temp altitude
        = Some (15.0 - (x / 1000.0 * 1.98))%float).
Proof.
  split; [|split].
  - unfold calculate_isa_temp. rewrite <- float_of_int_overflow.
    destruct (Py.float_of_int altitude); simpl; split; done.
  - intros t Ht. simpl in Ht.
    repeat (destruct Ht as [[= <- <-] | Ht]; [vm_compute; reflexivity |]).
    destruct Ht.
  - intros x Hg Hx. unfold calculate_isa_temp. rewrite Hx. simpl.
    rewrite (isa_values_off_grid _ Hg). reflexivity.
Qed.

Lemma calculate_isa_temp_spec_witness :
  calculate_isa_temp 5000 = Some 5.094000000000001%float
  /\ calculate_isa_temp 500 = Some (15.0 - (500.0 / 1000.0 * 1.98))%float.
Proof.
  split.
  - apply (proj1 (proj2 (calculate_isa_temp_spec 5000))). simpl. tauto.
  - apply (proj2 (proj2 (calculate_isa_temp_spec 500))).
    + unfold on_grid. intros [_ H]. vm_compute in H. discriminate.
    + vm_compute. reflexivity.
Defined.

(** C2 as stated fails twice: at 5000 ft the resolver does not return
    5.094 but the neighbouring float 5.094000000000001, and on an integer
    altitude too large for a float it raises [OverflowError]. *)
Lemma isa_5000_is_not_5_094_and_overflow :
  calculate_isa_temp 5000 <> Some 5.094%float
  /\ calculate_isa_temp (10 ^ 309) = None.
Proof.
  split.
  - intros H. apply (inj Some) in H. revert H. apply float_neq.
    vm_compute. discriminate.
  - vm_compute. reflexivity.
Qed.

End ReferenceAtmosphere.

(* ===================================================================== *)
(** * Page access and the two climb tables of G1 *)
(* ===================================================================== *)

Section Pages.

(** C10, as the code has it.  With [n] pages: a [page_num] above [n]
    gives the empty string; [1 <= page_num <= n] gives that page;
    [-n < page_num <= 0] gives the page counted back from the end, page 0
    being the last one; [page_num <= -n], which includes 0 for an empty
    document, raises [IndexError]. *)
Theorem extract_text_from_page_cases (pages : G1.document) (page_num : Z) :
  let n := Z.of_nat (length pages) in
  ((n < page_num)%Z ->
     G1.extract_text_from_page pages page_num = Some EmptyString)
  /\ ((1 <= page_num <= n)%Z ->
      G1.extract_text_from_page pages page_num
      = pages !! Z.to_nat (page_num - 1)
      /\ is_Some (G1.extract_text_from_page pages page_num))
  /\ ((- n < page_num <= 0)%Z ->
      G1.extract_text_from_page pages page_num
      = pages !! Z.to_nat (n + page_num - 1)
      /\ is_Some (G1.extract_text_from_page pages page_num))
  /\ ((0 < n)%Z -> G1.extract_text_from_page pages 0 = last pages)
  /\ ((page_num <= - n)%Z -> G1.extract_text_from_page pages page_num = None).
Proof.
  intros n. unfold G1.extract_text_from_page. fold n.
  split; [|split; [|split; [|split]]].
  - intros Hp. destruct (Z.leb_spec page_num n); [lia | done].
  - intros Hp. destruct (Z.leb_spec page_num n); [|lia].
    rewrite index_nonneg by lia. split; [done|].
    apply lookup_lt_is_Some. lia.
  - intros Hp. destruct (Z.leb_spec page_num n); [|lia].
    rewrite index_negative by (fold n; lia). fold n.
    replace (n + (page_num - 1))%Z with (n + page_num - 1)%Z by lia.
    split; [done|]. apply lookup_lt_is_Some. lia.
  - intros Hp. destruct (Z.leb_spec 0 n); [|lia].
    rewrite index_negative by (fold n; lia). fold n.
    rewrite last_lookup. f_equal. lia.
  - intros Hp. destruct (Z.leb_spec page_num n); [|lia].
    apply index_below. fold n. lia.
Qed.

Lemma extract_text_from_page_cases_witness :
  G1.extract_text_from_page ["a"; "b"; "c"]%string 0 = Some "c"%string
  /\ G1.extract_text_from_page ["a"; "b"; "c"]%string (-3) = None.
Proof.
  pose proof (extract_text_from_page_cases ["a"; "b"; "c"]%string 0) as H0.
  pose proof (extract_text_from_page_cases ["a"; "b"; "c"]%string (-3)) as H3.
  simpl in H0, H3. split.
  - apply (proj1 (proj2 (proj2 (proj2 H0)))). lia.
  - apply (proj2 (proj2 (proj2 (proj2 H3)))). lia.
Defined.

(** C10 as stated fails: page -3 of a three-page document is not above
    the page count, and reading it raises [IndexError]; so does page 0 of
    an empty document. *)
Lemma extract_text_from_page_raises :
  (-3 <= Z.of_nat (length ["a"; "b"; "c"]%string))%Z
  /\ G1.extract_text_from_page ["a"; "b"; "c"]%string (-3) = None
  /\ (0 <= Z.of_nat (length (@nil string)))%Z
  /\ G1.extract_text_from_page [] 0 = None.
Proof. split; [simpl; lia|]. split; [reflexivity|]. split; [simpl; lia | reflexivity]. Qed.

(** C9.  In G1 the climb-rate parser is the climb-gradient parser: on
    every document and page range the two return the same rows, or raise
    together. *)
Theorem parse_climb_rate_is_gradient (pages : G1.document)
    (start_page end_page : Z) :
  G1.parse_climb_rate_tables pages start_page end_page
  = G1.parse_climb_gradient_tables pages start_page end_page.
Proof. unfold G1.parse_climb_rate_tables. reflexivity. Qed.

End Pages.

(* ===================================================================== *)
(** * Takeoff and landing rows *)
(* ===================================================================== *)

Section GroundRows.

(** C4.  A takeoff row of exactly nine tokens, at an altitude token that
    reads as the integer [a] and whose reference-atmosphere temperature is
    [t], adds nine rows in both extractors: the first eight tokens at
    -20, -10, ..., 50 from the coldest on, and the ninth as the one
    reference-atmosphere row, at [t].  On the scenario's line for weight
    6000 these are the values 550 to 900 at altitude 0 and the value 910
    at 15.0. *)
Theorem takeoff_nine_tokens :
  (forall (data : list row) (weight : Z) (altitude : string) (a : Z) (t : float)
          (v1 v2 v3 v4 v5 v6 v7 v8 v9 : string),
      Py.int altitude = Some a ->
      calculate_isa_temp a = Some t ->
      G1._add_performance_values data weight altitude
        [v1; v2; v3; v4; v5; v6; v7; v8; v9] [-20; -10; 0; 10; 20; 30; 40; 50]%Z
      = Some (data ++ nine_token_rows weight altitude t v1 v2 v3 v4 v5 v6 v7 v8 v9)
      /\ G2Plus._process_takeoff_values data weight altitude
           [v1; v2; v3; v4; v5; v6; v7; v8; v9]
         = Some (data ++ nine_token_rows weight altitude t v1 v2 v3 v4 v5 v6 v7 v8 v9))
  /\ G1.parse_takeoff_tables [scenario_line] 1 6000
     = Some (nine_token_rows 6000 "0" 15.0
               "550" "600" "650" "700" "750" "800" "850" "900" "910", [])
  /\ G2Plus.extract_takeoff_data [""; ""; ""; ""; scenario_line]%string
     = Some (header :: nine_token_rows 6000 "0" 15.0
               "550" "600" "650" "700" "750" "800" "850" "900" "910", [header]).
Proof.
  split; [|split; vm_compute; reflexivity].
  intros data weight altitude a t v1 v2 v3 v4 v5 v6 v7 v8 v9 Ha Ht. split.
  - unfold G1._add_performance_values. rewrite Ha. simpl.
    destruct (5000 <=? a)%Z; simpl; rewrite Ht; simpl;
      by rewrite <- ?app_assoc.
  - unfold G2Plus._process_takeoff_values. rewrite Ha. simpl.
    destruct (7000 <=? a)%Z; simpl; rewrite Ht; simpl;
      by rewrite <- ?app_assoc.
Qed.

Lemma takeoff_nine_tokens_witness :
  G1._add_performance_values [] 6000 "8000"
    ["1"; "2"; "3"; "4"; "5"; "6"; "7"; "8"; "9"]%string
    [-20; -10; 0; 10; 20; 30; 40; 50]%Z
  = Some (nine_token_rows 6000 "8000" (-0.8495999999999988)
            "1" "2" "3" "4" "5" "6" "7" "8" "9").
Proof.
  exact (proj1 (proj1 takeoff_nine_tokens [] 6000%Z "8000"%string 8000%Z
                  (-0.8495999999999988)%float
                  "1"%string "2"%string "3"%string "4"%string "5"%string
                  "6"%string "7"%string "8"%string "9"%string
                  eq_refl eq_refl)).
Defined.

(** C7, as the code has it.  For the 50-ice configuration and an altitude
    token that reads as an integer, the landing assembler adds one row per
    value, at most four, at the temperatures -20, -10, 0 and 10 in this
    order; none of them is a reference-atmosphere row. *)
Theorem landing_50_ice_rows (data : list row) (weight : Z) (altitude : string)
    (values : list string) (a : Z) :
  Py.int altitude = Some a ->
  G1._add_landing_values data weight altitude values "50 ice"
  = Some (data ++ ice_rows weight altitude values)
  /\ (forall r, r ∈ ice_rows weight altitude values ->
        r_temperature r ∈ [Text "-20"; Text "-10"; Text "0"; Text "10"]
        /\ (forall f, r_temperature r <> FloatRepr f))
  /\ length (ice_rows weight altitude values) = min (length values) 4.
Proof.
  intros Ha. split; [|split].
  - unfold G1._add_landing_values. rewrite Ha. simpl.
    destruct values as [|v0 [|v1 [|v2 [|v3 rest]]]]; simpl;
      rewrite ?app_nil_r, <- ?app_assoc; try reflexivity.
    rewrite for_each_noop; [by rewrite <- ?app_assoc|].
    intros i Hi. apply elem_of_seq in Hi.
    destruct (Nat.ltb_spec i 3); [lia | done].
  - intros r Hr. unfold ice_rows in Hr.
    apply elem_of_lookup_zip_with in Hr as (i & t & v & -> & Ht & _).
    simpl. split; [|done].
    change [Text "-20"; Text "-10"; Text "0"; Text "10"]
      with (Text <$> ["-20"; "-10"; "0"; "10"]%string).
    apply list_elem_of_fmap_2, list_elem_of_lookup. eauto.
  - unfold ice_rows. rewrite length_zip_with. simpl length. lia.
Qed.

Lemma landing_50_ice_rows_witness :
  G1._add_landing_values [] 5550 "1000" ["2310"; "2290"; "2330"]%string "50 ice"
  = Some [ Row "5550" "1000" (Text "-20") "2310";
           Row "5550" "1000" (Text "-10") "2290";
           Row "5550" "1000" (Text "0") "2330" ].
Proof.
  exact (proj1 (landing_50_ice_rows [] 5550%Z "1000"%string
                  ["2310"; "2290"; "2330"]%string 1000%Z eq_refl)).
Defined.

(** C7 as stated fails: the third value of a 50-ice row is recorded at
    0 degrees, which is not a negative temperature. *)
Lemma landing_50_ice_emits_zero_degrees :
  exists rows r,
    G1._add_landing_values [] 5550 "1000" ["2310"; "2290"; "2330"]%string "50 ice"
    = Some rows
    /\ r ∈ rows /\ ~ negative_temperature (r_temperature r).
Proof.
  eexists _, (Row "5550" "1000" (Text "0") "2330"). split; [reflexivity|].
  split; [set_solver|].
  intros (t & Ht & [= E]). symmetry in E. revert E.
  by apply str_int_negative_not_zero.
Qed.

End GroundRows.

(* ===================================================================== *)
(** * Strings *)
(* ===================================================================== *)

Section Strings.

Lemma string_app_cons (x : ascii) (a b : string) :
  String x a +:+ b = String x (a +:+ b).
Proof. reflexivity. Qed.

Lemma string_app_assoc (a b c : string) : (a +:+ b) +:+ c = a +:+ (b +:+ c).
Proof.
  induction a as [|x a IH]; [done|]. rewrite !string_app_cons. f_equal. apply IH.
Qed.

Lemma string_app_nil_r (a : string) : a +:+ EmptyString = a.
Proof.
  induction a as [|x a IH]; [done|]. rewrite string_app_cons. f_equal. apply IH.
Qed.

Lemma len_app (a b : string) : Py.len (a +:+ b) = Py.len a + Py.len b.
Proof.
  induction a as [|x a IH]; [done|]. rewrite string_app_cons. simpl.
  f_equal. apply IH.
Qed.

Lemma substring_0_app (w t : string) : substring 0 (Py.len w) (w +:+ t) = w.
Proof.
  induction w as [|x w IH]; [by destruct t|].
  rewrite string_app_cons. simpl. f_equal. apply IH.
Qed.

Lemma substring_skip (pre t : string) (m : nat) :
  substring (Py.len pre) m (pre +:+ t) = substring 0 m t.
Proof.
  induction pre as [|x pre IH]; [done|]. rewrite string_app_cons. apply IH.
Qed.

(** The text between two positions of a scan. *)
Lemma slice_at_position (s : string) (pos : nat) (w rest : string) :
  at_position s pos (w +:+ rest) -> Py.slice pos (pos + Py.len w) s = w.
Proof.
  intros (pre & -> & <-). unfold Py.slice.
  replace (Py.len pre + Py.len w - Py.len pre) with (Py.len w) by lia.
  rewrite substring_skip. apply substring_0_app.
Qed.

Lemma at_position_app (s : string) (pos : nat) (w rest : string) :
  at_position s pos (w +:+ rest) -> at_position s (pos + Py.len w) rest.
Proof.
  intros (pre & -> & <-). exists (pre +:+ w).
  by rewrite string_app_assoc, len_app.
Qed.

Lemma at_position_S (s : string) (pos : nat) (c : ascii) (rest : string) :
  at_position s pos (String c rest) -> at_position s (S pos) rest.
Proof.
  intros H. apply (at_position_app s pos (String c EmptyString) rest) in H.
  simpl in H. by rewrite Nat.add_1_r in H.
Qed.

Lemma at_position_0 (s : string) : at_position s 0 s.
Proof. by exists EmptyString. Qed.

Lemma at_position_len (s : string) (pos : nat) (rest : string) :
  at_position s pos rest -> pos + Py.len rest = Py.len s.
Proof. intros (pre & -> & <-). by rewrite len_app. Qed.

Lemma forallb_string_app (p : ascii -> bool) (a b : string) :
  Py.forallb_string p (a +:+ b)
  = Py.forallb_string p a && Py.forallb_string p b.
Proof.
  induction a as [|x a IH]; [done|]. rewrite string_app_cons. simpl.
  rewrite IH. by rewrite andb_assoc.
Qed.

Lemma forallb_string_impl (p q : ascii -> bool) (s : string) :
  (forall c, p c = true -> q c = true) ->
  Py.forallb_string p s = true -> Py.forallb_string q s = true.
Proof.
  intros Hpq. induction s as [|c s IH]; [done|]. simpl.
  intros [Hc Hs]%andb_true_iff. by rewrite (Hpq c Hc), IH.
Qed.

(** [int] reads every non-empty run of decimal digits. *)
Lemma int_digits_some (s : string) (acc : Z) :
  Py.forallb_string Py.isdecimal s = true -> (0 <= acc)%Z ->
  exists a, Py.int_digits acc s = Some a /\ (0 <= a)%Z.
Proof.
  revert acc. induction s as [|c s IH]; intros acc H Hacc; simpl.
  - eauto.
  - simpl in H. apply andb_true_iff in H as [Hc Hs]. rewrite Hc.
    apply IH; [done | lia].
Qed.

Lemma int_of_digits (w : string) :
  digits w -> exists a, Py.int w = Some a /\ (0 <= a)%Z.
Proof.
  intros [Hd Hl]. destruct w as [|c w]; [simpl in Hl; lia|].
  unfold Py.int. by apply int_digits_some.
Qed.

Lemma int_digits_nonneg (s : string) (acc a : Z) :
  Py.int_digits acc s = Some a -> (0 <= acc)%Z -> (0 <= a)%Z.
Proof.
  revert acc. induction s as [|c s IH]; intros acc; simpl.
  - intros [= <-]. done.
  - destruct (Py.isdecimal c); [|done]. intros H Hacc.
    apply (IH _ H). lia.
Qed.

(** What [int] reads is not negative. *)
Lemma int_nonneg (s : string) (a : Z) : Py.int s = Some a -> (0 <= a)%Z.
Proof.
  unfold Py.int. destruct s; [done|]. intros H.
  by apply (int_digits_nonneg _ _ _ H).
Qed.

Lemma str_isdigit_of_digits (w : string) : digits w -> Py.str_isdigit w = true.
Proof.
  intros [Hd Hl]. destruct w as [|c w]; [simpl in Hl; lia|].
  unfold Py.str_isdigit. revert Hd. apply forallb_string_impl.
  intros d Hdec. unfold Py.isdigit. by rewrite Hdec.
Qed.

Lemma prefix_app (p s : string) :
  String.prefix p s = true <-> exists rest, s = p +:+ rest.
Proof.
  revert s. induction p as [|a p IH]; intros s.
  - split; [intros _; by exists s | by destruct s].
  - destruct s as [|b s].
    + split; [done | intros [rest H]; discriminate H].
    + cbn [String.prefix]. destruct (ascii_dec a b) as [->|Hne].
      * rewrite IH. split; intros [rest H]; exists rest.
        -- by rewrite string_app_cons, <- H.
        -- rewrite string_app_cons in H. by injection H.
      * split; [done|]. intros [rest H]. rewrite string_app_cons in H.
        injection H as H _. by destruct Hne.
Qed.

End Strings.

(* ===================================================================== *)
(** * The matcher returns matches *)
(* ===================================================================== *)

Section MatcherSound.
Import Re.

Lemma lit_sound {R : Type} (t : string) (pos : nat) (rest : string)
    (caps : captures) (kont : cont) (x : R) :
  lit t pos rest caps kont = Some x ->
  exists rest', rest = t +:+ rest' /\ kont (pos + Py.len t) rest' caps = Some x.
Proof.
  revert pos rest. induction t as [|c t IH]; intros pos rest; simpl.
  - intros H. exists rest. by rewrite Nat.add_0_r.
  - destruct rest as [|d rest]; [done|].
    destruct (Ascii.eqb_spec c d) as [->|]; [|done]. intros H.
    apply IH in H as (rest' & -> & H). exists rest'. split; [done|].
    by rewrite Nat.add_succ_r.
Qed.

Lemma rep_sound {R : Type} (k : cclass) (lo : nat) (hi : option nat)
    (greedy : bool) (rest : string) :
  forall (n pos : nat) (caps : captures) (kont : cont) (x : R),
    rep k lo hi greedy n pos rest caps kont = Some x ->
    exists w rest',
      rest = w +:+ rest'
      /\ Py.forallb_string (in_class k) w = true
      /\ lo <= n + Py.len w
      /\ match hi with Some h => n <= h -> n + Py.len w <= h | None => True end
      /\ kont (pos + Py.len w) rest' caps = Some x.
Proof.
  induction rest as [|c rest IH]; intros n pos caps kont x H.
  - exists EmptyString, EmptyString. simpl in *. rewrite !Nat.add_0_r.
    assert ((if lo <=? n then kont pos EmptyString caps else None) = Some x)
      as Hs by (destruct greedy; [done | by destruct (if lo <=? n then _ else _)]).
    destruct (Nat.leb_spec lo n); [|done].
    repeat split; try done. by destruct hi.
  - assert (rep k lo hi greedy n pos (String c rest) caps kont
            = let stop := if lo <=? n then kont pos (String c rest) caps
                          else None in
              let more := if in_class k c && below hi n
                          then rep k lo hi greedy (S n) (S pos) rest caps kont
                          else None in
              if greedy
              then match more with Some r => Some r | None => stop end
              else match stop with Some r => Some r | None => more end) as E
      by (by destruct rest).
    rewrite E in H. clear E. cbv zeta in H.
    assert ((lo <= n /\ kont pos (String c rest) caps = Some x)
            \/ (in_class k c = true /\ below hi n = true
                /\ rep k lo hi greedy (S n) (S pos) rest caps kont = Some x))
      as [[Hlo Hk] | (Hc & Hb & Hr)].
    { destruct greedy.
      - destruct (in_class k c && below hi n) eqn:Ecb.
        + apply andb_true_iff in Ecb as [Hc Hb].
          destruct (rep k lo hi true (S n) (S pos) rest caps kont) as [y|] eqn:Er.
          * right. by injection H as <-.
          * left. by destruct (Nat.leb_spec lo n).
        + left. by destruct (Nat.leb_spec lo n).
      - destruct (Nat.leb_spec lo n) as [Hlo|Hlo].
        + destruct (kont pos (String c rest) caps) as [y|] eqn:Ek.
          * left. by injection H as <-.
          * right. destruct (in_class k c && below hi n) eqn:Ecb; [|done].
            by apply andb_true_iff in Ecb as [Hc Hb].
        + right. destruct (in_class k c && below hi n) eqn:Ecb; [|done].
          by apply andb_true_iff in Ecb as [Hc Hb]. }
    + exists EmptyString, (String c rest). simpl. rewrite !Nat.add_0_r.
      repeat split; try done. by destruct hi.
    + apply IH in Hr as (w & rest' & -> & Hw & Hlo & Hhi & Hk).
      exists (String c w), rest'. simpl. rewrite Hc, Hw.
      rewrite !Nat.add_succ_r. repeat split; try done.
      destruct hi as [h|]; [|done]. simpl in Hb. apply Nat.ltb_lt in Hb.
      intros _. apply Hhi. lia.
Qed.

(** The matcher is sound: when it succeeds, the text it consumed is one
    the pattern matches, the continuation succeeded on the text left,
    and the groups it recorded hold texts their patterns match. *)
Lemma run_sound {R : Type} (s : string) (r : regex) :
  forall (pos : nat) (rest : string) (caps : captures) (kont : cont) (x : R),
    at_position s pos rest ->
    run r pos rest caps kont = Some x ->
    exists w rest' new,
      rest = w +:+ rest'
      /\ matches r w
      /\ kont (pos + Py.len w) rest' (new ++ caps) = Some x
      /\ (forall n a b, (n, (a, b)) ∈ new ->
            exists r1, (n, r1) ∈ groups r /\ matches r1 (Py.slice a b s))
      /\ (forall n, binds n r = true -> exists sp, (n, sp) ∈ new).
Proof.
  induction r as [t | k lo hi g | r1 IH1 r2 IH2 | r1 IH1 r2 IH2 | m r1 IH1 | | ];
    intros pos rest caps kont x Hpos H; simpl in H.
  - apply lit_sound in H as (rest' & -> & H).
    exists t, rest', []. repeat split; try done.
    + intros n a b Hin. by apply elem_of_nil in Hin.
  - apply rep_sound in H as (w & rest' & -> & Hw & Hlo & Hhi & H).
    exists w, rest', []. simpl in *. repeat split; try done.
    + destruct hi; [apply Hhi; lia | done].
    + intros n a b Hin. by apply elem_of_nil in Hin.
  - apply IH1 in H as (w1 & rest1 & new1 & -> & Hw1 & H & Hg1 & Hb1); [|done].
    apply IH2 in H as (w2 & rest2 & new2 & -> & Hw2 & H & Hg2 & Hb2);
      [|by apply at_position_app].
    exists (w1 +:+ w2), rest2, (new2 ++ new1).
    rewrite string_app_assoc, len_app, Nat.add_assoc, <- app_assoc.
    repeat split; try done.
    + simpl. eauto.
    + intros n a b [Hin|Hin]%elem_of_app.
      * destruct (Hg2 n a b Hin) as (r & Hr & Hm). exists r. split; [|done].
        simpl. apply elem_of_app. by right.
      * destruct (Hg1 n a b Hin) as (r & Hr & Hm). exists r. split; [|done].
        simpl. apply elem_of_app. by left.
    + intros n [Hn|Hn]%orb_true_iff.
      * destruct (Hb1 n Hn) as [sp Hsp]. exists sp. apply elem_of_app. by right.
      * destruct (Hb2 n Hn) as [sp Hsp]. exists sp. apply elem_of_app. by left.
  - destruct (run r1 pos rest caps kont) as [y|] eqn:E1.
    + injection H as ->.
      apply IH1 in E1 as (w & rest' & new & -> & Hw & H & Hg & Hb); [|done].
      exists w, rest', new. repeat split; try done.
      * simpl. by left.
      * intros n a b Hin. destruct (Hg n a b Hin) as (r & Hr & Hm).
        exists r. split; [|done]. simpl. apply elem_of_app. by left.
      * intros n [Hn _]%andb_true_iff. by apply Hb.
    + apply IH2 in H as (w & rest' & new & -> & Hw & H & Hg & Hb); [|done].
      exists w, rest', new. repeat split; try done.
      * simpl. by right.
      * intros n a b Hin. destruct (Hg n a b Hin) as (r & Hr & Hm).
        exists r. split; [|done]. simpl. apply elem_of_app. by right.
      * intros n [_ Hn]%andb_true_iff. by apply Hb.
  - apply IH1 in H as (w & rest' & new & -> & Hw & H & Hg & Hb); [|done].
    exists w, rest', ((m, (pos, pos + Py.len w)) :: new).
    repeat split; try done.
    + intros n a b [Hin|Hin]%elem_of_cons.
      * injection Hin as -> -> ->. exists r1. split; [simpl; by left|].
        by rewrite (slice_at_position s pos w rest').
      * destruct (Hg n a b Hin) as (r & Hr & Hm). exists r. split; [|done].
        simpl. by right.
    + intros n [Hn|Hn]%orb_true_iff.
      * apply Nat.eqb_eq in Hn as ->. eexists. by left.
      * destruct (Hb n Hn) as [sp Hsp]. exists sp. by right.
  - destruct (pos =? 0); [|done].
    exists EmptyString, rest, []. rewrite Nat.add_0_r.
    repeat split; try done.
    intros n a b Hin. by apply elem_of_nil in Hin.
  - destruct (at_eol rest); [|done].
    exists EmptyString, rest, []. rewrite Nat.add_0_r.
    repeat split; try done.
    intros n a b Hin. by apply elem_of_nil in Hin.
Qed.

Lemma assoc_first (n : nat) (new caps : captures) :
  (exists sp, (n, sp) ∈ new) ->
  exists sp, assoc n (new ++ caps) = Some sp /\ (n, sp) ∈ new.
Proof.
  induction new as [|[m sp0] new IH]; intros [sp Hsp].
  - by apply elem_of_nil in Hsp.
  - simpl. destruct (Nat.eqb_spec n m) as [->|Hne].
    + exists sp0. split; [done | by left].
    + apply elem_of_cons in Hsp as [[= -> _]|Hsp]; [done|].
      destruct IH as (sp1 & H1 & H2); [by exists sp|].
      exists sp1. split; [done | by right].
Qed.

Lemma match_at_sound (r : regex) (s : string) (pos : nat) (rest : string)
    (m : mobj) :
  at_position s pos rest ->
  match_at r s pos rest = Some m ->
  match_ok r s m /\ m_start m = pos.
Proof.
  intros Hpos H. unfold match_at in H.
  apply (run_sound s) in H as (w & rest' & new & -> & Hw & H & Hg & Hb);
    [|done].
  injection H as <-. unfold match_ok. simpl.
  pose proof (at_position_len _ _ _ Hpos) as Hlen. rewrite len_app in Hlen.
  rewrite (slice_at_position s pos w rest') by done.
  repeat split; try done; try lia.
  intros n Hn. destruct (assoc_first n new [] (Hb n Hn)) as ([a b] & Ha & Hin).
  destruct (Hg n a b Hin) as (r1 & Hr1 & Hm). exists r1. split; [done|].
  unfold group. simpl. by rewrite Ha.
Qed.

Lemma rmatch_sound (r : regex) (s : string) (m : mobj) :
  rmatch r s = Some m -> match_ok r s m /\ m_start m = 0.
Proof. apply match_at_sound, at_position_0. Qed.

Lemma search_from_sound (r : regex) (s : string) (rest : string) :
  forall (pos : nat) (m : mobj),
    at_position s pos rest ->
    search_from r s pos rest = Some m -> match_ok r s m.
Proof.
  induction rest as [|c rest IH]; intros pos m Hpos H; simpl in H.
  - destruct (match_at r s pos EmptyString) as [m'|] eqn:E; [|done].
    injection H as ->. by apply (match_at_sound _ _ _ _ _ Hpos) in E as [E _].
  - destruct (match_at r s pos (String c rest)) as [m'|] eqn:E.
    + injection H as ->. by apply (match_at_sound _ _ _ _ _ Hpos) in E as [E _].
    + apply (IH (S pos)); [|done]. by apply at_position_S in Hpos.
Qed.

Lemma search_sound (r : regex) (s : string) (m : mobj) :
  search r s = Some m -> match_ok r s m.
Proof. apply search_from_sound, at_position_0. Qed.

Lemma finditer_at_sound (r : regex) (s : string) (rest : string) :
  forall pos skip : nat,
    at_position s pos rest ->
    Forall (match_ok r s) (finditer_at r s pos skip rest).
Proof.
  induction rest as [|c rest IH]; intros pos skip Hpos.
  - destruct skip; simpl; [|done].
    destruct (match_at r s pos EmptyString) as [m|] eqn:E; [|done].
    apply (match_at_sound _ _ _ _ _ Hpos) in E as [E _]. by constructor.
  - apply at_position_S in Hpos as Hpos'.
    destruct skip as [|k]; simpl; [|by apply IH].
    destruct (match_at r s pos (String c rest)) as [m|] eqn:E; [|by apply IH].
    apply (match_at_sound _ _ _ _ _ Hpos) in E as [E _].
    constructor; [done | by apply IH].
Qed.

(** Every text [findall] returns is a text the pattern matches. *)
Lemma findall_sound (r : regex) (s : string) :
  Forall (matches r) (findall r s).
Proof.
  unfold findall, finditer. apply Forall_fmap.
  eapply Forall_impl; [apply finditer_at_sound, at_position_0|].
  intros m (_ & _ & Hm & _). exact Hm.
Qed.

(** [re.findall(r'\d+', s)] returns non-empty runs of decimal digits. *)
Lemma findall_digits (s : string) : Forall digits (findall re_digits s).
Proof.
  eapply Forall_impl; [apply findall_sound|].
  intros w (Hw & Hl & _). split; [exact Hw | exact Hl].
Qed.

End MatcherSound.

(* ===================================================================== *)
(** * Climb matrices: the temperature rows of the [while] loop *)
(* ===================================================================== *)

Section TemperatureRows.

(** A line begins with the text of at most one of the nine
    temperatures, a blank after it. *)
Lemma temps_prefix_unique (temp t : Z) (rest : string) :
  temp ∈ G1.temps -> t ∈ G1.temps ->
  Py.startswith (Py.str_int t +:+ " ") ((Py.str_int temp +:+ " ") +:+ rest)
  = bool_decide (t = temp).
Proof.
  unfold G1.temps. intros Htemp Ht.
  repeat (apply elem_of_cons in Htemp as [->|Htemp]);
    try (by apply elem_of_nil in Htemp);
    repeat (apply elem_of_cons in Ht as [->|Ht]);
    try (by apply elem_of_nil in Ht);
    vm_compute; try reflexivity; by destruct rest.
Qed.

(** The loop [for temp in temps] on a line that begins with the text of
    [temp] only. *)
Lemma normal_temperature_unique (ts : list Z) (temp : Z)
    (altitude next_line : string) (idx : nat) (st : G1.scan) (a : Z) :
  (forall t, t ∈ ts ->
     Py.startswith (Py.str_int t +:+ " ") next_line = bool_decide (t = temp)) ->
  Py.int altitude = Some a ->
  G1.normal_temperature ts altitude next_line idx st
  = if bool_decide (temp ∈ ts)
       && ((if (9000 <=? a)%Z && (40 <=? temp)%Z then 3 else 4)
           <=? length (Re.findall re_digits
                         (Py.drop_str (Py.len (Py.str_int temp)) next_line)))
    then Some (G1.Scan
                 (<[temp := take 4 (Re.findall re_digits
                                      (Py.drop_str (Py.len (Py.str_int temp))
                                         next_line))]> (G1.temp_data st))
                 ({[idx]} ∪ G1.processed_lines st), true)
    else Some (st, false).
Proof.
  intros Hts Ha. induction ts as [|t ts IH]; [done|].
  cbn [G1.normal_temperature]. rewrite (Hts t) by left.
  rewrite IH by (intros t' Ht'; apply Hts; by right).
  destruct (decide (t = temp)) as [->|Hne].
  - rewrite bool_decide_eq_true_2 by done. rewrite Ha.
    change (Some a ≫= ?f) with (f a). cbv beta.
    rewrite (bool_decide_eq_true_2 (temp ∈ temp :: ts)) by left.
    cbn [andb].
    destruct (_ <=? length _); [done|]. by rewrite andb_false_r.
  - rewrite bool_decide_eq_false_2 by done.
    destruct (decide (temp ∈ ts)) as [Hin|Hin].
    + rewrite !bool_decide_eq_true_2; [done | by right | done].
    + rewrite !bool_decide_eq_false_2; [done | | done].
      intros [->|H]%elem_of_cons; done.
Qed.

(** A line that begins with one of the temperatures -30, ..., 50 and a
    blank is stored under that temperature when it holds four values or
    more, or three from 9000 ft on at 40 degrees or more; its first four
    values replace what the temperature held.  With fewer values the
    loop stores nothing. *)
Lemma normal_temperature_row (temp : Z) (altitude next_line : string)
    (idx : nat) (st : G1.scan) (a : Z) :
  temp ∈ G1.temps ->
  Py.startswith (Py.str_int temp +:+ " ") next_line = true ->
  Py.int altitude = Some a ->
  G1.normal_temperature G1.temps altitude next_line idx st
  = if (if (9000 <=? a)%Z && (40 <=? temp)%Z then 3 else 4)
       <=? length (Re.findall re_digits
                     (Py.drop_str (Py.len (Py.str_int temp)) next_line))
    then Some (G1.Scan
                 (<[temp := take 4 (Re.findall re_digits
                                      (Py.drop_str (Py.len (Py.str_int temp))
                                         next_line))]> (G1.temp_data st))
                 ({[idx]} ∪ G1.processed_lines st), true)
    else Some (st, false).
Proof.
  intros Htemp Hs Ha. apply prefix_app in Hs as [rest ->].
  rewrite (normal_temperature_unique G1.temps temp _ _ idx st a); [|by
    intros t Ht; apply temps_prefix_unique | done].
  by rewrite bool_decide_eq_true_2.
Qed.

End TemperatureRows.

Section SpecialRows.
Import Re.

Lemma assoc_skip (k : nat) (new caps : captures) :
  (forall n sp, (n, sp) ∈ new -> n <> k) ->
  assoc k (new ++ caps) = assoc k caps.
Proof.
  induction new as [|[n sp] new IH]; intros H; [done|]. simpl.
  destruct (Nat.eqb_spec k n) as [->|_].
  - by destruct (H n sp ltac:(left)).
  - apply IH. intros n' sp' Hin. apply (H n' sp'). by right.
Qed.

(** The first group of [^(\d{2})\s+([\d\s]+?)(?:[A-Z]|$)] is the first two
    characters of the line. *)
Lemma special_temp_group1 (line : string) (m : mobj) :
  rmatch G1.re_special_temp line = Some m ->
  group m 1 = Py.slice 0 2 line.
Proof.
  intros H.
  change (rep Digit 2 (Some 2) true 0 0 line []
            (fun pos' rest' caps' =>
               run (Plus Space ⋅ Group 2 (LazyPlus DigitSpace)
                    ⋅ Alt (Between Upper 1 1) Eol)
                 pos' rest' ((1, (0, pos')) :: caps')
                 (fun stop _ caps => Some (MObj line 0 stop caps)))
          = Some m) in H.
  apply rep_sound in H as (w & rest' & Hline & _ & Hlo & Hhi & H).
  assert (Py.len w = 2) as Hw by (specialize (Hhi ltac:(lia)); lia).
  rewrite Hw in H. cbn [Nat.add] in H.
  apply (run_sound line) in H as (w2 & rest2 & new & _ & _ & H & Hg & _).
  2:{ exists w. split; [done|]. exact Hw. }
  injection H as <-. unfold group. cbn [m_groups m_text].
  rewrite assoc_skip; [done|].
  intros n [a b] Hin Hn. subst n.
  destruct (Hg 1 a b Hin) as (r1 & Hr1 & _). simpl in Hr1.
  apply elem_of_cons in Hr1 as [[=]|Hr1]. by apply elem_of_nil in Hr1.
Qed.

(** The check for the temperatures 41..50 stores nothing for a line that
    begins with one of the temperatures -30, ..., 40 and a blank. *)
Lemma special_temperature_below_41 (temp : Z) (rest : string) (idx : nat)
    (st : G1.scan) :
  temp ∈ G1.temps -> (temp <= 40)%Z ->
  G1.special_temperature ((Py.str_int temp +:+ " ") +:+ rest) idx st
  = Some (st, false).
Proof.
  unfold G1.temps. intros Htemp Hle. unfold G1.special_temperature.
  repeat (apply elem_of_cons in Htemp as [->|Htemp]);
    try (by apply elem_of_nil in Htemp); try lia.
  1-4: by match goal with
          | |- context [rmatch G1.re_two_digit_row ?l] =>
              assert (rmatch G1.re_two_digit_row l = None) as ->
                by (vm_compute; reflexivity)
          end.
  all: destruct (rmatch G1.re_two_digit_row _) as [_|]; [|done];
    match goal with
    | |- context [rmatch G1.re_special_temp ?l] =>
        destruct (rmatch G1.re_special_temp l) as [m|] eqn:E; [|done]
    end;
    rewrite (special_temp_group1 _ _ E); reflexivity.
Qed.

End SpecialRows.

Section CollectRows.

(** A line without the marker ['0'] at its head never enters the
    handling of a mangled 0 °C row. *)
Lemma mangled_zero_needs_marker (altitude next_line : string) :
  Py.startswith "0" next_line = false ->
  G1.mangled_zero altitude next_line = None.
Proof.
  intros H. unfold G1.mangled_zero, G1.mangled_entry. by rewrite H.
Qed.

(** One iteration of the [while] loop on a line that is not yet processed
    and that the handling of a mangled 0 °C row leaves alone: the loop
    over the temperatures, then the check for 41..50, then the test that
    ends the loop. *)
Lemma collect_step (j : nat) (js : list nat) (lines : list string)
    (altitude : string) (line_idx : nat) (st : G1.scan) (l : string) :
  lines !! (line_idx + j) = Some l ->
  line_idx + j ∉ G1.processed_lines st ->
  G1.mangled_zero altitude (Py.strip l) = None ->
  G1.collect (j :: js) lines altitude line_idx st
  = match G1.normal_temperature G1.temps altitude (Py.strip l) (line_idx + j) st
    with
    | None => None
    | Some (st, temp_found) =>
        match (if temp_found then Some (st, true)
               else G1.special_temperature (Py.strip l) (line_idx + j) st)
        with
        | None => None
        | Some (st, temp_found) =>
            if temp_found then G1.collect js lines altitude line_idx st
            else if Py.contains "Engine" (Py.strip l)
                    || Py.contains "Press" (Py.strip l)
                    || Py.contains "-40" (Py.strip l)
            then Some st
            else G1.collect js lines altitude line_idx st
        end
    end.
Proof.
  intros Hl Hnp Hm. cbn [G1.collect].
  destruct (Nat.ltb_spec (line_idx + j) (length lines)) as [_|Hge].
  2:{ apply lookup_lt_Some in Hl. lia. }
  rewrite bool_decide_eq_false_2 by done.
  unfold Py.item. rewrite Hl. change (Some l ≫= ?f) with (f l). cbv beta zeta.
  by rewrite Hm.
Qed.

(** A line that reaches the checks for delimited rows and begins with
    one of the temperatures -30, ..., 50 and a blank.  With four values
    or more, or three from 9000 ft on at 40 degrees or more, its first
    four values are stored under its temperature, in the place of what
    the temperature held, and the loop goes on.  With fewer values, at a
    temperature up to 40, nothing is stored for it. *)
Lemma collect_normal_row (j : nat) (js : list nat) (lines : list string)
    (altitude : string) (line_idx : nat) (st : G1.scan) (l : string)
    (a temp : Z) :
  lines !! (line_idx + j) = Some l ->
  line_idx + j ∉ G1.processed_lines st ->
  G1.mangled_zero altitude (Py.strip l) = None ->
  Py.int altitude = Some a ->
  temp ∈ G1.temps ->
  Py.startswith (Py.str_int temp +:+ " ") (Py.strip l) = true ->
  let values :=
    Re.findall re_digits (Py.drop_str (Py.len (Py.str_int temp)) (Py.strip l)) in
  let min_values := if (9000 <=? a)%Z && (40 <=? temp)%Z then 3 else 4 in
  (min_values <= length values ->
   G1.collect (j :: js) lines altitude line_idx st
   = G1.collect js lines altitude line_idx
       (G1.Scan (<[temp := take 4 values]> (G1.temp_data st))
          ({[line_idx + j]} ∪ G1.processed_lines st)))
  /\ (length values < min_values -> (temp <= 40)%Z ->
      G1.collect (j :: js) lines altitude line_idx st
      = if Py.contains "Engine" (Py.strip l) || Py.contains "Press" (Py.strip l)
           || Py.contains "-40" (Py.strip l)
        then Some st
        else G1.collect js lines altitude line_idx st).
Proof.
  intros Hl Hnp Hm Ha Htemp Hs values min_values.
  rewrite (collect_step j js lines altitude line_idx st l Hl Hnp Hm).
  rewrite (normal_temperature_row temp altitude (Py.strip l) _ st a Htemp Hs Ha).
  fold values min_values. split.
  - intros Hlen. destruct (Nat.leb_spec min_values (length values)); [done | lia].
  - intros Hlen Hle. destruct (Nat.leb_spec min_values (length values)); [lia|].
    apply prefix_app in Hs as [rest Hrest]. rewrite Hrest.
    by rewrite special_temperature_below_41.
Qed.

End CollectRows.

(* ===================================================================== *)
(** * Climb matrices: the concatenated 0 °C rows *)
(* ===================================================================== *)

Section ConcatenatedDigits.

(** A line that enters the handling starts with the marker ['0'], which is
    the first of its digits. *)
Lemma mangled_entry_digits (next_line : string) :
  G1.mangled_entry next_line = true ->
  exists remaining,
    Py.filter_string Py.isdigit next_line = String "0" remaining.
Proof.
  unfold G1.mangled_entry. intros H.
  apply andb_true_iff in H as [H _]. apply andb_true_iff in H as [H _].
  apply startswith_zero in H as [s' ->]. simpl. eauto.
Qed.

Lemma first_digit_zero (remaining : string) :
  String.eqb (Py.slice 0 1 (String "0" remaining)) "0" = true.
Proof. by destruct remaining. Qed.

Lemma range_step_16 : Py.range_step 0 16 4 = [0; 4; 8; 12].
Proof. reflexivity. Qed.

(** With twelve digits or more the chain always builds three or four
    values. *)
Lemma partition_digits_length (altitude remaining : string) :
  12 <= Py.len remaining ->
  3 <= length (G1.partition_digits altitude remaining) <= 4.
Proof.
  intros Hlen. unfold G1.partition_digits.
  destruct (Nat.eqb_spec (Py.len remaining) 16) as [E16|N16];
    [rewrite range_step_16; simpl; lia|].
  destruct (Nat.eqb_spec (Py.len remaining) 15) as [E15|N15]; [simpl; lia|].
  destruct (Nat.eqb_spec (Py.len remaining) 14) as [E14|N14].
  { destruct (_ && _); simpl; lia. }
  destruct (Nat.leb_spec 12 (Py.len remaining)) as [_|]; [|lia].
  destruct (bool_decide _).
  - destruct (Nat.leb_spec 15 (Py.len remaining)); simpl; lia.
  - destruct (Nat.le_gt_cases 17 (Py.len remaining)) as [H17|H17].
    + replace (min (Py.len remaining) 16) with 16 by lia.
      rewrite range_step_16. simpl.
      repeat (match goal with
              | |- context [?a <? ?b] =>
                  destruct (Nat.ltb_spec a b); [|lia]
              end).
      simpl. lia.
    + assert (Py.len remaining = 12 \/ Py.len remaining = 13) as [E|E] by lia;
        rewrite E; simpl; lia.
Qed.

(** C5.  On a line that enters the handling of a mangled 0 °C row and
    whose digits are the marker followed by [remaining]: fifteen digits
    are cut into the widths 3, 4, 4, 4; fourteen digits that begin with
    809, at altitude 10000, into the widths 3, 3, 4, 4.  Either way the
    four values are the four groups in order, and together they are
    [remaining]. *)
Theorem concatenated_digit_partition (altitude next_line remaining : string) :
  G1.mangled_entry next_line = true ->
  Py.filter_string Py.isdigit next_line = String "0" remaining ->
  (Py.len remaining = 15 ->
     let groups := [Py.slice 0 3 remaining; Py.slice 3 7 remaining;
                    Py.slice 7 11 remaining; Py.slice 11 15 remaining] in
     G1.mangled_zero altitude next_line = Some groups
     /\ map Py.len groups = [3; 4; 4; 4]
     /\ String.concat "" groups = remaining)
  /\ (Py.len remaining = 14 ->
      altitude = "10000"%string ->
      Py.startswith "809" remaining = true ->
      let groups := [Py.slice 0 3 remaining; Py.slice 3 6 remaining;
                     Py.slice 6 10 remaining; Py.slice 10 14 remaining] in
      G1.mangled_zero altitude next_line = Some groups
      /\ map Py.len groups = [3; 3; 4; 4]
      /\ String.concat "" groups = remaining).
Proof.
  intros Hentry Hdigits. unfold G1.mangled_zero. rewrite Hentry, Hdigits.
  split.
  - intros Hlen. unfold Py.len in Hlen. explode remaining Hlen.
    repeat split.
  - intros Hlen -> H809. unfold Py.len in Hlen. explode remaining Hlen.
    simpl. unfold G1.partition_digits. simpl Py.len. simpl Nat.eqb.
    cbv iota. rewrite H809. repeat split.
Qed.

Lemma concatenated_digit_partition_witness :
  G1.mangled_zero "9000" "0 929 1091 1278 1499"
  = Some ["929"; "1091"; "1278"; "1499"]%string
  /\ G1.mangled_zero "10000" "0 809 962 1137 1343"
     = Some ["809"; "962"; "1137"; "1343"]%string.
Proof.
  split.
  - exact (proj1 (proj1 (concatenated_digit_partition "9000"
             "0 929 1091 1278 1499" "929109112781499" eq_refl eq_refl) eq_refl)).
  - exact (proj1 (proj2 (concatenated_digit_partition "10000"
             "0 809 962 1137 1343" "80996211371343" eq_refl eq_refl)
             eq_refl eq_refl eq_refl)).
Defined.

(** The chain on seventeen digits or more. *)
Lemma partition_digits_long (altitude remaining : string) :
  17 <= Py.len remaining ->
  G1.partition_digits altitude remaining
  = if bool_decide (altitude ∈ ["8000"; "9000"; "10000"]%string)
    then [Py.slice 0 3 remaining; Py.slice 3 7 remaining;
          Py.slice 7 11 remaining; Py.slice 11 15 remaining]
    else [Py.slice 0 4 remaining; Py.slice 4 8 remaining;
          Py.slice 8 12 remaining; Py.slice 12 16 remaining].
Proof.
  intros Hlen. unfold G1.partition_digits.
  destruct (Nat.eqb_spec (Py.len remaining) 16); [lia|].
  destruct (Nat.eqb_spec (Py.len remaining) 15); [lia|].
  destruct (Nat.eqb_spec (Py.len remaining) 14); [lia|].
  destruct (Nat.leb_spec 12 (Py.len remaining)); [|lia].
  destruct (bool_decide _).
  - destruct (Nat.leb_spec 15 (Py.len remaining)); [done | lia].
  - replace (min (Py.len remaining) 16) with 16 by lia.
    rewrite range_step_16. cbn [flat_map].
    repeat (match goal with
            | |- context [?a <? ?b] => destruct (Nat.ltb_spec a b); [|lia]
            end).
    reflexivity.
Qed.

(** A line the concatenated mode leaves alone and that reads as a
    delimited 0 °C row of four values or more is recorded by the check
    for delimited rows. *)
Lemma collect_delimited_zero (j : nat) (js : list nat) (lines : list string)
    (altitude : string) (line_idx : nat) (st : G1.scan) (l : string) (a : Z) :
  lines !! (line_idx + j) = Some l ->
  line_idx + j ∉ G1.processed_lines st ->
  Py.int altitude = Some a ->
  G1.mangled_zero altitude (Py.strip l) = None ->
  Py.startswith "0 " (Py.strip l) = true ->
  4 <= length (Re.findall re_digits (Py.drop_str 1 (Py.strip l))) ->
  G1.collect (j :: js) lines altitude line_idx st
  = G1.collect js lines altitude line_idx
      (G1.Scan
         (<[0%Z := take 4 (Re.findall re_digits (Py.drop_str 1 (Py.strip l)))]>
            (G1.temp_data st))
         ({[line_idx + j]} ∪ G1.processed_lines st)).
Proof.
  intros Hl Hnp Ha Hm Hs Hlen. cbn [G1.collect].
  destruct (Nat.ltb_spec (line_idx + j) (length lines)) as [_|Hge].
  2:{ apply lookup_lt_Some in Hl. lia. }
  rewrite bool_decide_eq_false_2 by done.
  unfold Py.item. rewrite Hl. change (Some l ≫= ?f) with (f l). cbv beta zeta.
  rewrite Hm.
  rewrite (normal_temperature_row 0 altitude (Py.strip l) _ st a);
    [| unfold G1.temps; do 3 right; left | exact Hs | exact Ha].
  change (Py.len (Py.str_int 0)) with 1.
  replace ((9000 <=? a)%Z && (40 <=? 0)%Z) with false
    by (by rewrite andb_false_r).
  destruct (Nat.leb_spec 4
              (length (Re.findall re_digits (Py.drop_str 1 (Py.strip l)))));
    [done | lia].
Qed.

(** C6, as the code has it.  On a line that enters the handling of a
    mangled 0 °C row, with [remaining] the digits after the marker, the
    concatenated mode yields nothing only when [remaining] has fewer than
    twelve digits.  With twelve digits or more it always yields three or
    four values, whatever the length: sixteen digits are cut 4-4-4-4,
    fifteen 3-4-4-4, fourteen 3-3-4-4 at altitude 10000 when they begin
    with 809 and 3-4-4-3 otherwise; twelve, thirteen and seventeen or
    more digits, which fit none of these patterns, are cut 3-4-4 at the
    altitudes 8000, 9000 and 10000, with a fourth group of four from
    seventeen digits on, and in groups of four elsewhere, three groups
    for twelve or thirteen digits and four from seventeen on; digits past
    the last group are dropped.  A line the mode yields nothing for is
    left to the checks for delimited rows, and one that reads as a
    delimited 0 °C row of four values or more is recorded there. *)
Theorem concatenated_mode_closed_only_below_twelve
    (altitude next_line remaining : string) :
  G1.mangled_entry next_line = true ->
  Py.filter_string Py.isdigit next_line = String "0" remaining ->
  let n := Py.len remaining in
  let cut := fun a b => Py.slice a b remaining in
  let high := altitude ∈ ["8000"; "9000"; "10000"]%string in
  (n < 12 -> G1.mangled_zero altitude next_line = None)
  /\ (n = 16 ->
      G1.mangled_zero altitude next_line
      = Some [cut 0 4; cut 4 8; cut 8 12; cut 12 16])
  /\ (n = 15 ->
      G1.mangled_zero altitude next_line
      = Some [cut 0 3; cut 3 7; cut 7 11; cut 11 15])
  /\ (n = 14 ->
      altitude = "10000"%string /\ Py.startswith "809" remaining = true ->
      G1.mangled_zero altitude next_line
      = Some [cut 0 3; cut 3 6; cut 6 10; cut 10 14])
  /\ (n = 14 ->
      ~ (altitude = "10000"%string /\ Py.startswith "809" remaining = true) ->
      G1.mangled_zero altitude next_line
      = Some [cut 0 3; cut 3 7; cut 7 11; cut 11 14])
  /\ (n = 12 \/ n = 13 -> high ->
      G1.mangled_zero altitude next_line = Some [cut 0 3; cut 3 7; cut 7 11])
  /\ (17 <= n -> high ->
      G1.mangled_zero altitude next_line
      = Some [cut 0 3; cut 3 7; cut 7 11; cut 11 15])
  /\ (n = 12 \/ n = 13 -> ~ high ->
      G1.mangled_zero altitude next_line = Some [cut 0 4; cut 4 8; cut 8 12])
  /\ (17 <= n -> ~ high ->
      G1.mangled_zero altitude next_line
      = Some [cut 0 4; cut 4 8; cut 8 12; cut 12 16])
  /\ (forall (j : nat) (js : list nat) (lines : list string) (line_idx : nat)
             (st : G1.scan) (l : string) (a : Z),
        Py.strip l = next_line ->
        lines !! (line_idx + j) = Some l ->
        line_idx + j ∉ G1.processed_lines st ->
        Py.int altitude = Some a ->
        n < 12 ->
        Py.startswith "0 " next_line = true ->
        4 <= length (Re.findall re_digits (Py.drop_str 1 next_line)) ->
        G1.collect (j :: js) lines altitude line_idx st
        = G1.collect js lines altitude line_idx
            (G1.Scan
               (<[0%Z := take 4 (Re.findall re_digits (Py.drop_str 1 next_line))]>
                  (G1.temp_data st))
               ({[line_idx + j]} ∪ G1.processed_lines st))).
Proof.
  intros Hentry Hdigits n cut high.
  assert (G1.mangled_zero altitude next_line
          = if 12 <=? n then
              if 3 <=? length (G1.partition_digits altitude remaining)
              then Some (take 4 (G1.partition_digits altitude remaining))
              else None
            else None) as Hmz.
  { unfold G1.mangled_zero. rewrite Hentry, Hdigits, first_digit_zero.
    change (Py.drop_str 1 (String "0" remaining)) with remaining.
    change (13 <=? Py.len (String "0" remaining)) with (12 <=? n).
    by destruct (12 <=? n). }
  assert (n < 12 -> G1.mangled_zero altitude next_line = None) as Hshort.
  { intros Hn. rewrite Hmz. destruct (Nat.leb_spec 12 n); [lia | done]. }
  split; [exact Hshort|].
  assert (forall k, n = k ->
            String.length remaining = k) as Hlen by (intros k <-; done).
  split; [|split; [|split; [|split; [|split; [|split; [|split; [|split]]]]]]].
  - intros Hn. rewrite Hmz. unfold cut. clear Hmz Hshort.
    apply Hlen in Hn. explode remaining Hn. reflexivity.
  - intros Hn. rewrite Hmz. unfold cut. clear Hmz Hshort.
    apply Hlen in Hn. explode remaining Hn. reflexivity.
  - intros Hn [-> H809]. rewrite Hmz. unfold cut. clear Hmz Hshort.
    apply Hlen in Hn. explode remaining Hn.
    unfold G1.partition_digits. cbn [Py.len String.length Nat.eqb].
    rewrite H809. reflexivity.
  - intros Hn Hnot. rewrite Hmz. unfold cut. clear Hmz Hshort.
    apply Hlen in Hn.
    assert (String.eqb altitude "10000" && Py.startswith "809" remaining = false)
      as E.
    { apply not_true_is_false. intros [Ha Hs]%andb_true_iff.
      apply String.eqb_eq in Ha. by apply Hnot. }
    explode remaining Hn.
    unfold G1.partition_digits. cbn [Py.len String.length Nat.eqb].
    rewrite E. reflexivity.
  - intros Hn Hhigh. rewrite Hmz. unfold cut. clear Hmz Hshort.
    assert (bool_decide high = true) as E by (by apply bool_decide_eq_true_2).
    destruct Hn as [Hn|Hn]; apply Hlen in Hn; explode remaining Hn;
      unfold G1.partition_digits; cbn [Py.len String.length Nat.eqb Nat.leb];
      unfold high in E; rewrite E; reflexivity.
  - intros Hn Hhigh. rewrite Hmz. unfold cut.
    rewrite partition_digits_long by done.
    rewrite bool_decide_eq_true_2 by done.
    destruct (Nat.leb_spec 12 n); [done | lia].
  - intros Hn Hlow. rewrite Hmz. unfold cut. clear Hmz Hshort.
    assert (bool_decide high = false) as E by (by apply bool_decide_eq_false_2).
    destruct Hn as [Hn|Hn]; apply Hlen in Hn; explode remaining Hn;
      unfold G1.partition_digits; cbn [Py.len String.length Nat.eqb Nat.leb];
      unfold high in E; rewrite E; reflexivity.
  - intros Hn Hlow. rewrite Hmz. unfold cut.
    rewrite partition_digits_long by done.
    rewrite bool_decide_eq_false_2 by done.
    destruct (Nat.leb_spec 12 n); [done | lia].
  - intros j js lines line_idx st l a Hl Hlook Hnp Ha Hn Hs Hvals. subst next_line.
    apply (collect_delimited_zero j js lines altitude line_idx st l a);
      try done. by apply Hshort.
Qed.

Lemma concatenated_mode_closed_only_below_twelve_witness :
  G1.mangled_zero "1000" "0 12 345 67 89" = None
  /\ G1.mangled_zero "1000" "0 12345 1234 1234 1234"
     = Some ["1234"; "5123"; "4123"; "4123"]%string
  /\ G1.mangled_zero "9000" "0 12345 1234 1234 1234"
     = Some ["123"; "4512"; "3412"; "3412"]%string
  /\ G1.mangled_zero "9000" "0 929 109 127 814"
     = Some ["929"; "1091"; "2781"]%string
  /\ G1.collect [1] ["9000-40 1 2 3 4"; "0 929 1091 78 90"]%string "9000" 0
       (G1.Scan ∅ ∅)
     = Some (G1.Scan {[ 0%Z := ["929"; "1091"; "78"; "90"]%string ]} {[ 1 ]}).
Proof.
  split; [|split; [|split; [|split]]].
  - apply (proj1 (concatenated_mode_closed_only_below_twelve "1000"
                    "0 12 345 67 89" "123456789" eq_refl eq_refl)).
    simpl. lia.
  - apply (proj2 (proj2 (proj2 (proj2 (proj2 (proj2 (proj2 (proj2
             (concatenated_mode_closed_only_below_twelve "1000"
                "0 12345 1234 1234 1234" "12345123412341234"
                eq_refl eq_refl))))))))).
    + simpl. lia.
    + intros H. repeat (apply elem_of_cons in H as [H|H]; [discriminate H|]).
      by apply elem_of_nil in H.
  - apply (proj1 (proj2 (proj2 (proj2 (proj2 (proj2 (proj2
             (concatenated_mode_closed_only_below_twelve "9000"
                "0 12345 1234 1234 1234" "12345123412341234"
                eq_refl eq_refl)))))))).
    + simpl. lia.
    + right. left.
  - apply (proj1 (proj2 (proj2 (proj2 (proj2 (proj2
             (concatenated_mode_closed_only_below_twelve "9000"
                "0 929 109 127 814" "929109127814"
                eq_refl eq_refl))))))).
    + left. reflexivity.
    + right. left.
  - rewrite (proj2 (proj2 (proj2 (proj2 (proj2 (proj2 (proj2 (proj2 (proj2
               (concatenated_mode_closed_only_below_twelve "9000"
                  "0 929 1091 78 90" "92910917890" eq_refl eq_refl)))))))))
               1 [] ["9000-40 1 2 3 4"; "0 929 1091 78 90"]%string 0
               (G1.Scan ∅ ∅) "0 929 1091 78 90"%string 9000%Z
               eq_refl eq_refl ltac:(set_solver) eq_refl
               ltac:(simpl; lia) eq_refl ltac:(vm_compute; lia)).
    vm_compute. reflexivity.
Defined.

(** C6 as stated fails.  Seventeen digits after the marker are no four
    values of three or four digits each, yet the chain cuts the first
    sixteen in fours and the row is recorded.  And a line with too few
    digits for the concatenated mode is not dropped: it is recorded as a
    delimited row. *)
Lemma unfitting_rows_are_recorded :
  Py.len (Py.drop_str 1 (Py.filter_string Py.isdigit "0 12345 1234 1234 1234"))
  = 17
  /\ G1.mangled_zero "1000" "0 12345 1234 1234 1234"
     = Some ["1234"; "5123"; "4123"; "4123"]%string
  /\ G1.parse_climb_gradient_tables
       [page_of [anchor_line; "0 12345 1234 1234 1234"%string]] 1 1
     = Some (header :: rows_1000 "-40" "1232" "1301" "1378" "1455"
                    ++ rows_1000 "0" "1234" "5123" "4123" "4123")
  /\ G1.mangled_entry "0 123 456 78 90" = true
  /\ G1.mangled_zero "1000" "0 123 456 78 90" = None
  /\ G1.parse_climb_gradient_tables
       [page_of [anchor_line; "0 123 456 78 90"%string]] 1 1
     = Some (header :: rows_1000 "-40" "1232" "1301" "1378" "1455"
                    ++ rows_1000 "0" "123" "456" "78" "90").
Proof. repeat split; vm_compute; reflexivity. Qed.

End ConcatenatedDigits.

(* ===================================================================== *)
(** * Climb matrices: the rows of one altitude *)
(* ===================================================================== *)

Section Emission.

Lemma weights_NoDup : NoDup G1.weights.
Proof. by apply (bool_decide_unpack _). Qed.

(** The two loops of the emission add the same rows: the digit values,
    beside the last [len(values)] weights or, from four values on, beside
    the four weights. *)
Lemma emit_temperature_rows (altitude : string) (data : list row) (temp : Z)
    (values : list string) :
  G1.emit_temperature altitude data (temp, values)
  = Some (data ++ rows_of altitude temp values).
Proof.
  unfold G1.emit_temperature, rows_of.
  destruct values as [|v1 [|v2 [|v3 [|v4 rest]]]]; simpl.
  - by rewrite app_nil_r.
  - destruct (Py.str_isdigit v1); simpl; by rewrite ?app_nil_r.
  - destruct (Py.str_isdigit v1), (Py.str_isdigit v2); simpl;
      by rewrite ?app_nil_r, <- ?app_assoc.
  - destruct (Py.str_isdigit v1), (Py.str_isdigit v2), (Py.str_isdigit v3);
      simpl; by rewrite ?app_nil_r, <- ?app_assoc.
  - assert (forall d : list row,
      Py.for_each (zip (seq 4 (length rest)) rest)
        (fun (data : list row) '(w_idx, value) =>
           if (w_idx <? length G1.weights) && Py.str_isdigit value
           then w ← Py.item G1.weights w_idx;
                Some (data ++ [Row (Py.str_int w) altitude
                                 (Text (Py.str_int temp)) value])
           else Some data) d = Some d) as Hrest.
    { intros d. apply for_each_noop. intros [i v] Hi.
      apply elem_of_zip_l, elem_of_seq in Hi.
      destruct (Nat.ltb_spec i (length G1.weights)); [simpl in *; lia | done]. }
    unfold Py.enumerate. simpl.
    destruct (Py.str_isdigit v1), (Py.str_isdigit v2), (Py.str_isdigit v3),
      (Py.str_isdigit v4); simpl; rewrite Hrest;
      by rewrite ?app_nil_r, <- ?app_assoc.
Qed.

Lemma append_rows_four (data : list row) (altitude temp v1 v2 v3 v4 : string) :
  G2Plus.append_rows data altitude temp [v1; v2; v3; v4]
  = Some (data ++ [ Row "6000" altitude (Text temp) v1;
                    Row "5500" altitude (Text temp) v2;
                    Row "5000" altitude (Text temp) v3;
                    Row "4500" altitude (Text temp) v4 ]).
Proof. unfold G2Plus.append_rows. simpl. by rewrite <- ?app_assoc. Qed.

Lemma emit_items_rows (altitude : string) (items : list (Z * list string))
    (data : list row) :
  Py.for_each items (G1.emit_temperature altitude) data
  = Some (data ++ flat_map (fun it => rows_of altitude it.1 it.2) items).
Proof.
  revert data. induction items as [|[temp values] items IH]; intros data.
  - simpl. by rewrite app_nil_r.
  - rewrite for_each_cons, emit_temperature_rows. simpl.
    rewrite IH. by rewrite <- app_assoc.
Qed.

(** Every row of one temperature carries the altitude and that
    temperature. *)
Lemma rows_of_key (altitude : string) (temp : Z) (values : list string) (r : row) :
  r ∈ rows_of altitude temp values ->
  r_altitude r = altitude /\ r_temperature r = Text (Py.str_int temp).
Proof.
  unfold rows_of. intros Hr.
  apply list_elem_of_In, in_flat_map in Hr as ([w v] & _ & Hr).
  simpl in Hr. destruct (Py.str_isdigit v); [|destruct Hr].
  by destruct Hr as [<- | []].
Qed.

(** The weights of the rows of one temperature, in order, are picked from
    the known weights without repetition. *)
Lemma rows_of_weights (altitude : string) (temp : Z) (values : list string) :
  r_weight <$> rows_of altitude temp values
    `sublist_of` (Py.str_int <$> G1.weights).
Proof.
  unfold rows_of.
  transitivity (Py.str_int <$>
                  (zip (drop (length G1.weights - length values) G1.weights)
                       values).*1).
  - generalize (zip (drop (length G1.weights - length values) G1.weights) values).
    intros l. induction l as [|[w v] l IH]; simpl; [done|].
    destruct (Py.str_isdigit v); simpl.
    + by apply sublist_skip.
    + by apply sublist_cons.
  - apply fmap_sublist.
    etransitivity;
      [|apply (sublist_drop _ (length G1.weights - length values))].
    generalize (drop (length G1.weights - length values) G1.weights).
    intros ws. revert values. induction ws as [|w ws IH]; intros [|v vs]; simpl;
      try done; [apply sublist_nil_l | by apply sublist_skip].
Qed.

Lemma rows_of_NoDup (altitude : string) (temp : Z) (values : list string) :
  NoDup (key <$> rows_of altitude temp values).
Proof.
  assert (key <$> rows_of altitude temp values
          = (fun w => (w, altitude, Text (Py.str_int temp)))
              <$> (r_weight <$> rows_of altitude temp values)) as ->.
  { rewrite <- list_fmap_compose. apply list_fmap_ext.
    intros i r Hr. apply list_elem_of_lookup_2, rows_of_key in Hr as [Ha Ht].
    unfold key. simpl. by rewrite Ha, Ht. }
  apply NoDup_fmap_2; [by intros w1 w2 [= ->]|].
  eapply sublist_NoDup; [|apply rows_of_weights].
  apply NoDup_fmap_2; [apply _ | apply weights_NoDup].
Qed.

Lemma items_rows_NoDup (altitude : string) (items : list (Z * list string)) :
  NoDup items.*1 ->
  NoDup (key <$> flat_map (fun it => rows_of altitude it.1 it.2) items).
Proof.
  induction items as [|[temp values] items IH]; simpl; [constructor|].
  intros [Hnotin Hnd]%NoDup_cons. rewrite fmap_app. apply NoDup_app.
  split; [apply rows_of_NoDup|]. split; [|by apply IH].
  intros k (r & -> & Hr)%list_elem_of_fmap (r' & Hk & Hr')%list_elem_of_fmap.
  apply rows_of_key in Hr as [_ Ht].
  apply list_elem_of_In, in_flat_map in Hr' as ([temp' values'] & Hin & Hr').
  apply list_elem_of_In, rows_of_key in Hr' as [_ Ht'].
  unfold key in Hk. injection Hk as _ _ Hk. rewrite Ht, Ht' in Hk.
  injection Hk as Hk. apply str_int_inj in Hk. subst temp'.
  apply Hnotin. apply list_elem_of_In in Hin.
  by apply (list_elem_of_fmap_2 fst) in Hin.
Qed.

Lemma sorted_items_NoDup (temp_data : gmap Z (list string)) :
  NoDup (G1.sorted_items temp_data).*1.
Proof.
  unfold G1.sorted_items.
  rewrite (merge_sort_Permutation G1.item_le (map_to_list temp_data)).
  apply NoDup_fst_map_to_list.
Qed.

(** A temperature line that is accepted stores its values whatever the
    map held for that temperature. *)
Lemma normal_temperature_stores (ts : list Z) (altitude next_line : string)
    (idx : nat) (st st' : G1.scan) :
  G1.normal_temperature ts altitude next_line idx st = Some (st', true) ->
  exists temp values,
    temp ∈ ts
    /\ G1.temp_data st' = <[temp := values]> (G1.temp_data st).
Proof.
  induction ts as [|temp ts IH]; simpl; [by intros [= _ ?]|].
  destruct (Py.startswith _ _).
  - destruct (Py.int altitude) as [a|]; simpl; [|done].
    destruct (_ <=? _).
    + intros [= <-]. eexists _, _. split; [left | done].
    + intros (t & v & Ht & E)%IH. exists t, v. split; [by right | done].
  - intros (t & v & Ht & E)%IH. exists t, v. split; [by right | done].
Qed.

(** The rows of one altitude anchor that is not yet processed: the rows
    of every temperature the [while] loop collected, in the order of the
    temperatures. *)
Lemma process_altitude_rows (lines : list string) (data : list row)
    (processed : gset nat) (line_idx : nat) (altitude : string)
    (initial_values : list string) :
  line_idx ∉ processed ->
  G1.process_altitude lines (data, processed)
    (line_idx, altitude, initial_values)
  = st ← G1.collect (seq 1 14) lines altitude line_idx
           (G1.Scan {[ (-40)%Z := initial_values ]} processed);
    Some (data ++ flat_map (fun it => rows_of altitude it.1 it.2)
                    (G1.sorted_items (G1.temp_data st)),
          G1.processed_lines st).
Proof.
  intros Hnp. unfold G1.process_altitude.
  rewrite bool_decide_eq_false_2 by done.
  destruct (G1.collect _ _ _ _ _) as [st|]; [|done].
  change (Some st ≫= ?f) with (f st). cbv beta.
  unfold G1.emit_altitude. by rewrite emit_items_rows.
Qed.

(** C1, as the code has it.  In G1 the rows of an altitude anchor are
    the rows of the value lists its [while] loop stored, and a stored
    list shorter than the list of weights gets its values beside the
    last, lightest weights, in order, with no row for the first,
    heaviest ones: three values go to 5500, 5000 and 4500.  But not every
    temperature line with fewer than four values is stored.  A line that
    reaches the checks for delimited rows and begins with one of the
    temperatures -30, ..., 50 is stored by the loop over these
    temperatures when it holds four values or more, or three from 9000 ft
    on at 40 degrees or more; when it holds fewer values than that and
    its temperature is 40 at most, no check stores anything for it, so no
    row at all is emitted for its cell.  A line at 43 degrees with three
    values is stored through the check for 41..50, at 1000 ft too.  In
    G2+ a temperature line adds one row for each of the four
    weights when the pattern finds a temperature and four values, and
    nothing otherwise; the loop that adds the rows would serve the first,
    heaviest weights on a list of three, but a temperature line never
    hands it one. *)
Theorem shortfall_goes_to_lightest_weights :
  (forall (altitude : string) (data : list row) (temp : Z) (values : list string),
      length values < length G1.weights ->
      G1.emit_temperature altitude data (temp, values)
      = Some (data ++ rows_of altitude temp values)
      /\ (Forall (fun v => Py.str_isdigit v = true) values ->
          rows_of altitude temp values
          = zip_with
              (fun w v => Row (Py.str_int w) altitude (Text (Py.str_int temp)) v)
              (drop (length G1.weights - length values) G1.weights) values)
      /\ (forall r, r ∈ rows_of altitude temp values ->
          r_weight r ∈ Py.str_int <$>
                         drop (length G1.weights - length values) G1.weights
          /\ r_weight r ∉ Py.str_int <$>
                            take (length G1.weights - length values) G1.weights))
  /\ (forall (altitude : string) (data : list row) (temp : Z) (v1 v2 v3 : string),
        Py.str_isdigit v1 = true -> Py.str_isdigit v2 = true ->
        Py.str_isdigit v3 = true ->
        G1.emit_temperature altitude data (temp, [v1; v2; v3])
        = Some (data ++ [ Row "5500" altitude (Text (Py.str_int temp)) v1;
                          Row "5000" altitude (Text (Py.str_int temp)) v2;
                          Row "4500" altitude (Text (Py.str_int temp)) v3 ]))
  /\ (forall (lines : list string) (data : list row) (processed : gset nat)
             (line_idx : nat) (altitude : string) (initial_values : list string),
        line_idx ∉ processed ->
        G1.process_altitude lines (data, processed)
          (line_idx, altitude, initial_values)
        = st ← G1.collect (seq 1 14) lines altitude line_idx
                 (G1.Scan {[ (-40)%Z := initial_values ]} processed);
          Some (data ++ flat_map (fun it => rows_of altitude it.1 it.2)
                          (G1.sorted_items (G1.temp_data st)),
                G1.processed_lines st))
  /\ (forall (j : nat) (js : list nat) (lines : list string) (altitude : string)
             (line_idx : nat) (st : G1.scan) (l : string) (a temp : Z),
        lines !! (line_idx + j) = Some l ->
        line_idx + j ∉ G1.processed_lines st ->
        G1.mangled_zero altitude (Py.strip l) = None ->
        Py.int altitude = Some a ->
        temp ∈ G1.temps ->
        Py.startswith (Py.str_int temp +:+ " ") (Py.strip l) = true ->
        let values :=
          Re.findall re_digits
            (Py.drop_str (Py.len (Py.str_int temp)) (Py.strip l)) in
        let min_values := if (9000 <=? a)%Z && (40 <=? temp)%Z then 3 else 4 in
        (min_values <= length values ->
         G1.collect (j :: js) lines altitude line_idx st
         = G1.collect js lines altitude line_idx
             (G1.Scan (<[temp := take 4 values]> (G1.temp_data st))
                ({[line_idx + j]} ∪ G1.processed_lines st)))
        /\ (length values < min_values -> (temp <= 40)%Z ->
            G1.collect (j :: js) lines altitude line_idx st
            = if Py.contains "Engine" (Py.strip l)
                 || Py.contains "Press" (Py.strip l)
                 || Py.contains "-40" (Py.strip l)
              then Some st
              else G1.collect js lines altitude line_idx st))
  /\ G1.parse_climb_gradient_tables
       [page_of ["9000-40 700 800 900 1000"; "40 321 436 567"]%string] 1 1
     = Some (header :: climb_block "9000" "-40" "700" "800" "900" "1000"
                    ++ [ Row "5500" "9000" (Text "40") "321";
                         Row "5000" "9000" (Text "40") "436";
                         Row "4500" "9000" (Text "40") "567" ])
  /\ G1.parse_climb_gradient_tables
       [page_of [anchor_line; "43 321 436 567"%string]] 1 1
     = Some (header :: climb_block "1000" "-40" "1232" "1301" "1378" "1455"
                    ++ [ Row "5500" "1000" (Text "43") "321";
                         Row "5000" "1000" (Text "43") "436";
                         Row "4500" "1000" (Text "43") "567" ])
  /\ (forall (data : list row) (altitude line : string),
        G2Plus.temperature_row data altitude line
        = match Re.rmatch G2Plus.re_temperature_row line with
          | Some m =>
              Some (data ++ climb_block altitude (Re.group m 1) (Re.group m 2)
                              (Re.group m 3) (Re.group m 4) (Re.group m 5))
          | None => Some data
          end)
  /\ (forall (data : list row) (altitude temp v1 v2 v3 : string),
        G2Plus.append_rows data altitude temp [v1; v2; v3]
        = Some (data ++ [ Row "6000" altitude (Text temp) v1;
                          Row "5500" altitude (Text temp) v2;
                          Row "5000" altitude (Text temp) v3 ]))
  /\ G2Plus.parse_climb_gradient_tables
       (replicate 10 ""%string
        ++ [page_of [anchor_line; "43 321 436 567 600"%string]])
     = Some (header :: climb_block "1000" "-40" "1232" "1301" "1378" "1455"
                    ++ climb_block "1000" "43" "321" "436" "567" "600").
Proof.
  split; [|split; [|split; [|split; [|split; [|split; [|split; [|split]]]]]]].
  - intros altitude data temp values Hlen. split; [apply emit_temperature_rows|].
    split.
    + intros Hd. unfold rows_of.
      destruct values as [|v1 [|v2 [|v3 [|v4 rest]]]]; simpl in Hlen; try lia;
        repeat (apply Forall_cons_1 in Hd as [? Hd]); simpl;
        repeat (match goal with H : Py.str_isdigit _ = true |- _ =>
                  rewrite H; clear H end); reflexivity.
    + intros r Hr. unfold rows_of in Hr.
      apply list_elem_of_In, in_flat_map in Hr as ([w v] & Hwv & Hr).
      apply list_elem_of_In, elem_of_zip_l in Hwv.
      simpl in Hr. destruct (Py.str_isdigit v); [|destruct Hr].
      destruct Hr as [<- | []]. simpl. split.
      * by apply list_elem_of_fmap_2.
      * intros (w' & Heq & Hw')%list_elem_of_fmap.
        apply str_int_inj in Heq as <-.
        by eapply (drop_not_in_take G1.weights); [apply weights_NoDup | |].
  - intros altitude data temp v1 v2 v3 H1 H2 H3.
    rewrite emit_temperature_rows. unfold rows_of. simpl.
    by rewrite H1, H2, H3.
  - apply process_altitude_rows.
  - intros j js lines altitude line_idx st l a temp.
    apply collect_normal_row.
  - vm_compute. reflexivity.
  - vm_compute. reflexivity.
  - intros data altitude line. unfold G2Plus.temperature_row.
    destruct (Re.rmatch _ _) as [m|]; [|done]. apply append_rows_four.
  - intros data altitude temp v1 v2 v3. unfold G2Plus.append_rows. simpl.
    by rewrite <- ?app_assoc.
  - vm_compute. reflexivity.
Qed.

Lemma shortfall_goes_to_lightest_weights_witness :
  G1.emit_temperature "9000" [] (43%Z, ["321"; "436"; "567"]%string)
  = Some [ Row "5500" "9000" (Text "43") "321";
           Row "5000" "9000" (Text "43") "436";
           Row "4500" "9000" (Text "43") "567" ]
  /\ G1.collect [1] ["9000-40 700 800 900 1000"; "40 321 436 567"]%string
       "9000" 0 (G1.Scan {[ (-40)%Z := ["700"; "800"; "900"; "1000"]%string ]} ∅)
     = Some (G1.Scan {[ (-40)%Z := ["700"; "800"; "900"; "1000"]%string;
                        40%Z := ["321"; "436"; "567"]%string ]} {[ 1 ]})
  /\ G1.collect [1] [anchor_line; "-30 1217 1286 1362"%string] "1000" 0
       (G1.Scan {[ (-40)%Z := ["1232"; "1301"; "1378"; "1455"]%string ]} ∅)
     = Some (G1.Scan {[ (-40)%Z := ["1232"; "1301"; "1378"; "1455"]%string ]} ∅).
Proof.
  split; [|split].
  - exact (proj1 (proj2 shortfall_goes_to_lightest_weights) "9000"%string []
             43%Z "321"%string "436"%string "567"%string eq_refl eq_refl eq_refl).
  - rewrite (proj1 (proj1 (proj2 (proj2 (proj2 shortfall_goes_to_lightest_weights)))
               1 [] ["9000-40 700 800 900 1000"; "40 321 436 567"]%string
               "9000"%string 0
               (G1.Scan {[ (-40)%Z := ["700"; "800"; "900"; "1000"]%string ]} ∅)
               "40 321 436 567"%string 9000%Z 40%Z
               eq_refl ltac:(apply not_elem_of_empty) eq_refl eq_refl
               ltac:(unfold G1.temps; do 7 right; left) eq_refl)
               ltac:(vm_compute; lia)).
    vm_compute. reflexivity.
  - rewrite (proj2 (proj1 (proj2 (proj2 (proj2 shortfall_goes_to_lightest_weights)))
               1 [] [anchor_line; "-30 1217 1286 1362"%string]
               "1000"%string 0
               (G1.Scan {[ (-40)%Z := ["1232"; "1301"; "1378"; "1455"]%string ]} ∅)
               "-30 1217 1286 1362"%string 1000%Z (-30)%Z
               eq_refl ltac:(apply not_elem_of_empty) eq_refl eq_refl
               ltac:(unfold G1.temps; left) eq_refl)
               ltac:(vm_compute; lia) ltac:(lia)).
    vm_compute. reflexivity.
Defined.

(** C1 as stated fails.  The line "-30 1217 1286 1362" under the anchor
    of altitude 1000 yields three values, fewer than the four weights,
    and the assembler does not give them to the lightest weights: it
    emits no row for the line at all.  So it does for a line of three
    values at 30 degrees at 9000 ft, and for one at 40 degrees at
    1000 ft.  In G2+ the pattern for a temperature line does not match
    "43 321 436 567", and no row is emitted for it. *)
Lemma short_rows_are_dropped :
  Re.findall re_digits (Py.drop_str 3 "-30 1217 1286 1362")
  = ["1217"; "1286"; "1362"]%string
  /\ G1.parse_climb_gradient_tables
       [page_of [anchor_line; "-30 1217 1286 1362"%string]] 1 1
     = Some (header :: climb_block "1000" "-40" "1232" "1301" "1378" "1455")
  /\ G1.parse_climb_gradient_tables
       [page_of ["9000-40 700 800 900 1000"; "30 321 436 567"]%string] 1 1
     = Some (header :: climb_block "9000" "-40" "700" "800" "900" "1000")
  /\ G1.parse_climb_gradient_tables
       [page_of [anchor_line; "40 321 436 567"%string]] 1 1
     = Some (header :: climb_block "1000" "-40" "1232" "1301" "1378" "1455")
  /\ Re.rmatch G2Plus.re_temperature_row "43 321 436 567" = None
  /\ G2Plus.parse_climb_gradient_tables
       (replicate 10 ""%string ++ [page_of [anchor_line; "43 321 436 567"%string]])
     = Some (header :: climb_block "1000" "-40" "1232" "1301" "1378" "1455").
Proof. repeat split; vm_compute; reflexivity. Qed.

(** C3, as the code has it.  In G1 the rows emitted for one altitude
    anchor never share a (weight, altitude, temperature) key, whatever the
    collected map holds, and they all carry the anchor's altitude.  A
    line that is stored is never skipped because its temperature was
    recorded before: each of the three stores of the [while] loop puts
    the line's values under the line's temperature in the place of what
    the temperature held, so the last line wins.  This holds for a
    delimited row, stored under the temperature it begins with; for a
    concatenated 0 °C row, stored under 0; and for a row of the check for
    41..50, stored under the number its first two characters read as.  A
    temperature that occurs twice under one anchor, as a delimited row,
    as a row at 43 degrees or as a concatenated 0 °C row, is emitted once,
    with the values of the second line. *)
Theorem keys_distinct_within_one_altitude :
  (forall (altitude : string) (data : list row) (temp_data : gmap Z (list string)),
      exists new,
        G1.emit_altitude altitude data temp_data = Some (data ++ new)
        /\ NoDup (key <$> new)
        /\ Forall (fun r => r_altitude r = altitude) new)
  /\ (forall (j : nat) (js : list nat) (lines : list string) (altitude : string)
             (line_idx : nat) (st : G1.scan) (l : string) (a temp : Z),
        lines !! (line_idx + j) = Some l ->
        line_idx + j ∉ G1.processed_lines st ->
        G1.mangled_zero altitude (Py.strip l) = None ->
        Py.int altitude = Some a ->
        temp ∈ G1.temps ->
        Py.startswith (Py.str_int temp +:+ " ") (Py.strip l) = true ->
        let values :=
          take 4 (Re.findall re_digits
                    (Py.drop_str (Py.len (Py.str_int temp)) (Py.strip l))) in
        (if (9000 <=? a)%Z && (40 <=? temp)%Z then 3 else 4)
        <= length (Re.findall re_digits
                     (Py.drop_str (Py.len (Py.str_int temp)) (Py.strip l))) ->
        G1.collect (j :: js) lines altitude line_idx st
        = G1.collect js lines altitude line_idx
            (G1.Scan (<[temp := values]> (G1.temp_data st))
               ({[line_idx + j]} ∪ G1.processed_lines st))
        /\ (<[temp := values]> (G1.temp_data st)) !! temp = Some values)
  /\ (forall (j : nat) (js : list nat) (lines : list string) (altitude : string)
             (line_idx : nat) (st : G1.scan) (l : string) (values : list string),
        lines !! (line_idx + j) = Some l ->
        line_idx + j ∉ G1.processed_lines st ->
        G1.mangled_zero altitude (Py.strip l) = Some values ->
        G1.collect (j :: js) lines altitude line_idx st
        = G1.collect js lines altitude line_idx
            (G1.Scan (<[0%Z := values]> (G1.temp_data st))
               ({[line_idx + j]} ∪ G1.processed_lines st))
        /\ (<[0%Z := values]> (G1.temp_data st)) !! 0%Z = Some values)
  /\ (forall (next_line : string) (idx : nat) (st : G1.scan) (m : Re.mobj)
             (t : Z),
        Re.rmatch G1.re_two_digit_row next_line <> None ->
        Re.rmatch G1.re_special_temp next_line = Some m ->
        Py.int (Py.slice 0 2 next_line) = Some t ->
        (41 <= t <= 50)%Z ->
        let values := take 4 (Re.findall re_digits (Re.group m 2)) in
        3 <= length (Re.findall re_digits (Re.group m 2)) ->
        G1.special_temperature next_line idx st
        = Some (G1.Scan (<[t := values]> (G1.temp_data st))
                  ({[idx]} ∪ G1.processed_lines st), true)
        /\ (<[t := values]> (G1.temp_data st)) !! t = Some values)
  /\ G1.parse_climb_gradient_tables [repeated_temperature] 1 1
     = Some (header :: climb_block "1000" "-40" "1232" "1301" "1378" "1455"
                    ++ climb_block "1000" "-30" "1200" "1270" "1350" "1420")
  /\ G1.parse_climb_gradient_tables
       [page_of [anchor_line; "43 321 436 567"; "43 300 400 500"]%string] 1 1
     = Some (header :: climb_block "1000" "-40" "1232" "1301" "1378" "1455"
                    ++ [ Row "5500" "1000" (Text "43") "300";
                         Row "5000" "1000" (Text "43") "400";
                         Row "4500" "1000" (Text "43") "500" ])
  /\ G1.parse_climb_gradient_tables
       [page_of [anchor_line; "0 12345 1234 1234 1234";
                 "0 1111 2222 3333 4444 5"]%string] 1 1
     = Some (header :: climb_block "1000" "-40" "1232" "1301" "1378" "1455"
                    ++ climb_block "1000" "0" "1111" "2222" "3333" "4444").
Proof.
  split; [|split; [|split; [|split; [|split; [|split]]]]].
  - intros altitude data temp_data. eexists. unfold G1.emit_altitude.
    rewrite emit_items_rows. split; [reflexivity|]. split.
    + apply items_rows_NoDup, sorted_items_NoDup.
    + apply Forall_forall. intros r Hr.
      apply list_elem_of_In, in_flat_map in Hr as ([temp values] & _ & Hr).
      by apply list_elem_of_In, rows_of_key in Hr as [Ha _].
  - intros j js lines altitude line_idx st l a temp Hl Hnp Hm Ha Htemp Hs
      values Hlen.
    split; [|apply lookup_insert_eq].
    by apply (proj1 (collect_normal_row j js lines altitude line_idx st l a temp
                       Hl Hnp Hm Ha Htemp Hs)).
  - intros j js lines altitude line_idx st l values Hl Hnp Hm.
    split; [|apply lookup_insert_eq]. cbn [G1.collect].
    destruct (Nat.ltb_spec (line_idx + j) (length lines)) as [_|Hge].
    2:{ apply lookup_lt_Some in Hl. lia. }
    rewrite bool_decide_eq_false_2 by done.
    unfold Py.item. rewrite Hl. change (Some l ≫= ?f) with (f l).
    cbv beta zeta. by rewrite Hm.
  - intros next_line idx st m t H2 Hm Ht Hrange values Hlen.
    split; [|apply lookup_insert_eq]. unfold G1.special_temperature.
    destruct (Re.rmatch G1.re_two_digit_row next_line) as [m2|]; [|done].
    rewrite Hm, (special_temp_group1 _ _ Hm), Ht.
    change (Some t ≫= ?f) with (f t). cbv beta.
    destruct (Z.leb_spec 41 t); [|lia]. destruct (Z.leb_spec t 50); [|lia].
    cbn [andb].
    destruct (Nat.leb_spec 3 (length (Re.findall re_digits (Re.group m 2))));
      [done | lia].
  - vm_compute. reflexivity.
  - vm_compute. reflexivity.
  - vm_compute. reflexivity.
Qed.

Lemma keys_distinct_within_one_altitude_witness :
  G1.collect [2]
    [anchor_line; "-30 1217 1286 1362 1439"; "-30 1200 1270 1350 1420"]%string
    "1000" 0
    (G1.Scan {[ (-30)%Z := ["1217"; "1286"; "1362"; "1439"]%string ]} {[ 1 ]})
  = Some (G1.Scan {[ (-30)%Z := ["1200"; "1270"; "1350"; "1420"]%string ]}
            {[ 1; 2 ]})
  /\ G1.collect [2]
       [anchor_line; "0 12345 1234 1234 1234"; "0 1111 2222 3333 4444 5"]%string
       "1000" 0
       (G1.Scan {[ 0%Z := ["1234"; "5123"; "4123"; "4123"]%string ]} {[ 1 ]})
     = Some (G1.Scan {[ 0%Z := ["1111"; "2222"; "3333"; "4444"]%string ]}
               {[ 1; 2 ]})
  /\ G1.special_temperature "43 300 400 500" 2
       (G1.Scan {[ 43%Z := ["321"; "436"; "567"]%string ]} {[ 1 ]})
     = Some (G1.Scan {[ 43%Z := ["300"; "400"; "500"]%string ]} {[ 1; 2 ]}, true).
Proof.
  split; [|split].
  - rewrite (proj1 (proj1 (proj2 keys_distinct_within_one_altitude)
               2 []
               [anchor_line; "-30 1217 1286 1362 1439";
                "-30 1200 1270 1350 1420"]%string
               "1000"%string 0
               (G1.Scan {[ (-30)%Z := ["1217"; "1286"; "1362"; "1439"]%string ]}
                  {[ 1 ]})
               "-30 1200 1270 1350 1420"%string 1000%Z (-30)%Z
               eq_refl ltac:(cbn [G1.processed_lines]; intros H%elem_of_singleton; discriminate H) eq_refl eq_refl
               ltac:(unfold G1.temps; left) eq_refl ltac:(vm_compute; lia))).
    vm_compute. reflexivity.
  - rewrite (proj1 (proj1 (proj2 (proj2 keys_distinct_within_one_altitude))
               2 []
               [anchor_line; "0 12345 1234 1234 1234";
                "0 1111 2222 3333 4444 5"]%string
               "1000"%string 0
               (G1.Scan {[ 0%Z := ["1234"; "5123"; "4123"; "4123"]%string ]}
                  {[ 1 ]})
               "0 1111 2222 3333 4444 5"%string
               ["1111"; "2222"; "3333"; "4444"]%string
               eq_refl ltac:(cbn [G1.processed_lines]; intros H%elem_of_singleton; discriminate H) eq_refl)).
    vm_compute. reflexivity.
  - destruct (Re.rmatch G1.re_special_temp "43 300 400 500") as [m|] eqn:E;
      [|vm_compute in E; discriminate E].
    rewrite (proj1 (proj1 (proj2 (proj2 (proj2 keys_distinct_within_one_altitude)))
               "43 300 400 500"%string 2
               (G1.Scan {[ 43%Z := ["321"; "436"; "567"]%string ]} {[ 1 ]})
               m 43%Z ltac:(vm_compute; discriminate) E eq_refl ltac:(lia)
               ltac:(vm_compute in E; injection E as <-; vm_compute; lia))).
    vm_compute in E. injection E as <-. vm_compute. reflexivity.
Defined.

(** C3 as stated fails.  In G1 an anchor that occurs twice yields the
    same keys twice, with different values; in G2+ a temperature that
    occurs twice under one anchor does; and in G1 such a temperature is
    not skipped either: the second line's values are the ones recorded. *)
Lemma duplicate_keys_are_emitted :
  (exists rows r1 r2,
      G1.parse_climb_gradient_tables [repeated_anchor] 1 1 = Some rows
      /\ rows !! 1 = Some r1 /\ rows !! 5 = Some r2
      /\ key r1 = key r2 /\ r_value r1 <> r_value r2)
  /\ (exists rows r1 r2,
        G2Plus.parse_climb_gradient_tables
          (replicate 10 ""%string ++ [repeated_temperature]) = Some rows
        /\ rows !! 5 = Some r1 /\ rows !! 9 = Some r2
        /\ key r1 = key r2 /\ r_value r1 <> r_value r2)
  /\ G1.parse_climb_gradient_tables [repeated_temperature] 1 1
     = Some (header :: rows_1000 "-40" "1232" "1301" "1378" "1455"
                    ++ rows_1000 "-30" "1200" "1270" "1350" "1420").
Proof.
  split; [|split].
  - eexists _, _, _. split; [vm_compute; reflexivity|].
    repeat split; try reflexivity. discriminate.
  - eexists _, _, _. split; [vm_compute; reflexivity|].
    repeat split; try reflexivity. discriminate.
  - vm_compute. reflexivity.
Qed.

(** C8.  The anchor line of the scenario yields exactly four rows in
    both extractors, at altitude 1000 and temperature -40, the values
    beside the weights 6000, 5500, 5000, 4500 in this order; and the
    altitude it sets is 1000: in G2+ it is the current altitude after the
    line, in G1 the altitude of the anchor's entry, and in both a
    temperature line that follows is recorded at altitude 1000. *)
Theorem anchor_line_scenario :
  G2Plus.climb_line ([header], None) anchor_line
  = Some (header :: rows_1000 "-40" "1232" "1301" "1378" "1455",
          Some "1000"%string)
  /\ G2Plus.parse_climb_gradient_tables (replicate 10 ""%string ++ [anchor_line])
     = Some (header :: rows_1000 "-40" "1232" "1301" "1378" "1455")
  /\ G2Plus.parse_climb_gradient_tables
       (replicate 10 ""%string
        ++ [page_of [anchor_line; "-30 1217 1286 1362 1439"%string]])
     = Some (header :: rows_1000 "-40" "1232" "1301" "1378" "1455"
                    ++ rows_1000 "-30" "1217" "1286" "1362" "1439")
  /\ G1.find_altitudes [anchor_line]
     = Some [(0, "1000", ["1232"; "1301"; "1378"; "1455"])]%string
  /\ G1.parse_climb_gradient_tables [anchor_line] 1 1
     = Some (header :: rows_1000 "-40" "1232" "1301" "1378" "1455")
  /\ G1.parse_climb_gradient_tables
       [page_of [anchor_line; "-30 1217 1286 1362 1439"%string]] 1 1
     = Some (header :: rows_1000 "-40" "1232" "1301" "1378" "1455"
                    ++ rows_1000 "-30" "1217" "1286" "1362" "1439").
Proof. repeat split; vm_compute; reflexivity. Qed.

End Emission.

(* ===================================================================== *)
(** * Loops *)
(* ===================================================================== *)

Section Loops.
Context {A S : Type}.

(** What holds before a loop and is kept by every iteration that does not
    raise holds after the loop. *)
Lemma for_each_invariant (P : S -> Prop) (xs : list A)
    (body : S -> A -> option S) (s s' : S) :
  P s ->
  (forall s x s', x ∈ xs -> P s -> body s x = Some s' -> P s') ->
  Py.for_each xs body s = Some s' -> P s'.
Proof.
  revert s. induction xs as [|x xs IH]; intros s Hs Hbody; simpl.
  - by intros [= <-].
  - destruct (body s x) as [s1|] eqn:E; [|done].
    apply IH; [eapply Hbody; [left | done | done]|].
    intros s2 y s3 Hy. apply Hbody. by right.
Qed.

(** A loop whose iterations keep an invariant and never raise under it
    does not raise. *)
Lemma for_each_total (P : S -> Prop) (xs : list A)
    (body : S -> A -> option S) (s : S) :
  P s ->
  (forall s x, x ∈ xs -> P s -> exists s', body s x = Some s' /\ P s') ->
  exists s', Py.for_each xs body s = Some s' /\ P s'.
Proof.
  revert s. induction xs as [|x xs IH]; intros s Hs Hbody; simpl.
  - eauto.
  - destruct (Hbody s x) as (s1 & -> & H1); [left | done |].
    apply IH; [done|]. intros s2 y Hy. apply Hbody. by right.
Qed.

Lemma for_each_snoc (xs : list A) (x : A) (body : S -> A -> option S) (s : S) :
  Py.for_each (xs ++ [x]) body s = Py.for_each xs body s ≫= fun s' => body s' x.
Proof.
  revert s. induction xs as [|y xs IH]; intros s; simpl.
  - by destruct (body s x).
  - destruct (body s y); simpl; [apply IH | done].
Qed.

Lemma for_each_app (xs ys : list A) (body : S -> A -> option S) (s : S) :
  Py.for_each (xs ++ ys) body s
  = Py.for_each xs body s ≫= Py.for_each ys body.
Proof.
  revert s. induction xs as [|y xs IH]; intros s; simpl; [done|].
  destruct (body s y); simpl; [apply IH | done].
Qed.

Lemma for_each_ext (xs : list A) (f g : S -> A -> option S) (s : S) :
  (forall s x, x ∈ xs -> f s x = g s x) ->
  Py.for_each xs f s = Py.for_each xs g s.
Proof.
  revert s. induction xs as [|x xs IH]; intros s H; simpl; [done|].
  rewrite (H s x) by left. destruct (g s x); [|done].
  apply IH. intros s' y Hy. apply H. by right.
Qed.

Lemma for_each_fmap {B : Type} (h : B -> A) (xs : list B)
    (body : S -> A -> option S) (s : S) :
  Py.for_each (h <$> xs) body s = Py.for_each xs (fun s x => body s (h x)) s.
Proof.
  revert s. induction xs as [|x xs IH]; intros s; simpl; [done|].
  destruct (body s (h x)); [apply IH | done].
Qed.

End Loops.

(** A loop that appends, for [j = 0, ..., k-1], the row of [temps[j]] and
    [values[j]] while both exist appends the first [k] rows of the two
    lists side by side. *)
Lemma loop_rows {T V R : Type} (mk : T -> V -> R) (temps : list T)
    (values : list V) (k : nat) (data : list R) :
  Py.for_each (seq 0 k)
    (fun data j =>
       if (j <? length temps) && (j <? length values) then
         t ← Py.item temps j; v ← Py.item values j; Some (data ++ [mk t v])
       else Some data)
    data
  = Some (data ++ take k (zip_with mk temps values)).
Proof.
  induction k as [|k IH].
  - simpl. by rewrite take_0, app_nil_r.
  - rewrite seq_S, for_each_snoc, IH. simpl. unfold Py.item.
    destruct (Nat.ltb_spec k (length temps)) as [Ht|Ht];
      destruct (Nat.ltb_spec k (length values)) as [Hv|Hv]; simpl.
    + destruct (lookup_lt_is_Some_2 temps k Ht) as [t Et].
      destruct (lookup_lt_is_Some_2 values k Hv) as [v Ev].
      rewrite Et, Ev. simpl. rewrite <- app_assoc. do 2 f_equal.
      rewrite (take_S_r _ _ (mk t v)); [done|].
      by rewrite lookup_zip_with, Et, Ev.
    + rewrite (take_ge _ k), (take_ge _ (S k));
        rewrite ?length_zip_with; try lia; done.
    + rewrite (take_ge _ k), (take_ge _ (S k));
        rewrite ?length_zip_with; try lia; done.
    + rewrite (take_ge _ k), (take_ge _ (S k));
        rewrite ?length_zip_with; try lia; done.
Qed.

(** A loop that indexes both lists without a test stays inside them for
    [k] up to their lengths. *)
Lemma loop_rows_unguarded (weight : Z) (altitude : string) (temps : list Z)
    (values : list string) (k : nat) (data : list row) :
  k <= length temps -> k <= length values ->
  Py.for_each (seq 0 k)
    (fun data j =>
       t ← Py.item temps j;
       v ← Py.item values j;
       Some (data ++ [Row (Py.str_int weight) altitude (Text (Py.str_int t)) v]))
    data
  = Some (data ++ take k (temperature_rows weight altitude temps values)).
Proof.
  intros Ht Hv. unfold temperature_rows.
  rewrite <- (loop_rows
                (fun t v => Row (Py.str_int weight) altitude (Text (Py.str_int t)) v)).
  apply for_each_ext. intros d j Hj. apply elem_of_seq in Hj.
  destruct (Nat.ltb_spec j (length temps)); [|lia].
  destruct (Nat.ltb_spec j (length values)); [|lia]. done.
Qed.

(** A loop that tests the index against the temperatures only stays
    inside the values for [k] up to their number. *)
Lemma loop_rows_half_guarded (weight : Z) (altitude : string) (temps : list Z)
    (values : list string) (k : nat) (data : list row) :
  k <= length values ->
  Py.for_each (seq 0 k)
    (fun data j =>
       if j <? length temps then
         t ← Py.item temps j;
         v ← Py.item values j;
         Some (data ++ [Row (Py.str_int weight) altitude (Text (Py.str_int t)) v])
       else Some data)
    data
  = Some (data ++ take k (temperature_rows weight altitude temps values)).
Proof.
  intros Hv. unfold temperature_rows.
  rewrite <- (loop_rows
                (fun t v => Row (Py.str_int weight) altitude (Text (Py.str_int t)) v)).
  apply for_each_ext. intros d j Hj. apply elem_of_seq in Hj.
  destruct (Nat.ltb_spec j (length values)); [|lia].
  by rewrite andb_true_r.
Qed.

(* ===================================================================== *)
(** * Takeoff and landing rows: the column policies *)
(* ===================================================================== *)

Section ColumnPolicies.

Lemma index_last {A} (l : list A) : Py.index l (-1) = last l.
Proof.
  unfold Py.index. simpl. destruct l as [|x l]; [done|].
  destruct (Z.ltb_spec (Z.of_nat (length (x :: l)) + -1) 0) as [H|H];
    [simpl in H; lia|].
  rewrite last_lookup. f_equal. simpl. lia.
Qed.

Lemma temperature_rows_length (weight : Z) (altitude : string) (temps : list Z)
    (values : list string) :
  length (temperature_rows weight altitude temps values)
  = min (length temps) (length values).
Proof. unfold temperature_rows. apply length_zip_with. Qed.

Lemma g1_expected_cols_eq (a : Z) (n : nat) :
  (if (5000 <=? a)%Z && (n <=? 9) then
     if n =? 9 then 8 else if n =? 8 then 7 else if n =? 7 then 6 else min n 8
   else min n 8) = g1_expected_cols a n.
Proof.
  unfold g1_expected_cols.
  destruct (5000 <=? a)%Z; cbn [andb]; [|done].
  destruct (Nat.leb_spec n 9), (Nat.eqb_spec n 9), (Nat.eqb_spec n 8),
    (Nat.eqb_spec n 7), (Nat.leb_spec 7 n); cbn [andb]; lia.
Qed.

Lemma g1_expected_cols_le (a : Z) (n : nat) :
  g1_expected_cols a n <= n /\ g1_expected_cols a n <= 8.
Proof.
  unfold g1_expected_cols.
  destruct (_ && _ && _) eqn:E; [|lia].
  apply andb_true_iff in E as [E E9]. apply andb_true_iff in E as [_ E7].
  apply Nat.leb_le in E9, E7. lia.
Qed.

(** [_add_performance_values] in closed form. *)
Lemma add_performance_values_closed (data : list row) (weight : Z)
    (altitude : string) (values : list string) (temps : list Z) (a : Z) :
  Py.int altitude = Some a ->
  G1._add_performance_values data weight altitude values temps
  = (if g1_expected_cols a (length values) <? length values then
       t ← calculate_isa_temp a;
       v ← last values;
       Some (data
               ++ take (g1_expected_cols a (length values))
                    (temperature_rows weight altitude temps values)
               ++ [isa_row weight altitude t v])
     else
       Some (data
               ++ take (g1_expected_cols a (length values))
                    (temperature_rows weight altitude temps values))).
Proof.
  intros Ha. unfold G1._add_performance_values. rewrite Ha. bind_some.
  rewrite g1_expected_cols_eq.
  rewrite (loop_rows
             (fun t v => Row (Py.str_int weight) altitude (Text (Py.str_int t)) v)).
  bind_some. fold (temperature_rows weight altitude temps values).
  destruct (_ <? _); [|done].
  destruct (calculate_isa_temp a); simpl; [|done].
  rewrite index_last. destruct (last values); simpl; [|done].
  by rewrite <- app_assoc.
Qed.

(** [_process_takeoff_values] in closed form. *)
Lemma process_takeoff_values_closed (data : list row) (weight : Z)
    (altitude : string) (values : list string) (a : Z) :
  Py.int altitude = Some a ->
  G2Plus._process_takeoff_values data weight altitude values
  = (if (7000 <=? a)%Z then
       t ← calculate_isa_temp a;
       v ← last values;
       Some (data
               ++ take (length values - 1)
                    (temperature_rows weight altitude takeoff_temps values)
               ++ [isa_row weight altitude t v])
     else if 8 <? length values then
       t ← calculate_isa_temp a;
       v ← values !! 8;
       Some (data
               ++ take 8 (temperature_rows weight altitude takeoff_temps values)
               ++ [isa_row weight altitude t v])
     else Some (data ++ temperature_rows weight altitude takeoff_temps values)).
Proof.
  intros Ha. unfold G2Plus._process_takeoff_values. rewrite Ha. bind_some.
  cbv zeta. fold takeoff_temps. destruct (7000 <=? a)%Z.
  - rewrite loop_rows_half_guarded by lia. bind_some. rewrite index_last.
    destruct (calculate_isa_temp a); simpl; [|done].
    destruct (last values); simpl; [|done]. by rewrite <- app_assoc.
  - rewrite loop_rows_unguarded;
      [| apply (Nat.le_min_l 8) | apply Nat.le_min_r].
    bind_some. destruct (Nat.ltb_spec 8 (length values)) as [H|H].
    + replace (8 `min` length values) with 8 by lia.
      destruct (calculate_isa_temp a); simpl; [|done]. unfold Py.item.
      destruct (values !! 8); simpl; [|done]. by rewrite <- app_assoc.
    + rewrite take_ge; [done|]. rewrite temperature_rows_length.
      unfold takeoff_temps. cbn [length]. lia.
Qed.

(** The loop over the middle values of a landing row. *)
Lemma landing_loop (weight : Z) (altitude : string) (v0 : string)
    (rest : list string) (k : nat) (data : list row) :
  k <= length rest ->
  Py.for_each (seq 0 k)
    (fun data i =>
       if i <? length landing_temps then
         t ← Py.item landing_temps i;
         v ← Py.item (v0 :: rest) (i + 1);
         Some (data ++ [Row (Py.str_int weight) altitude (Text (Py.str_int t)) v])
       else Some data)
    data
  = Some (data ++ take k (temperature_rows weight altitude landing_temps rest)).
Proof.
  intros Hk. rewrite <- (loop_rows_half_guarded _ _ _ _ _ _ Hk).
  apply for_each_ext. intros d i _.
  unfold Py.item. by rewrite Nat.add_1_r.
Qed.

Lemma add_landing_values_closed (data : list row) (weight : Z)
    (altitude : string) (values : list string) (flap_setting : string) :
  flap_setting <> "50 ice"%string ->
  G1._add_landing_values data weight altitude values flap_setting
  = landing_closed data weight altitude values.
Proof.
  intros Hflap. apply String.eqb_neq in Hflap.
  unfold G1._add_landing_values, landing_closed. rewrite Hflap.
  destruct (Py.int altitude) as [a|]; [|done]. bind_some.
  destruct values as [|v0 [|v1 rest]]; [done | done |].
  cbn [length Nat.ltb Nat.leb Py.item lookup list_lookup]. bind_some. cbv zeta.
  fold landing_temps.
  replace (S (S (length rest)) - 2) with (length (v1 :: rest) - 1)
    by (simpl; lia).
  rewrite landing_loop by lia. bind_some.
  destruct (calculate_isa_temp a); simpl; [|done].
  rewrite index_last.
  change (last (v0 :: v1 :: rest)) with (last (v1 :: rest)).
  destruct (last (v1 :: rest)); simpl; [|done].
  by rewrite <- !app_assoc.
Qed.

Lemma process_landing_values_closed (data : list row) (weight : Z)
    (altitude : string) (values : list string) :
  G2Plus._process_landing_values data weight altitude values
  = landing_closed data weight altitude values.
Proof.
  unfold G2Plus._process_landing_values, landing_closed.
  destruct (Py.int altitude) as [a|]; [|done]. bind_some.
  destruct values as [|v0 rest]; [done|].
  cbn [length Nat.ltb Nat.leb Py.item lookup list_lookup]. bind_some. cbv zeta.
  fold landing_temps.
  unfold Py.range. rewrite for_each_fmap.
  replace (Z.to_nat (Z.of_nat (S (length rest)) - 2 - 0)) with (length rest - 1)
    by lia.
  rewrite (for_each_ext _ _
    (fun data i =>
       if i <? length landing_temps then
         t ← Py.item landing_temps i;
         v ← Py.item (v0 :: rest) (i + 1);
         Some (data ++ [Row (Py.str_int weight) altitude (Text (Py.str_int t)) v])
       else Some data)).
  2:{ intros d i _.
      change (length landing_temps) with 5.
      destruct (Z.ltb_spec (0 + Z.of_nat i) (Z.of_nat 5));
        destruct (Nat.ltb_spec i 5); try lia; [|done].
      rewrite !index_nonneg by lia. unfold Py.item.
      replace (Z.to_nat (0 + Z.of_nat i)) with i by lia.
      by replace (Z.to_nat (0 + Z.of_nat i + 1)) with (i + 1) by lia. }
  rewrite landing_loop by lia. bind_some.
  destruct rest as [|v1 rest].
  - simpl. by rewrite app_nil_r.
  - cbn [length Nat.ltb Nat.leb].
    destruct (calculate_isa_temp a); simpl; [|done].
    rewrite index_last.
    change (last (v0 :: v1 :: rest)) with (last (v1 :: rest)).
    destruct (last (v1 :: rest)); simpl; [|done].
    by rewrite <- !app_assoc.
Qed.

End ColumnPolicies.

Section ColumnPoliciesThms.

(** X1.  The column policy of G1's takeoff handler
    [_add_performance_values], for an altitude token that reads as the
    integer [a] and [n] value tokens.  The handler reads [k] temperature
    columns, where [k = n - 1] when [5000 <= a] and [7 <= n <= 9], and
    [k = min n 8] otherwise; the rows it appends are the first [k] values
    beside the first [k] temperatures.  When [k = n] nothing else is
    appended; when [k < n] the last value (whatever lies between is
    dropped) is appended as the reference-atmosphere row, and the call
    raises when the reference-atmosphere temperature cannot be computed. *)
Theorem g1_takeoff_columns (data : list row) (weight : Z) (altitude : string)
    (values : list string) (temps : list Z) (a : Z) :
  Py.int altitude = Some a ->
  let n := length values in
  let k := g1_expected_cols a n in
  let rows := take k (temperature_rows weight altitude temps values) in
  let result := G1._add_performance_values data weight altitude values temps in
  k <= n /\ k <= 8
  /\ (k = n -> result = Some (data ++ rows))
  /\ (k < n -> calculate_isa_temp a = None -> result = None)
  /\ (k < n -> forall t, calculate_isa_temp a = Some t ->
      exists v, last values = Some v
        /\ result = Some (data ++ rows ++ [isa_row weight altitude t v])).
Proof.
  intros Ha n k rows result.
  destruct (g1_expected_cols_le a n) as [Hkn Hk8]. fold k in Hkn, Hk8.
  unfold result. rewrite (add_performance_values_closed _ _ _ _ _ a Ha).
  fold n k rows.
  split; [done|]. split; [done|]. split; [|split].
  - intros E. destruct (Nat.ltb_spec k n); [lia | done].
  - intros Hlt E. destruct (Nat.ltb_spec k n); [|lia]. by rewrite E.
  - intros Hlt t E. destruct (Nat.ltb_spec k n); [|lia]. rewrite E. simpl.
    destruct (last values) as [v|] eqn:El.
    + exists v. done.
    + apply last_None in El. subst values. simpl in *. lia.
Qed.

Lemma g1_takeoff_columns_witness :
  G1._add_performance_values [] 6000 "6000"
    ["1"; "2"; "3"; "4"; "5"; "6"; "7"; "8"]%string takeoff_temps
  = Some (temperature_rows 6000 "6000" takeoff_temps
            ["1"; "2"; "3"; "4"; "5"; "6"; "7"]%string
          ++ [isa_row 6000 "6000" 3.112800000000002 "8"]).
Proof.
  destruct (g1_takeoff_columns [] 6000%Z "6000"%string
              ["1"; "2"; "3"; "4"; "5"; "6"; "7"; "8"]%string takeoff_temps
              6000%Z eq_refl) as (_ & _ & _ & _ & H).
  destruct (H ltac:(vm_compute; lia) _ eq_refl) as (v & Hv & ->).
  injection Hv as <-. reflexivity.
Defined.

(** X2.  The column policy of G2+'s takeoff handler
    [_process_takeoff_values], for an altitude token that reads as the
    integer [a] and [n] value tokens.  From 7000 ft on the last value is
    always the reference-atmosphere row and the values before it, at most
    eight, are the temperature rows; with no value at all the call raises
    [IndexError].  Below 7000 ft the first eight values are temperature
    rows and the ninth, when there is one, is the reference-atmosphere
    row: eight or fewer values give no reference-atmosphere row, and
    values after the ninth are dropped. *)
Theorem g2_takeoff_columns (data : list row) (weight : Z) (altitude : string)
    (values : list string) (a : Z) :
  Py.int altitude = Some a ->
  let n := length values in
  let rows := temperature_rows weight altitude takeoff_temps values in
  let result := G2Plus._process_takeoff_values data weight altitude values in
  ((7000 <= a)%Z -> values = [] -> result = None)
  /\ ((7000 <= a)%Z -> forall t v,
        calculate_isa_temp a = Some t -> last values = Some v ->
        result = Some (data ++ take (n - 1) rows ++ [isa_row weight altitude t v]))
  /\ ((a < 7000)%Z -> n <= 8 -> result = Some (data ++ rows))
  /\ ((a < 7000)%Z -> 8 < n -> forall t v,
        calculate_isa_temp a = Some t -> values !! 8 = Some v ->
        result = Some (data ++ take 8 rows ++ [isa_row weight altitude t v])).
Proof.
  intros Ha n rows result. unfold result.
  rewrite (process_takeoff_values_closed _ _ _ _ a Ha). fold n rows.
  destruct (Z.leb_spec 7000 a) as [H7|H7].
  - split; [|split; [|split]]; try (intros; lia).
    + intros _ ->. by destruct (calculate_isa_temp a).
    + by intros _ t v -> ->.
  - split; [|split; [|split]]; try (intros; lia).
    + intros _ Hn. destruct (Nat.ltb_spec 8 n); [lia | done].
    + intros _ Hn t v Et Ev. destruct (Nat.ltb_spec 8 n); [|lia].
      by rewrite Et, Ev.
Qed.

Lemma g2_takeoff_columns_witness :
  G2Plus._process_takeoff_values [] 6000 "8000" []%string = None
  /\ G2Plus._process_takeoff_values [] 6000 "6000"
       ["1"; "2"; "3"; "4"; "5"; "6"; "7"; "8"]%string
     = Some (temperature_rows 6000 "6000" takeoff_temps
               ["1"; "2"; "3"; "4"; "5"; "6"; "7"; "8"]%string).
Proof.
  split.
  - apply (proj1 (g2_takeoff_columns [] 6000%Z "8000"%string [] 8000%Z eq_refl));
      [lia | reflexivity].
  - apply (proj1 (proj2 (proj2
             (g2_takeoff_columns [] 6000%Z "6000"%string
                ["1"; "2"; "3"; "4"; "5"; "6"; "7"; "8"]%string 6000%Z eq_refl))));
      [lia | simpl; lia].
Defined.

(** X3.  The two takeoff handlers compared, at an altitude token that
    reads as [a] with reference-atmosphere temperature [t].  They append
    the same rows for up to nine values below 5000 ft, and for seven to
    nine values from 7000 ft on.  Between 5000 and 7000 ft they part on
    a row of eight values: G1 reads seven temperatures and the
    reference-atmosphere value, G2+ reads eight temperatures. *)
Theorem takeoff_policies_compared (data : list row) (weight : Z)
    (altitude : string) (a : Z) (t : float) :
  Py.int altitude = Some a ->
  calculate_isa_temp a = Some t ->
  (forall values : list string,
      ((a < 5000)%Z /\ length values <= 9)
      \/ ((7000 <= a)%Z /\ 7 <= length values <= 9) ->
      G1._add_performance_values data weight altitude values takeoff_temps
      = G2Plus._process_takeoff_values data weight altitude values)
  /\ (forall v1 v2 v3 v4 v5 v6 v7 v8 : string,
        (5000 <= a < 7000)%Z ->
        G1._add_performance_values data weight altitude
          [v1; v2; v3; v4; v5; v6; v7; v8] takeoff_temps
        = Some (data ++ temperature_rows weight altitude takeoff_temps
                          [v1; v2; v3; v4; v5; v6; v7]
                  ++ [isa_row weight altitude t v8])
        /\ G2Plus._process_takeoff_values data weight altitude
             [v1; v2; v3; v4; v5; v6; v7; v8]
           = Some (data ++ temperature_rows weight altitude takeoff_temps
                             [v1; v2; v3; v4; v5; v6; v7; v8])).
Proof.
  intros Ha Ht. split.
  - intros values Hcase.
    rewrite (add_performance_values_closed _ _ _ _ _ a Ha).
    rewrite (process_takeoff_values_closed _ _ _ _ a Ha).
    unfold g1_expected_cols. rewrite Ht.
    destruct Hcase as [[Hlow Hn] | [Hhigh Hn]].
    + destruct (Z.leb_spec 5000 a); [lia|].
      destruct (Z.leb_spec 7000 a); [lia|]. cbn [andb].
      destruct (Nat.ltb_spec 8 (length values)) as [H8|H8].
      * replace (length values `min` 8) with 8 by lia.
        destruct (Nat.ltb_spec 8 (length values)); [|lia].
        rewrite last_lookup.
        by replace (pred (length values)) with 8 by lia.
      * replace (length values `min` 8) with (length values) by lia.
        rewrite Nat.ltb_irrefl.
        rewrite take_ge; [done|]. rewrite temperature_rows_length. lia.
    + destruct (Z.leb_spec 5000 a); [|lia].
      destruct (Z.leb_spec 7000 a); [|lia].
      destruct (Nat.leb_spec 7 (length values)); [|lia].
      destruct (Nat.leb_spec (length values) 9); [|lia]. cbn [andb].
      destruct (Nat.ltb_spec (length values - 1) (length values)); [done | lia].
  - intros v1 v2 v3 v4 v5 v6 v7 v8 Hmid. split.
    + rewrite (add_performance_values_closed _ _ _ _ _ a Ha).
      unfold g1_expected_cols. rewrite Ht.
      destruct (Z.leb_spec 5000 a); [|lia]. reflexivity.
    + rewrite (process_takeoff_values_closed _ _ _ _ a Ha).
      destruct (Z.leb_spec 7000 a); [lia|]. reflexivity.
Qed.

Lemma takeoff_policies_compared_witness :
  G1._add_performance_values [] 6000 "3000"
    ["1"; "2"; "3"; "4"; "5"; "6"; "7"; "8"]%string takeoff_temps
  = G2Plus._process_takeoff_values [] 6000 "3000"
      ["1"; "2"; "3"; "4"; "5"; "6"; "7"; "8"]%string.
Proof.
  apply (proj1 (takeoff_policies_compared [] 6000%Z "3000"%string 3000%Z
                  9.0564%float eq_refl eq_refl)).
  left. simpl. lia.
Defined.

(** X4.  G1's landing handler [_add_landing_values] for the flap
    settings other than 50 ice, at an altitude token that reads as [a].
    No value: nothing is appended.  One value: one row, at 0 °C.  Two or
    more values: the first at 0 °C, the last as the reference-atmosphere
    row, and the values between them, at most five, at 10, 20, ..., 50;
    the call raises when the reference-atmosphere temperature cannot be
    computed. *)
Theorem g1_landing_rows (data : list row) (weight : Z) (altitude : string)
    (flap_setting : string) (a : Z) (v0 : string) (rest : list string) :
  flap_setting <> "50 ice"%string ->
  Py.int altitude = Some a ->
  let first := Row (Py.str_int weight) altitude (Text "0") v0 in
  G1._add_landing_values data weight altitude [] flap_setting = Some data
  /\ G1._add_landing_values data weight altitude [v0] flap_setting
     = Some (data ++ [first])
  /\ (rest <> [] -> calculate_isa_temp a = None ->
      G1._add_landing_values data weight altitude (v0 :: rest) flap_setting = None)
  /\ (forall t v,
        calculate_isa_temp a = Some t -> last rest = Some v ->
        G1._add_landing_values data weight altitude (v0 :: rest) flap_setting
        = Some (data
                  ++ first
                     :: take (length rest - 1)
                          (temperature_rows weight altitude landing_temps rest)
                  ++ [isa_row weight altitude t v])).
Proof.
  intros Hflap Ha first.
  rewrite !(add_landing_values_closed _ _ _ _ _ Hflap).
  unfold landing_closed. rewrite Ha. bind_some.
  split; [done|]. split; [done|]. split.
  - intros Hrest ->. by destruct rest.
  - intros t v -> Hlast. destruct rest as [|v1 rest]; [done|].
    by rewrite Hlast.
Qed.

Lemma g1_landing_rows_witness :
  G1._add_landing_values [] 5550 "2000"
    ["2103"; "2180"; "2257"; "2140"]%string "100"
  = Some [ Row "5550" "2000" (Text "0") "2103";
           Row "5550" "2000" (Text "10") "2180";
           Row "5550" "2000" (Text "20") "2257";
           isa_row 5550 "2000" 11.037600000000001 "2140" ].
Proof.
  apply (proj2 (proj2 (proj2
           (g1_landing_rows [] 5550%Z "2000"%string "100"%string 2000%Z
              "2103"%string ["2180"; "2257"; "2140"]%string
              ltac:(discriminate) eq_refl)))
           11.037600000000001%float "2140"%string eq_refl eq_refl).
Defined.

(** X5.  The landing handler of G2+, [_process_landing_values], is G1's
    [_add_landing_values] at any flap setting other than 50 ice: on every
    altitude token and every list of values the two append the same rows,
    or raise together. *)
Theorem landing_handlers_agree (data : list row) (weight : Z)
    (altitude : string) (values : list string) (flap_setting : string) :
  flap_setting <> "50 ice"%string ->
  G2Plus._process_landing_values data weight altitude values
  = G1._add_landing_values data weight altitude values flap_setting.
Proof.
  intros Hflap. rewrite process_landing_values_closed.
  by rewrite add_landing_values_closed.
Qed.

Lemma landing_handlers_agree_witness :
  G2Plus._process_landing_values [] 5550 "1000" ["2103"; "2180"; "2257"]%string
  = G1._add_landing_values [] 5550 "1000" ["2103"; "2180"; "2257"]%string "50".
Proof.
  apply (landing_handlers_agree [] 5550%Z "1000"%string
           ["2103"; "2180"; "2257"]%string "50"%string).
  discriminate.
Defined.

End ColumnPoliciesThms.

(* ===================================================================== *)
(** * Page access *)
(* ===================================================================== *)

Section PageAccess.

(** The loop of [extract_text_from_pages] over [k] pages from page index
    [a] on, all inside the document. *)
Lemma pages_loop (pages : G1.document) (a k : nat) (text : string) :
  a + k <= length pages ->
  Py.for_each (seq a k)
    (fun text i =>
       t ← Py.index pages (Z.of_nat i);
       Some (text +:+ t +:+ String "010" EmptyString))
    text
  = Some (text +:+ pages_text (take k (drop a pages))).
Proof.
  revert a text. induction k as [|k IH]; intros a text Hk.
  - cbn [seq Py.for_each take pages_text foldr]. by rewrite string_app_nil_r.
  - rewrite <- cons_seq, for_each_cons. rewrite index_nonneg by lia.
    rewrite Nat2Z.id.
    destruct (lookup_lt_is_Some_2 pages a ltac:(lia)) as [t Et].
    rewrite Et. bind_some. rewrite IH by lia.
    rewrite (drop_S _ _ _ Et). simpl.
    by rewrite !string_app_assoc.
Qed.

(** X6.  [extract_text_from_pages(start_page, end_page)] of G1, with
    [n] pages.  For [1 <= start_page] it never raises: it returns the
    texts of the pages [start_page], ..., [min(end_page, n)], a line feed
    after each, which is the empty string when [start_page] is above
    [end_page] or above [n].  For [start_page <= -n] and
    [start_page <= end_page] it raises [IndexError], the first page index
    [start_page - 1] lying below [-n]. *)
Theorem extract_text_from_pages_cases (pages : G1.document)
    (start_page end_page : Z) :
  let n := Z.of_nat (length pages) in
  ((1 <= start_page)%Z ->
     G1.extract_text_from_pages pages start_page end_page
     = Some (pages_text
               (Py.slice_list (Z.to_nat (start_page - 1)) (Z.to_nat end_page)
                  pages)))
  /\ ((1 <= start_page)%Z -> (end_page < start_page \/ n < start_page)%Z ->
      G1.extract_text_from_pages pages start_page end_page = Some EmptyString)
  /\ ((start_page <= - n)%Z -> (start_page <= end_page)%Z ->
      G1.extract_text_from_pages pages start_page end_page = None).
Proof.
  intros n.
  assert (forall start_page end_page : Z, (1 <= start_page)%Z ->
     G1.extract_text_from_pages pages start_page end_page
     = Some (pages_text
               (Py.slice_list (Z.to_nat (start_page - 1)) (Z.to_nat end_page)
                  pages))) as Hmain.
  { clear start_page end_page. intros start_page end_page Hs.
    unfold G1.extract_text_from_pages, Py.range, Py.slice_list. fold n.
    rewrite for_each_fmap.
    set (a := Z.to_nat (start_page - 1)).
    set (k := Z.to_nat (Z.min end_page n - (start_page - 1))).
    rewrite (for_each_ext _ _
      (fun text i =>
         t ← Py.index pages (Z.of_nat (a + i));
         Some (text +:+ t +:+ String "010" EmptyString))).
    2:{ intros text i _. do 2 f_equal. lia. }
    rewrite <- (for_each_fmap (fun i => a + i) (seq 0 k)
                  (fun text i =>
                     t ← Py.index pages (Z.of_nat i);
                     Some (text +:+ t +:+ String "010" EmptyString))).
    rewrite fmap_add_seq, Nat.add_0_r.
    destruct (decide (a <= length pages)) as [Ha|Ha].
    - rewrite pages_loop by lia.
      change (EmptyString +:+ ?x) with x. do 2 f_equal.
      destruct (Z.le_gt_cases end_page n) as [He|He].
      + f_equal. unfold k, a. lia.
      + rewrite !take_ge; [done | |]; rewrite length_drop; unfold k, a, n in *; lia.
    - replace k with 0 by (unfold k, a, n in *; lia). simpl.
      rewrite drop_ge by lia. by rewrite take_nil. }
  split; [apply Hmain|]. split.
  - intros Hs Hcase. rewrite Hmain by done. unfold Py.slice_list.
    destruct Hcase as [He|Hn].
    + replace (Z.to_nat end_page - Z.to_nat (start_page - 1)) with 0 by lia.
      by rewrite take_0.
    + rewrite drop_ge by lia. by rewrite take_nil.
  - intros Hs He. unfold G1.extract_text_from_pages, Py.range. fold n.
    destruct (Z.to_nat (Z.min end_page n - (start_page - 1))) as [|k] eqn:Ek;
      [lia|].
    rewrite <- cons_seq, fmap_cons, for_each_cons.
    rewrite index_below; [done|]. fold n. lia.
Qed.

Lemma extract_text_from_pages_cases_witness :
  G1.extract_text_from_pages ["a"; "b"; "c"]%string 2 7
  = Some (pages_text ["b"; "c"]%string)
  /\ G1.extract_text_from_pages ["a"; "b"; "c"]%string (-3) 1 = None.
Proof.
  pose proof (extract_text_from_pages_cases ["a"; "b"; "c"]%string 2 7) as H1.
  pose proof (extract_text_from_pages_cases ["a"; "b"; "c"]%string (-3) 1) as H2.
  split.
  - apply (proj1 H1). lia.
  - apply (proj2 (proj2 H2)); simpl; lia.
Defined.

(** X7.  Page access in G2+, whose page numbers count from 0, with [n]
    pages: [extract_text_from_page(p)] is G1's
    [extract_text_from_page(p + 1)] on every integer [p].  So a [p] from
    [n] on gives the empty string, [0 <= p < n] gives that page,
    [-n <= p < 0] gives the page counted back from the end, and [p < -n]
    raises [IndexError]. *)
Theorem g2_extract_text_from_page_cases (pages : G2Plus.document) (p : Z) :
  let n := Z.of_nat (length pages) in
  G2Plus.extract_text_from_page pages p = G1.extract_text_from_page pages (p + 1)
  /\ ((n <= p)%Z -> G2Plus.extract_text_from_page pages p = Some EmptyString)
  /\ ((0 <= p < n)%Z ->
      G2Plus.extract_text_from_page pages p = pages !! Z.to_nat p
      /\ is_Some (G2Plus.extract_text_from_page pages p))
  /\ ((- n <= p < 0)%Z ->
      G2Plus.extract_text_from_page pages p = pages !! Z.to_nat (n + p)
      /\ is_Some (G2Plus.extract_text_from_page pages p))
  /\ ((p < - n)%Z -> G2Plus.extract_text_from_page pages p = None).
Proof.
  intros n. unfold G2Plus.extract_text_from_page, G1.extract_text_from_page.
  fold n. split; [|split; [|split; [|split]]].
  - replace (p + 1 - 1)%Z with p by lia.
    destruct (Z.ltb_spec p n), (Z.leb_spec (p + 1) n); try lia; done.
  - intros Hp. destruct (Z.ltb_spec p n); [lia | done].
  - intros Hp. destruct (Z.ltb_spec p n); [|lia].
    rewrite index_nonneg by lia. split; [done|].
    apply lookup_lt_is_Some. lia.
  - intros Hp. destruct (Z.ltb_spec p n); [|lia].
    rewrite index_negative by (fold n; lia). fold n.
    split; [done|]. apply lookup_lt_is_Some. lia.
  - intros Hp. destruct (Z.ltb_spec p n); [|lia].
    apply index_below. fold n. lia.
Qed.

Lemma g2_extract_text_from_page_cases_witness :
  G2Plus.extract_text_from_page ["a"; "b"; "c"]%string (-1) = Some "c"%string
  /\ G2Plus.extract_text_from_page ["a"; "b"; "c"]%string (-4) = None.
Proof.
  pose proof (g2_extract_text_from_page_cases ["a"; "b"; "c"]%string (-1)) as H1.
  pose proof (g2_extract_text_from_page_cases ["a"; "b"; "c"]%string (-4)) as H4.
  simpl in H1, H4. split.
  - apply (proj1 (proj1 (proj2 (proj2 (proj2 H1))) ltac:(lia))).
  - apply (proj2 (proj2 (proj2 (proj2 H4)))). lia.
Defined.

(** A page of the document without its first six pages. *)
Lemma extract_text_drop_6 (pages : G2Plus.document) (p : Z) :
  (0 <= p)%Z ->
  G2Plus.extract_text_from_page pages (p + 6)
  = G2Plus.extract_text_from_page (drop 6 pages) p.
Proof.
  intros Hp. unfold G2Plus.extract_text_from_page. rewrite length_drop.
  destruct (Z.ltb_spec (p + 6) (Z.of_nat (length pages)));
    destruct (Z.ltb_spec p (Z.of_nat (length pages - 6))); try lia; [|done].
  rewrite !index_nonneg by lia. rewrite lookup_drop. f_equal. lia.
Qed.

Lemma climb_pages_drop_6 (page_nums : list Z) (pages : G2Plus.document)
    (data : list row) :
  Forall (fun p => (0 <= p)%Z) page_nums ->
  G2Plus.climb_pages ((fun p => (p + 6)%Z) <$> page_nums) pages data
  = G2Plus.climb_pages page_nums (drop 6 pages) data.
Proof.
  intros H. revert data. induction H as [|p page_nums Hp _ IH]; intros data;
    [done|].
  rewrite fmap_cons. cbn [G2Plus.climb_pages]. rewrite length_drop.
  destruct (Z.leb_spec (Z.of_nat (length pages)) (p + 6));
    destruct (Z.leb_spec (Z.of_nat (length pages - 6)) p); try lia; [done|].
  unfold G2Plus.climb_page. rewrite extract_text_drop_6 by done.
  destruct (G2Plus.extract_text_from_page (drop 6 pages) p); simpl; [|done].
  destruct (Py.for_each _ _ _); simpl; [apply IH | done].
Qed.

(** X8.  In G2+ the climb-rate parser is the climb-gradient parser six
    pages further on: on every document, [parse_climb_rate_tables]
    returns what [parse_climb_gradient_tables] returns on the document
    without its first six pages, or raises with it. *)
Theorem g2_climb_rate_is_gradient_shifted (pages : G2Plus.document) :
  G2Plus.parse_climb_rate_tables pages
  = G2Plus.parse_climb_gradient_tables (drop 6 pages).
Proof.
  unfold G2Plus.parse_climb_rate_tables, G2Plus.parse_climb_gradient_tables.
  rewrite length_drop.
  change (Py.range 16 21) with ((fun p => (p + 6)%Z) <$> Py.range 10 15).
  change (G2Plus.extract_text_from_page pages 15)
    with (G2Plus.extract_text_from_page pages (9 + 6)).
  rewrite extract_text_drop_6 by lia.
  destruct (Nat.ltb_spec 15 (length pages));
    destruct (Nat.ltb_spec 9 (length pages - 6)); try lia.
  - destruct (G2Plus.extract_text_from_page (drop 6 pages) 9 ≫= _);
      [bind_some | done].
    apply climb_pages_drop_6. by repeat constructor.
  - bind_some. apply climb_pages_drop_6. by repeat constructor.
Qed.

End PageAccess.

(* ===================================================================== *)
(** * The look-back of a total row in G2+ *)
(* ===================================================================== *)

Section LookBack.






End LookBack.

(* ===================================================================== *)
(** * Searching and splitting strings *)
(* ===================================================================== *)

Section Splitting.

Lemma startswith_app (p s : string) :
  Py.startswith p s = true <-> exists rest, s = p +:+ rest.
Proof. apply prefix_app. Qed.

(** [s.find(sub)] is the index of an occurrence of [sub]. *)
Lemma find_from_occurs (sub s : string) (i : nat) :
  (0 <= Py.find_from sub s i)%Z ->
  exists k, Py.find_from sub s i = Z.of_nat (i + k)
    /\ Py.startswith sub (Py.drop_str k s) = true.
Proof.
  revert i. induction s as [|c s IH]; intros i; cbn [Py.find_from].
  - destruct (String.prefix sub EmptyString) eqn:E; [|lia].
    intros _. exists 0. by rewrite Nat.add_0_r.
  - destruct (String.prefix sub (String c s)) eqn:E.
    + intros _. exists 0. by rewrite Nat.add_0_r.
    + intros H. destruct (IH (S i) H) as (k & Hk & Hp).
      exists (S k). split; [|done]. rewrite Hk. f_equal. lia.
Qed.

Lemma find_occurs (sub s : string) :
  Py.contains sub s = true ->
  exists k, Py.find sub s = Z.of_nat k
    /\ Py.startswith sub (Py.drop_str k s) = true.
Proof.
  unfold Py.contains, Py.find. intros H%Z.leb_le.
  destruct (find_from_occurs sub s 0 H) as (k & Hk & Hp). by exists k.
Qed.

Lemma find_from_nonneg (sub a b : string) (i : nat) :
  (0 <= Py.find_from sub (a +:+ sub +:+ b) i)%Z.
Proof.
  revert i. induction a as [|c a IH]; intros i.
  - change (EmptyString +:+ ?x) with x.
    assert (String.prefix sub (sub +:+ b) = true) as E
      by (apply prefix_app; by exists b).
    destruct (sub +:+ b); cbn [Py.find_from]; rewrite E; lia.
  - rewrite string_app_cons. cbn [Py.find_from].
    destruct (String.prefix _ _); [lia | apply IH].
Qed.

(** [sub in s] holds exactly when [s] is some text, [sub], some text. *)
Lemma contains_app (sub s : string) :
  Py.contains sub s = true <-> exists a b, s = a +:+ sub +:+ b.
Proof.
  split.
  - intros H. destruct (find_occurs sub s H) as (k & _ & Hp).
    apply startswith_app in Hp as [b Hb].
    clear H. revert s Hb. induction k as [|k IH]; intros s Hb.
    + exists EmptyString, b. exact Hb.
    + destruct s as [|c s].
      * exists EmptyString, b. exact Hb.
      * destruct (IH s Hb) as (a & b' & ->). exists (String c a), b'. done.
  - intros (a & b & ->). unfold Py.contains, Py.find. apply Z.leb_le.
    apply find_from_nonneg.
Qed.

(** What holds a text holds every end of it. *)
Lemma contains_suffix (p q s : string) :
  Py.contains (p +:+ q) s = true -> Py.contains q s = true.
Proof.
  rewrite !contains_app. intros (a & b & ->). exists (a +:+ p), b.
  by rewrite !string_app_assoc.
Qed.

Lemma split_on_nonempty (sep : ascii) (s : string) : Py.split_on sep s <> [].
Proof.
  induction s as [|c s IH]; simpl; [done|].
  destruct (Ascii.eqb c sep); [done|]. by destruct (Py.split_on sep s).
Qed.

(** A text that holds the separator splits in two pieces or more; the
    first piece is the text before the first separator. *)
Lemma split_on_separator (sep : ascii) (a b : string) :
  Py.forallb_string (fun c => negb (Ascii.eqb c sep)) a = true ->
  exists p ps, Py.split_on sep (a +:+ String sep b) = a :: p :: ps.
Proof.
  induction a as [|c a IH]; intros Ha.
  - change (EmptyString +:+ ?x) with x. simpl. rewrite Ascii.eqb_refl.
    pose proof (split_on_nonempty sep b).
    destruct (Py.split_on sep b) as [|p ps]; [done|]. eauto.
  - simpl in Ha. apply andb_true_iff in Ha as [Hc Ha].
    rewrite string_app_cons. simpl. apply negb_true_iff in Hc. rewrite Hc.
    destruct (IH Ha) as (p & ps & ->). eauto.
Qed.

(** With a word under way, [split] returns that word first, completed. *)
Lemma split_ws_aux_some (s w : string) :
  exists w' tl, Py.split_ws_aux (Some w) s = (w +:+ w') :: tl.
Proof.
  revert w. induction s as [|c s IH]; intros w; simpl.
  - exists EmptyString, []. by rewrite string_app_nil_r.
  - destruct (Py.isspace c).
    + exists EmptyString. eexists. by rewrite string_app_nil_r.
    + destruct (IH (w +:+ String c EmptyString)) as (w' & tl & ->).
      exists (String c w'), tl. by rewrite string_app_assoc.
Qed.

Lemma split_ws_aux_prefix (pfx rest w : string) :
  no_blank pfx ->
  exists w' tl,
    Py.split_ws_aux (Some w) (pfx +:+ rest) = (w +:+ pfx +:+ w') :: tl.
Proof.
  revert w. induction pfx as [|c pfx IH]; intros w Hp.
  - change (EmptyString +:+ ?x) with x. apply split_ws_aux_some.
  - unfold no_blank in Hp. simpl in Hp. apply andb_true_iff in Hp as [Hc Hp].
    apply negb_true_iff in Hc. rewrite string_app_cons. simpl. rewrite Hc.
    destruct (IH (w +:+ String c EmptyString) Hp) as (w' & tl & ->).
    exists w', tl. by rewrite !string_app_assoc.
Qed.

(** The first word of a text that begins with blank-free characters
    begins with them. *)
Lemma split_ws_prefix (c : ascii) (pfx rest : string) :
  no_blank (String c pfx) ->
  exists w' tl,
    Py.split_ws (String c pfx +:+ rest) = (String c pfx +:+ w') :: tl.
Proof.
  intros Hp. unfold no_blank in Hp. simpl in Hp.
  apply andb_true_iff in Hp as [Hc Hp]. apply negb_true_iff in Hc.
  unfold Py.split_ws. rewrite string_app_cons. simpl. rewrite Hc.
  destruct (split_ws_aux_prefix pfx rest (String c EmptyString) Hp)
    as (w' & tl & ->).
  by exists w', tl.
Qed.

End Splitting.

(* ===================================================================== *)
(** * The climb matrices of G1: what the parser returns *)
(* ===================================================================== *)

Section ClimbG1.
Import Re.

(** Between [lo] and [hi] decimal digits, [1 <= lo]. *)
Lemma between_digits (lo hi : nat) (g : bool) (w : string) :
  1 <= lo -> matches (Rep Digit lo (Some hi) g) w -> digits w.
Proof. intros Hlo (Hw & Hl & _). split; [exact Hw | lia]. Qed.

Lemma anchor_of_ok (lines : list string) (i : nat) (r : regex) (s : string)
    (m : option mobj) :
  i < length lines ->
  (forall m', m = Some m' -> match_ok r s m') ->
  binds 1 r = true ->
  (forall r1, (1, r1) ∈ groups r -> forall w, matches r1 w -> digits w) ->
  exists l, G1.anchor_of i m = Some l /\ Forall (anchor_ok lines) l.
Proof.
  intros Hi Hm Hb Hg. destruct m as [m|]; [|by exists []].
  destruct (Hm m eq_refl) as (_ & _ & _ & Hgroups).
  destruct (Hgroups 1 Hb) as (r1 & Hr1 & Hw).
  apply (Hg r1 Hr1) in Hw. destruct (int_of_digits _ Hw) as (a & Ha & Ha0).
  unfold G1.anchor_of. rewrite Ha. bind_some.
  destruct (Z.leb_spec a 10000); [|by exists []].
  destruct (Z.eqb_spec (a mod 1000) 0); [|by exists []]. cbn [andb].
  destruct (Nat.leb_spec 4 (length (findall re_digits (group m 2))));
    [|by exists []].
  eexists. split; [done|]. constructor; [|done].
  unfold anchor_ok. simpl. split; [done|]. split; [|split].
  - exists a. by repeat split.
  - rewrite length_take. lia.
  - apply Forall_take, findall_digits.
Qed.

Lemma elem_of_enumerate {A : Type} (l : list A) (i : nat) (x : A) :
  (i, x) ∈ Py.enumerate l -> l !! i = Some x.
Proof.
  unfold Py.enumerate. intros H. apply list_elem_of_lookup in H as [k Hk].
  apply lookup_zip_with_Some in Hk as (j & y & [= -> ->] & Hj & Hy).
  apply lookup_seq in Hj as [-> _]. done.
Qed.

(** The altitude anchors of any page text: the search never raises, and
    every anchor found is well formed. *)
Lemma find_altitudes_ok (lines : list string) :
  exists anchors,
    G1.find_altitudes lines = Some anchors /\ Forall (anchor_ok lines) anchors.
Proof.
  unfold G1.find_altitudes.
  apply (for_each_total (Forall (anchor_ok lines))); [done|].
  intros anchors [i line] Hin Hanchors.
  apply elem_of_enumerate, lookup_lt_Some in Hin.
  destruct (anchor_of_ok lines i G1.re_embedded line
              (search G1.re_embedded line) Hin) as (e & -> & He).
  { intros m. apply search_sound. }
  { reflexivity. }
  { intros r1 Hr1 w Hw. simpl in Hr1.
    apply elem_of_cons in Hr1 as [[= ->]|Hr1];
      [apply (between_digits 4 4 true); [lia | exact Hw]|].
    apply elem_of_cons in Hr1 as [[=]|Hr1]. by apply elem_of_nil in Hr1. }
  destruct (anchor_of_ok lines i G1.re_standalone line
              (search G1.re_standalone line) Hin) as (s & -> & Hs).
  { intros m. apply search_sound. }
  { reflexivity. }
  { intros r1 Hr1 w Hw. simpl in Hr1.
    apply elem_of_cons in Hr1 as [[= ->]|Hr1];
      [apply (between_digits 1 5 true); [lia | exact Hw]|].
    apply elem_of_cons in Hr1 as [[=]|Hr1]. by apply elem_of_nil in Hr1. }
  eexists. split; [done|]. by rewrite !Forall_app.
Qed.

Lemma temperatures_ok_insert (temp_data : gmap Z (list string)) (t : Z)
    (values : list string) :
  (-40 <= t <= 50)%Z -> temperatures_ok temp_data ->
  temperatures_ok (<[t := values]> temp_data).
Proof.
  intros Ht H t' values' Hl. destruct (decide (t = t')) as [<-|Hne]; [done|].
  rewrite lookup_insert_ne in Hl by done. by apply (H t' values').
Qed.

Lemma normal_temperature_ok (ts : list Z) (altitude next_line : string)
    (idx : nat) (st : G1.scan) (a : Z) :
  Py.int altitude = Some a ->
  Forall (fun t => (-40 <= t <= 50)%Z) ts ->
  temperatures_ok (G1.temp_data st) ->
  exists st' found,
    G1.normal_temperature ts altitude next_line idx st = Some (st', found)
    /\ temperatures_ok (G1.temp_data st').
Proof.
  intros Ha Hts Hst. induction Hts as [|t ts Ht _ IH]; simpl; [by eauto|].
  destruct (Py.startswith _ _); [|done]. rewrite Ha. bind_some.
  destruct (_ <=? _); [|done].
  eexists _, _. split; [done|]. simpl. by apply temperatures_ok_insert.
Qed.

Lemma special_temperature_ok (next_line : string) (idx : nat) (st : G1.scan) :
  temperatures_ok (G1.temp_data st) ->
  exists st' found,
    G1.special_temperature next_line idx st = Some (st', found)
    /\ temperatures_ok (G1.temp_data st').
Proof.
  intros Hst. unfold G1.special_temperature.
  destruct (rmatch G1.re_two_digit_row next_line) as [_|]; [|by eauto].
  destruct (rmatch G1.re_special_temp next_line) as [m|] eqn:E; [|by eauto].
  apply rmatch_sound in E as [(_ & _ & _ & Hg) _].
  destruct (Hg 1 eq_refl) as (r1 & Hr1 & Hw). simpl in Hr1.
  apply elem_of_cons in Hr1 as [[= ->]|Hr1].
  2:{ apply elem_of_cons in Hr1 as [[=]|Hr1]. by apply elem_of_nil in Hr1. }
  apply (between_digits 2 2 true) in Hw; [|lia].
  destruct (int_of_digits _ Hw) as (t & -> & _). bind_some.
  destruct (Z.leb_spec 41 t), (Z.leb_spec t 50); cbn [andb]; try by eauto.
  destruct (_ <=? _); [|by eauto].
  eexists _, _. split; [done|]. simpl. apply temperatures_ok_insert; [lia|done].
Qed.

(** The loop that collects the temperature rows of one altitude never
    raises and stores temperatures from -40 to 50 only. *)
Lemma collect_ok (js : list nat) (lines : list string) (altitude : string)
    (line_idx : nat) (a : Z) :
  Py.int altitude = Some a ->
  forall st, temperatures_ok (G1.temp_data st) ->
    exists st',
      G1.collect js lines altitude line_idx st = Some st'
      /\ temperatures_ok (G1.temp_data st').
Proof.
  intros Ha. induction js as [|j js IH]; intros st Hst; cbn [G1.collect];
    [by eauto|].
  destruct (Nat.ltb_spec (line_idx + j) (length lines)) as [Hlt|]; [|by eauto].
  destruct (bool_decide _); [by apply IH|].
  destruct (lookup_lt_is_Some_2 lines _ Hlt) as [l El].
  unfold Py.item. rewrite El. bind_some.
  destruct (G1.mangled_zero altitude (Py.strip l)) as [values|].
  { apply IH. simpl. apply temperatures_ok_insert; [lia | done]. }
  destruct (normal_temperature_ok G1.temps altitude (Py.strip l)
              (line_idx + j) st a Ha) as (st1 & found & -> & Hst1); [|done|].
  { unfold G1.temps. repeat constructor; lia. }
  destruct found.
  { by apply IH. }
  destruct (special_temperature_ok (Py.strip l) (line_idx + j) st1 Hst1)
    as (st2 & found & -> & Hst2).
  destruct found; [by apply IH|].
  destruct (_ || _); [by eauto | by apply IH].
Qed.

Lemma rows_of_value (altitude : string) (temp : Z) (values : list string)
    (r : row) :
  r ∈ rows_of altitude temp values -> Py.str_isdigit (r_value r) = true.
Proof.
  unfold rows_of. intros H. apply list_elem_of_In, in_flat_map in H
    as ([w v] & _ & H). simpl in H.
  destruct (Py.str_isdigit v) eqn:E; [|done].
  destruct H as [<-|[]]. done.
Qed.

Lemma rows_of_weight (altitude : string) (temp : Z) (values : list string)
    (r : row) :
  r ∈ rows_of altitude temp values ->
  r_weight r ∈ ["6000"; "5500"; "5000"; "4500"]%string.
Proof.
  intros H. apply (list_elem_of_fmap_2 r_weight) in H.
  pose proof (elem_of_sublist _ _ _ H (rows_of_weights altitude temp values))
    as H'.
  assert (Py.str_int <$> G1.weights = ["6000"; "5500"; "5000"; "4500"]%string)
    as E by (vm_compute; reflexivity).
  by rewrite E in H'.
Qed.

(** The rows of one altitude anchor. *)
Lemma process_altitude_ok (lines : list string) (acc : list row * gset nat)
    (a : G1.anchor) :
  anchor_ok lines a ->
  Forall g1_climb_row (tail acc.1) -> head acc.1 = Some header ->
  exists acc',
    G1.process_altitude lines acc a = Some acc'
    /\ Forall g1_climb_row (tail acc'.1) /\ head acc'.1 = Some header.
Proof.
  destruct a as [[line_idx altitude] initial_values], acc as [data processed].
  unfold anchor_ok. cbn [fst snd].
  intros (_ & (alt & Halt & Hgrid) & _ & _) Hdata Hhead.
  unfold G1.process_altitude.
  destruct (bool_decide _); [by eauto|].
  destruct (collect_ok (seq 1 14) lines altitude line_idx alt Halt
              (G1.Scan {[ (-40)%Z := initial_values ]} processed))
    as (st & -> & Hst).
  { cbn [G1.temp_data]. intros t values [<- _]%lookup_singleton_Some. lia. }
  bind_some. unfold G1.emit_altitude. rewrite emit_items_rows. bind_some.
  eexists. split; [done|]. cbn [fst snd].
  destruct data as [|h data]; [done|]. cbn [tail head] in *.
  rewrite <- app_comm_cons. cbn [tail head]. split; [|done].
  apply Forall_app. split; [done|].
  apply Forall_forall. intros r Hr.
  apply list_elem_of_In, in_flat_map in Hr as ([t values] & Hin & Hr).
  apply list_elem_of_In in Hr. cbn [fst snd] in Hr.
  destruct (rows_of_key _ _ _ _ Hr) as [Ealt Etemp].
  split; [by apply (rows_of_weight _ _ _ _ Hr)|]. split; [|split].
  - rewrite Ealt. eauto.
  - exists t. split; [done|].
    apply list_elem_of_In in Hin. unfold G1.sorted_items in Hin.
    rewrite merge_sort_Permutation in Hin.
    apply elem_of_map_to_list in Hin. by apply (Hst t values).
  - by apply (rows_of_value _ _ _ _ Hr).
Qed.

Lemma g1_page_total (pages : G1.document) (page : Z) :
  (1 <= page)%Z -> is_Some (G1.extract_text_from_page pages page).
Proof.
  intros Hp. unfold G1.extract_text_from_page.
  destruct (Z.leb_spec page (Z.of_nat (length pages))); [|done].
  rewrite index_nonneg by lia. apply lookup_lt_is_Some. lia.
Qed.

End ClimbG1.

Section ClimbG1Thm.

(** X10.  The climb-matrix parser of G1 on any document.  For
    [1 <= start_page] the parser never raises, whatever the pages hold,
    and it returns the header followed by data rows that each carry one
    of the four weights 6000, 5500, 5000, 4500, an altitude token that
    reads as one of the altitudes 0, 1000, ..., 10000, an integer
    temperature from -40 to 50, and a value that [str.isdigit] accepts.
    So do the two tables of [extract_climb_data]. *)
Theorem g1_climb_matrix_rows (pages : G1.document) (start_page end_page : Z) :
  ((1 <= start_page)%Z ->
   exists rows,
     G1.parse_climb_gradient_tables pages start_page end_page
     = Some (header :: rows)
     /\ Forall g1_climb_row rows)
  /\ (exists gradient rate,
        G1.extract_climb_data pages = Some (header :: gradient, header :: rate)
        /\ Forall g1_climb_row gradient /\ Forall g1_climb_row rate).
Proof.
  assert (forall start_page end_page : Z, (1 <= start_page)%Z ->
    exists rows,
      G1.parse_climb_gradient_tables pages start_page end_page
      = Some (header :: rows)
      /\ Forall g1_climb_row rows) as Hmain.
  { clear start_page end_page. intros start_page end_page Hs.
    unfold G1.parse_climb_gradient_tables.
    destruct (for_each_total (fun _ : string => True)
                (Py.range start_page (end_page + 1))
                (fun all_text page =>
                   t ← G1.extract_text_from_page pages page;
                   Some (all_text +:+ t +:+ String "010" EmptyString))
                EmptyString I) as (all_text & -> & _).
    { intros text page Hpage _. unfold Py.range in Hpage.
      apply list_elem_of_fmap in Hpage as (k & -> & _).
      destruct (g1_page_total pages (start_page + Z.of_nat k)) as [t ->]; [lia|].
      eauto. }
    bind_some. cbv zeta.
    set (lines := Py.split_on "010" (Py.replace "10,000" "10000" all_text)).
    destruct (find_altitudes_ok lines) as (anchors & -> & Hanchors).
    bind_some.
    destruct (for_each_total
                (fun acc : list row * gset nat =>
                   Forall g1_climb_row (tail acc.1) /\ head acc.1 = Some header)
                anchors (G1.process_altitude lines) ([header], ∅))
      as ([data processed] & -> & Hdata & Hhead).
    { by split. }
    { intros acc a Ha [Hacc Hhead].
      apply process_altitude_ok; [|done|done].
      by apply (proj1 (Forall_forall _ _) Hanchors). }
    bind_some. cbn [fst] in *. destruct data as [|h rows]; [done|].
    injection Hhead as ->. by exists rows. }
  split; [by apply Hmain|].
  unfold G1.extract_climb_data, G1.parse_climb_rate_tables.
  destruct (Hmain 276%Z 281%Z ltac:(lia)) as (gradient & -> & Hg).
  destruct (Hmain 282%Z 287%Z ltac:(lia)) as (rate & -> & Hr).
  by exists gradient, rate.
Qed.

Lemma g1_climb_matrix_rows_witness :
  exists rows,
    G1.parse_climb_gradient_tables [anchor_line] 1 1 = Some (header :: rows)
    /\ Forall g1_climb_row rows.
Proof.
  apply (proj1 (g1_climb_matrix_rows [anchor_line] 1 1)). lia.
Defined.

End ClimbG1Thm.

(* ===================================================================== *)
(** * The climb matrices of G2+: what the parser returns *)
(* ===================================================================== *)

Section ClimbG2.
Import Re.

Lemma append_rows_block (data : list row) (altitude temp v1 v2 v3 v4 : string) :
  G2Plus.append_rows data altitude temp [v1; v2; v3; v4]
  = Some (data ++ climb_block altitude temp v1 v2 v3 v4).
Proof. apply append_rows_four. Qed.

(** [parts[1:5]] of five parts or more is four values. *)
Lemma slice_1_5 (parts : list string) :
  5 <= length parts ->
  exists p0 v1 v2 v3 v4,
    parts !! 0 = Some p0 /\ Py.slice_list 1 5 parts = [v1; v2; v3; v4].
Proof.
  intros H. destruct parts as [|p0 [|v1 [|v2 [|v3 [|v4 parts]]]]];
    simpl in H; try lia.
  by exists p0, v1, v2, v3, v4.
Qed.

(** A temperature line adds nothing or one block. *)
Lemma temperature_row_block (data : list row) (altitude line : string) :
  G2Plus.temperature_row data altitude line = Some data
  \/ exists temp v1 v2 v3 v4,
       G2Plus.temperature_row data altitude line
       = Some (data ++ climb_block altitude temp v1 v2 v3 v4).
Proof.
  unfold G2Plus.temperature_row.
  destruct (rmatch _ _) as [m|]; [|by left]. right.
  eexists _, _, _, _, _. apply append_rows_block.
Qed.

Lemma expected_altitudes_no_blank (alt : string) :
  alt ∈ G2Plus.expected_altitudes ->
  exists c pfx, alt +:+ "-" = String c pfx /\ no_blank (String c pfx)
    /\ exists a, alt +:+ "-" = a +:+ String "-" EmptyString
         /\ Py.forallb_string (fun c => negb (Ascii.eqb c "-")) a = true.
Proof.
  unfold G2Plus.expected_altitudes. intros H.
  repeat (apply elem_of_cons in H as [->|H];
          [eexists _, _; split; [reflexivity|]; split; [reflexivity|];
           eexists; split; reflexivity |]).
  by apply elem_of_nil in H.
Qed.

(** The rows of an altitude marker: a text that begins with the marker
    and has five parts or more gives one block at the marker's
    altitude. *)
Lemma marker_rows_block (data : list row) (alt rest : string) :
  alt ∈ G2Plus.expected_altitudes ->
  5 <= length (Py.split_ws ((alt +:+ "-") +:+ rest)) ->
  exists temp v1 v2 v3 v4,
    G2Plus.marker_rows data alt (Py.split_ws ((alt +:+ "-") +:+ rest))
    = Some (data ++ climb_block alt temp v1 v2 v3 v4).
Proof.
  intros Halt Hlen.
  destruct (expected_altitudes_no_blank alt Halt)
    as (c & pfx & E & Hnb & a & Ea & Ha).
  destruct (slice_1_5 _ Hlen) as (p0 & v1 & v2 & v3 & v4 & Hp0 & Hvalues).
  unfold G2Plus.marker_rows, Py.item. rewrite Hp0, Hvalues. bind_some.
  rewrite E in Hp0.
  destruct (split_ws_prefix c pfx rest Hnb) as (w' & tl & Hsplit).
  rewrite Hsplit in Hp0. injection Hp0 as <-.
  rewrite <- E, Ea, string_app_assoc, string_app_cons.
  change (EmptyString +:+ w') with w'.
  destruct (split_on_separator "-" a w' Ha) as (p & ps & ->).
  cbn [lookup list_lookup]. bind_some.
  eexists _, _, _, _, _. apply append_rows_block.
Qed.

Lemma slice_from_find (sub line : string) :
  Py.contains sub line = true ->
  exists rest, Py.slice_from (Py.find sub line) line = sub +:+ rest.
Proof.
  intros H. destruct (find_occurs sub line H) as (k & -> & Hp).
  apply startswith_app in Hp as [rest Hrest]. exists rest.
  unfold Py.slice_from. destruct (Z.ltb_spec (Z.of_nat k) 0); [lia|].
  by rewrite Nat2Z.id.
Qed.

(** The search for an altitude marker on one line never raises; it adds
    nothing or one block at an expected altitude, which it makes the
    current altitude. *)
Lemma altitude_marker_block (alts : list string) (line : string)
    (data : list row) (current_altitude : option string) :
  Forall (fun alt => alt ∈ G2Plus.expected_altitudes) alts ->
  G2Plus.altitude_marker alts line data current_altitude
  = Some (data, current_altitude)
  \/ exists alt temp v1 v2 v3 v4,
       alt ∈ G2Plus.expected_altitudes
       /\ G2Plus.altitude_marker alts line data current_altitude
          = Some (data ++ climb_block alt temp v1 v2 v3 v4, Some alt).
Proof.
  induction 1 as [|alt alts Halt _ IH]; cbn [G2Plus.altitude_marker];
    [by left|].
  destruct (Py.startswith (alt +:+ "-") line) eqn:Es.
  - apply startswith_app in Es as [rest ->].
    destruct (Nat.leb_spec 5 (length (Py.split_ws ((alt +:+ "-") +:+ rest))))
      as [Hlen|]; [|exact IH].
    right. destruct (marker_rows_block data alt rest Halt Hlen)
      as (temp & v1 & v2 & v3 & v4 & ->).
    by exists alt, temp, v1, v2, v3, v4.
  - destruct (Py.contains (alt +:+ "-") line) eqn:Ec; [|exact IH].
    destruct (Py.contains "of" line); [|exact IH]. cbn [andb].
    destruct (slice_from_find _ _ Ec) as [rest ->].
    destruct (Nat.leb_spec 5 (length (Py.split_ws ((alt +:+ "-") +:+ rest))))
      as [Hlen|]; [|exact IH].
    right. destruct (marker_rows_block data alt rest Halt Hlen)
      as (temp & v1 & v2 & v3 & v4 & ->).
    by exists alt, temp, v1, v2, v3, v4.
Qed.

Lemma expected_altitudes_Forall :
  Forall (fun alt => alt ∈ G2Plus.expected_altitudes) G2Plus.expected_altitudes.
Proof. by apply Forall_forall. Qed.

Lemma climb_blocks_snoc (h : row) (rows : list row)
    (altitude temp v1 v2 v3 v4 : string) :
  climb_blocks rows -> altitude ∈ G2Plus.expected_altitudes ->
  exists rows',
    (h :: rows) ++ climb_block altitude temp v1 v2 v3 v4 = h :: rows'
    /\ climb_blocks rows'.
Proof. intros H Ha. eexists. split; [reflexivity|]. by constructor. Qed.

(** One line of the pages 10 to 14. *)
Lemma climb_line_blocks (rows : list row) (cur : option string) (line : string) :
  climb_blocks rows ->
  (forall alt, cur = Some alt -> alt ∈ G2Plus.expected_altitudes) ->
  exists rows' cur',
    G2Plus.climb_line (header :: rows, cur) line = Some (header :: rows', cur')
    /\ climb_blocks rows'
    /\ (forall alt, cur' = Some alt -> alt ∈ G2Plus.expected_altitudes).
Proof.
  intros Hrows Hcur. unfold G2Plus.climb_line.
  set (l := Py.strip line).
  assert (exists rows1 cur1,
    G2Plus.altitude_marker G2Plus.expected_altitudes l (header :: rows) cur
    = Some (header :: rows1, cur1)
    /\ climb_blocks rows1
    /\ (forall alt, cur1 = Some alt -> alt ∈ G2Plus.expected_altitudes))
    as (rows1 & cur1 & -> & Hrows1 & Hcur1).
  { destruct (altitude_marker_block G2Plus.expected_altitudes l
                (header :: rows) cur expected_altitudes_Forall)
      as [-> | (alt & temp & v1 & v2 & v3 & v4 & Halt & ->)].
    - by exists rows, cur.
    - eexists _, _. split; [reflexivity|]. split; [by constructor|].
      by intros ? [= <-]. }
  destruct cur1 as [altitude|]; [|by exists rows1, None].
  destruct (negb (G2Plus.mentions_altitude l)); [|by eexists _, _].
  destruct (temperature_row_block (header :: rows1) altitude l)
    as [-> | (temp & v1 & v2 & v3 & v4 & ->)]; bind_some.
  - by eexists _, _.
  - eexists _, _. split; [reflexivity|]. split; [|done].
    constructor; [done|]. by apply Hcur1.
Qed.

(** One line of page 9. *)
Lemma page9_line_blocks (rows : list row) (line : string) :
  climb_blocks rows ->
  exists rows',
    G2Plus.page9_line (header :: rows) line = Some (header :: rows')
    /\ climb_blocks rows'.
Proof.
  intros Hrows. unfold G2Plus.page9_line. set (l := Py.strip line).
  assert ("0"%string ∈ G2Plus.expected_altitudes) as H0 by (by left).
  destruct (Py.startswith "0-" l).
  - destruct (Nat.leb_spec 5 (length (Py.split_ws l))) as [Hlen|];
      [|by exists rows].
    destruct (slice_1_5 _ Hlen) as (p0 & v1 & v2 & v3 & v4 & Hp0 & ->).
    unfold Py.item. rewrite Hp0. bind_some. rewrite append_rows_block.
    eexists. split; [reflexivity|]. by constructor.
  - destruct (temperature_row_block (header :: rows) "0" l)
      as [-> | (temp & v1 & v2 & v3 & v4 & ->)].
    + by exists rows.
    + eexists. split; [reflexivity|]. by constructor.
Qed.

Lemma g2_page_total (pages : G2Plus.document) (p : Z) :
  (0 <= p)%Z -> is_Some (G2Plus.extract_text_from_page pages p).
Proof.
  intros Hp. unfold G2Plus.extract_text_from_page.
  destruct (Z.ltb_spec p (Z.of_nat (length pages))); [|done].
  rewrite index_nonneg by lia. apply lookup_lt_is_Some. lia.
Qed.

Lemma climb_pages_blocks (page_nums : list Z) (pages : G2Plus.document) :
  Forall (fun p => (0 <= p)%Z) page_nums ->
  forall rows, climb_blocks rows ->
    exists rows',
      G2Plus.climb_pages page_nums pages (header :: rows) = Some (header :: rows')
      /\ climb_blocks rows'.
Proof.
  induction 1 as [|p page_nums Hp _ IH]; intros rows Hrows;
    cbn [G2Plus.climb_pages]; [by exists rows|].
  destruct (_ <=? _)%Z; [by exists rows|].
  unfold G2Plus.climb_page.
  destruct (g2_page_total pages p Hp) as [text ->]. bind_some. cbv zeta.
  destruct (for_each_total
              (fun acc : list row * option string =>
                 exists rows', acc.1 = header :: rows' /\ climb_blocks rows'
                   /\ (forall alt, acc.2 = Some alt ->
                         alt ∈ G2Plus.expected_altitudes))
              (Py.split_on "010" (Py.replace "10,000" "10000" text))
              G2Plus.climb_line (header :: rows, None))
    as ([data cur] & -> & rows1 & Hdata & Hrows1 & _).
  { by exists rows. }
  { intros [data cur] line _ (rows0 & Hdata & Hrows0 & Hcur).
    cbn [fst snd] in *. subst data.
    destruct (climb_line_blocks rows0 cur line Hrows0 Hcur)
      as (rows' & cur' & -> & Hrows' & Hcur').
    eexists. split; [reflexivity|]. by exists rows'. }
  bind_some. cbn [fst] in *. subst data. by apply IH.
Qed.

(** The first page of a matrix, then its other pages. *)
Lemma climb_matrix_blocks (pages : G2Plus.document) (first : Z)
    (others : list Z) (present : bool) :
  (0 <= first)%Z -> Forall (fun p => (0 <= p)%Z) others ->
  exists rows,
    (data ← (if present then
               text ← G2Plus.extract_text_from_page pages first;
               let text := Py.replace "10,000" "10000" text in
               let lines := Py.split_on "010" text in
               Py.for_each lines G2Plus.page9_line [header]
             else Some [header]);
     G2Plus.climb_pages others pages data) = Some (header :: rows)
    /\ climb_blocks rows.
Proof.
  intros Hfirst Hothers.
  assert (exists rows0,
    (if present then
       text ← G2Plus.extract_text_from_page pages first;
       let text := Py.replace "10,000" "10000" text in
       let lines := Py.split_on "010" text in
       Py.for_each lines G2Plus.page9_line [header]
     else Some [header]) = Some (header :: rows0) /\ climb_blocks rows0)
    as (rows0 & -> & Hrows0).
  { destruct present; [|exists []; split; [done | constructor]].
    destruct (g2_page_total pages first Hfirst) as [text ->]. bind_some.
    cbv zeta.
    destruct (for_each_total
                (fun data : list row =>
                   exists rows', data = header :: rows' /\ climb_blocks rows')
                (Py.split_on "010" (Py.replace "10,000" "10000" text))
                G2Plus.page9_line [header])
      as (data & -> & rows0 & -> & Hrows0).
    { exists []. split; [done | constructor]. }
    { intros data line _ (rows0 & -> & Hrows0).
      destruct (page9_line_blocks rows0 line Hrows0) as (rows' & -> & Hrows').
      eexists. split; [reflexivity|]. by exists rows'. }
    by exists rows0. }
  bind_some. by apply climb_pages_blocks.
Qed.

Lemma climb_blocks_length (rows : list row) :
  climb_blocks rows -> exists k, length rows = 4 * k.
Proof.
  induction 1 as [|rows altitude temp v1 v2 v3 v4 _ [k IH] _].
  - by exists 0.
  - exists (S k). rewrite length_app, IH. simpl. lia.
Qed.

Lemma climb_blocks_altitude (rows : list row) :
  climb_blocks rows ->
  Forall (fun r => r_altitude r ∈ G2Plus.expected_altitudes) rows.
Proof.
  induction 1 as [|rows altitude temp v1 v2 v3 v4 _ IH Halt]; [done|].
  apply Forall_app. split; [done|]. unfold climb_block.
  repeat (constructor; [exact Halt|]). constructor.
Qed.

End ClimbG2.

Section ClimbG2Thm.

(** X11.  The climb-matrix parsers of G2+ on any document.  Neither
    [parse_climb_gradient_tables] nor [parse_climb_rate_tables] ever
    raises, whatever the pages hold, and each returns the header followed
    by blocks of four rows: the four rows of a block carry the weights
    6000, 5500, 5000, 4500 in this order, one temperature, and one
    altitude out of '0', '1000', ..., '10000'.  No temperature line is
    ever recorded with fewer than four values. *)
Theorem g2_climb_matrix_blocks (pages : G2Plus.document) :
  exists gradient rate,
    G2Plus.parse_climb_gradient_tables pages = Some (header :: gradient)
    /\ G2Plus.parse_climb_rate_tables pages = Some (header :: rate)
    /\ G2Plus.extract_climb_data pages
       = Some (header :: gradient, header :: rate)
    /\ climb_blocks gradient /\ climb_blocks rate
    /\ (exists k, length gradient = 4 * k) /\ (exists k, length rate = 4 * k)
    /\ Forall (fun r => r_altitude r ∈ G2Plus.expected_altitudes)
         (gradient ++ rate).
Proof.
  destruct (climb_matrix_blocks pages 9 (Py.range 10 15)
              (9 <? length pages)) as (gradient & Hg & Bg);
    [lia | by repeat constructor |].
  destruct (climb_matrix_blocks pages 15 (Py.range 16 21)
              (15 <? length pages)) as (rate & Hr & Br);
    [lia | by repeat constructor |].
  exists gradient, rate.
  assert (G2Plus.parse_climb_gradient_tables pages = Some (header :: gradient))
    as Eg by exact Hg.
  assert (G2Plus.parse_climb_rate_tables pages = Some (header :: rate))
    as Er by exact Hr.
  split; [exact Eg|]. split; [exact Er|]. split.
  { unfold G2Plus.extract_climb_data. by rewrite Eg, Er. }
  split; [done|]. split; [done|].
  split; [by apply climb_blocks_length|].
  split; [by apply climb_blocks_length|].
  apply Forall_app. split; by apply climb_blocks_altitude.
Qed.

Lemma ends_in_zero (alt : string) :
  alt ∈ G2Plus.expected_altitudes -> exists pre, alt +:+ "-" = pre +:+ "0-".
Proof.
  unfold G2Plus.expected_altitudes. intros H.
  repeat (apply elem_of_cons in H as [->|H];
          [first [ by exists EmptyString | by exists "100"%string
                 | by exists "200"%string | by exists "300"%string
                 | by exists "400"%string | by exists "500"%string
                 | by exists "600"%string | by exists "700"%string
                 | by exists "800"%string | by exists "900"%string
                 | by exists "1000"%string ] |]).
  by apply elem_of_nil in H.
Qed.

(** The first altitude the marker search tries is '0'. *)
Lemma altitude_marker_sea_level (line : string) (data : list row)
    (current_altitude : option string) :
  G2Plus.altitude_marker G2Plus.expected_altitudes line data current_altitude
  = if Py.startswith "0-" line then
      if 5 <=? length (Py.split_ws line) then
        data ← G2Plus.marker_rows data "0" (Py.split_ws line);
        Some (data, Some "0"%string)
      else G2Plus.altitude_marker (tail G2Plus.expected_altitudes) line data
             current_altitude
    else if Py.contains "0-" line && Py.contains "of" line then
      if 5 <=? length (Py.split_ws (Py.slice_from (Py.find "0-" line) line)) then
        data ← G2Plus.marker_rows data "0"
                 (Py.split_ws (Py.slice_from (Py.find "0-" line) line));
        Some (data, Some "0"%string)
      else G2Plus.altitude_marker (tail G2Plus.expected_altitudes) line data
             current_altitude
    else G2Plus.altitude_marker (tail G2Plus.expected_altitudes) line data
           current_altitude.
Proof. reflexivity. Qed.

(** X12.  An altitude marker glued to a page footer, as in
    ['11 of 462000-40 1232 1301 1378 1455'], is read at altitude 0 in
    G2+.  On a line that holds the marker of any expected altitude and
    the word 'of', and does not begin with '0-', the marker search stops
    at '0', the first altitude it tries, because the marker of every
    expected altitude ends in '0-': when five parts or more follow the
    first '0-' of the line, one block is recorded at altitude '0', and
    '0' becomes the current altitude. *)
Theorem embedded_marker_reads_sea_level (line : string) (data : list row)
    (current_altitude : option string) (alt : string) :
  alt ∈ G2Plus.expected_altitudes ->
  Py.startswith "0-" line = false ->
  Py.contains (alt +:+ "-") line = true ->
  Py.contains "of" line = true ->
  5 <= length (Py.split_ws (Py.slice_from (Py.find "0-" line) line)) ->
  exists temp v1 v2 v3 v4,
    G2Plus.altitude_marker G2Plus.expected_altitudes line data current_altitude
    = Some (data ++ climb_block "0" temp v1 v2 v3 v4, Some "0"%string).
Proof.
  intros Halt Hs Hc Hof Hlen.
  destruct (ends_in_zero alt Halt) as [pre Epre]. rewrite Epre in Hc.
  apply contains_suffix in Hc.
  destruct (slice_from_find _ _ Hc) as [rest Erest]. rewrite Erest in Hlen.
  destruct (marker_rows_block data "0" rest ltac:(by left) Hlen)
    as (temp & v1 & v2 & v3 & v4 & Hrows).
  exists temp, v1, v2, v3, v4.
  rewrite altitude_marker_sea_level, Hs, Hc, Hof, Erest. cbn [andb].
  destruct (Nat.leb_spec 5 (length (Py.split_ws ("0-" +:+ rest)))) as [_|Hlt].
  - change ("0-" +:+ rest) with (("0" +:+ "-") +:+ rest). by rewrite Hrows.
  - lia.
Qed.

Lemma embedded_marker_reads_sea_level_witness :
  exists temp v1 v2 v3 v4,
    G2Plus.altitude_marker G2Plus.expected_altitudes
      "11 of 462000-40 1232 1301 1378 1455" [header] None
    = Some ([header] ++ climb_block "0" temp v1 v2 v3 v4, Some "0"%string).
Proof.
  apply (embedded_marker_reads_sea_level
           "11 of 462000-40 1232 1301 1378 1455"%string [header] None
           "2000"%string).
  - unfold G2Plus.expected_altitudes. do 2 right. left.
  - reflexivity.
  - reflexivity.
  - reflexivity.
  - vm_compute. lia.
Defined.

End ClimbG2Thm.

(* ===================================================================== *)
(** * Contamination and reference-speed tables *)
(* ===================================================================== *)

Section Contamination.
Import Re.

(** A line that [^(\d{4})\s+(.+)] matches begins with four digits. *)
Lemma distance_row_groups (line : string) (m : mobj) :
  rmatch G1.re_distance_row line = Some m ->
  four_digits (group m 1)
  /\ Forall digits (findall re_digits (group m 2)).
Proof.
  intros H. apply rmatch_sound in H as [(_ & _ & _ & Hg) _].
  split; [|apply findall_digits].
  destruct (Hg 1 eq_refl) as (r1 & Hr1 & Hw). simpl in Hr1.
  apply elem_of_cons in Hr1 as [[= ->]|Hr1].
  2:{ apply elem_of_cons in Hr1 as [[=]|Hr1]. by apply elem_of_nil in Hr1. }
  destruct Hw as (Hw & Hlo & Hhi). split; [split; [exact Hw | lia] | lia].
Qed.

Lemma water_line_rows (rows : list G1.cells) (line : string) :
  water_rows rows ->
  exists rows',
    G1.water_line (["distance"; "depth"; "value"]%string :: rows) line
    = Some (["distance"; "depth"; "value"]%string :: rows')
    /\ water_rows rows'.
Proof.
  intros Hrows. unfold G1.water_line.
  destruct (rmatch G1.re_distance_row line) as [m|] eqn:E; [|by exists rows].
  apply distance_row_groups in E as [Hd Hv]. cbv zeta.
  destruct (findall re_digits (group m 2))
    as [|v1 [|v2 [|v3 [|v4 [|v5 values]]]]]; try by exists rows.
  exists (rows ++ water_block (group m 1) v1 v2 v3 v4 v5).
  split.
  - unfold water_block. cbn. by rewrite <- !app_assoc.
  - constructor; [done | done |].
    apply (Forall_take _ 5) in Hv. exact Hv.
Qed.

Lemma water_table_rows (text : string) :
  exists rows,
    G1.water_table text = Some (["distance"; "depth"; "value"]%string :: rows)
    /\ water_rows rows.
Proof.
  unfold G1.water_table.
  destruct (for_each_total
              (fun data : list G1.cells =>
                 exists rows, data = ["distance"; "depth"; "value"]%string :: rows
                              /\ water_rows rows)
              (Py.split_on "010" text) G1.water_line
              [["distance"; "depth"; "value"]%string])
    as (data & -> & rows & -> & Hrows).
  { exists []. split; [done | constructor]. }
  { intros data line _ (rows & -> & Hrows).
    destruct (water_line_rows rows line Hrows) as (rows' & -> & Hrows').
    eexists. split; [done|]. by exists rows'. }
  by exists rows.
Qed.

Lemma snow_line_rows (slush dry compact : list G1.cells) (line : string) :
  snow_rows slush dry compact ->
  exists slush' dry' compact',
    G1.snow_line
      (G1.Snow (["distance"; "depth"; "value"]%string :: slush)
         (["distance"; "value"]%string :: dry)
         (["distance"; "value"]%string :: compact)) line
    = Some (G1.Snow (["distance"; "depth"; "value"]%string :: slush')
              (["distance"; "value"]%string :: dry')
              (["distance"; "value"]%string :: compact'))
    /\ snow_rows slush' dry' compact'.
Proof.
  intros Hrows. unfold G1.snow_line.
  destruct (rmatch G1.re_distance_row line) as [m|] eqn:E;
    [|by exists slush, dry, compact].
  apply distance_row_groups in E as [Hd Hv]. cbv zeta.
  destruct (findall re_digits (group m 2))
    as [|v1 [|v2 [|v3 [|v4 [|v5 [|v6 [|v7 values]]]]]]];
    try by exists slush, dry, compact.
  exists (slush ++ slush_block (group m 1) v1 v2 v3 v4 v5),
    (dry ++ [[group m 1; v6]]), (compact ++ [[group m 1; v7]]).
  split.
  - unfold slush_block. cbn. by rewrite <- !app_assoc.
  - constructor; [done | done |].
    apply (Forall_take _ 7) in Hv. exact Hv.
Qed.

Lemma snow_tables_rows (text : string) :
  exists slush dry compact,
    G1.snow_tables text
    = Some (G1.Snow (["distance"; "depth"; "value"]%string :: slush)
              (["distance"; "value"]%string :: dry)
              (["distance"; "value"]%string :: compact))
    /\ snow_rows slush dry compact.
Proof.
  unfold G1.snow_tables.
  destruct (for_each_total
              (fun st : G1.snow =>
                 exists slush dry compact,
                   st = G1.Snow (["distance"; "depth"; "value"]%string :: slush)
                          (["distance"; "value"]%string :: dry)
                          (["distance"; "value"]%string :: compact)
                   /\ snow_rows slush dry compact)
              (Py.split_on "010" text) G1.snow_line
              (G1.Snow [["distance"; "depth"; "value"]%string]
                 [["distance"; "value"]%string] [["distance"; "value"]%string]))
    as (st & -> & slush & dry & compact & -> & Hrows).
  { exists [], [], []. split; [done | constructor]. }
  { intros st line _ (slush & dry & compact & -> & Hrows).
    destruct (snow_line_rows slush dry compact line Hrows)
      as (slush' & dry' & compact' & -> & Hrows').
    eexists. split; [done|]. by exists slush', dry', compact'. }
  by exists slush, dry, compact.
Qed.

Lemma snow_rows_lengths (slush dry compact : list G1.cells) :
  snow_rows slush dry compact ->
  length slush = 5 * length dry /\ length compact = length dry.
Proof.
  induction 1 as [|slush dry compact d v1 v2 v3 v4 v5 v6 v7 _ [IH1 IH2] _ _];
    [done|].
  rewrite !length_app, IH1, IH2. simpl. lia.
Qed.

Lemma snow_rows_distances (slush dry compact : list G1.cells) :
  snow_rows slush dry compact ->
  (fun row => row !! 0) <$> dry = (fun row => row !! 0) <$> compact.
Proof.
  induction 1 as [|slush dry compact d v1 v2 v3 v4 v5 v6 v7 _ IH _ _]; [done|].
  by rewrite !fmap_app, IH.
Qed.

Lemma water_rows_length (rows : list G1.cells) :
  water_rows rows -> exists k, length rows = 6 * k.
Proof.
  induction 1 as [|rows d v1 v2 v3 v4 v5 _ [k IH] _ _]; [by exists 0|].
  exists (S k). rewrite length_app, IH. simpl. lia.
Qed.

(** [values[-5:]] of five values or more. *)
Lemma vref_rows_table (values : list string) :
  5 <= length values -> Forall digits values ->
  vref_table (G1.vref_rows values).
Proof.
  intros Hlen Hv. unfold G1.vref_rows, G1.last_five.
  assert (length (drop (length values - 5) values) = 5) as Hl
    by (rewrite length_drop; lia).
  apply (Forall_drop _ (length values - 5)) in Hv.
  destruct (drop (length values - 5) values)
    as [|v1 [|v2 [|v3 [|v4 [|v5 [|v6 l]]]]]]; try discriminate Hl.
  by exists v1, v2, v3, v4, v5.
Qed.

Lemma vref_line_tables (vref_data : gmap string (list G1.cells))
    (il : nat * string) :
  map_Forall (fun name table => name ∈ vref_files /\ vref_table table) vref_data ->
  map_Forall (fun name table => name ∈ vref_files /\ vref_table table)
    (G1.vref_line vref_data il).
Proof.
  intros H. unfold G1.vref_line. cbv zeta.
  pose proof (findall_digits il.2) as Hv.
  assert (forall name,
    name ∈ vref_files ->
    map_Forall (fun name table => name ∈ vref_files /\ vref_table table)
      (if 5 <=? length (Re.findall re_digits il.2)
       then <[name := G1.vref_rows (Re.findall re_digits il.2)]> vref_data
       else vref_data)) as Hins.
  { intros name Hname. destruct (Nat.leb_spec 5 (length (findall re_digits il.2)));
      [|done].
    apply map_Forall_insert_2; [|done]. split; [done|].
    by apply vref_rows_table. }
  destruct (Py.contains "UP or UNKNOWN" il.2).
  { apply Hins. unfold vref_files; repeat first [by left | right]. }
  destruct (Py.contains "SPEED HIGH Advisory)" il.2).
  { destruct (Nat.leb_spec 5 (length (findall re_digits il.2))); [|done].
    destruct (_ && _).
    - apply map_Forall_insert_2; [|done]. split; [|by apply vref_rows_table].
      unfold vref_files; repeat first [by left | right].
    - destruct (_ && _); [|done].
      apply map_Forall_insert_2; [|done]. split; [|by apply vref_rows_table].
      unfold vref_files; repeat first [by left | right]. }
  destruct (_ || _).
  { apply Hins. unfold vref_files; repeat first [by left | right]. }
  destruct (Py.startswith "100%" _); [|done].
  apply Hins. unfold vref_files; repeat first [by left | right].
Qed.

Lemma vref_tables_ok (text : string) :
  map_Forall (fun name table => name ∈ vref_files /\ vref_table table)
    (G1.vref_tables text).
Proof.
  unfold G1.vref_tables.
  generalize (Py.enumerate (Py.split_on "010" text)). intros l.
  assert (forall vref_data,
    map_Forall (fun name table => name ∈ vref_files /\ vref_table table) vref_data ->
    map_Forall (fun name table => name ∈ vref_files /\ vref_table table)
      (foldl G1.vref_line vref_data l)) as H.
  { induction l as [|il l IH]; intros vref_data Hd; [done|].
    simpl. apply IH. by apply vref_line_tables. }
  apply H. apply map_Forall_empty.
Qed.

End Contamination.

Section ContaminationThm.

(** X13.  [extract_contamination_data] of G1 on any document.  It never
    raises.  The water table is its header followed by blocks of six
    rows, one block for each distance: the distance itself at depth 0.0,
    then one value at each of the depths 0.125, 0.2, 0.3, 0.4, 0.5.  The
    three snow tables stay side by side: each distance has five rows in
    the slush table, at the same five depths, and one row in each of the
    dry-snow and compact-snow tables.  Every distance is four decimal
    digits and every value a run of decimal digits. *)
Theorem contamination_tables (pages : G1.document) :
  exists water slush dry compact,
    G1.extract_contamination_data pages
    = Some (["distance"; "depth"; "value"]%string :: water,
            G1.Snow (["distance"; "depth"; "value"]%string :: slush)
              (["distance"; "value"]%string :: dry)
              (["distance"; "value"]%string :: compact))
    /\ water_rows water
    /\ snow_rows slush dry compact
    /\ (exists k, length water = 6 * k)
    /\ length slush = 5 * length dry
    /\ length compact = length dry.
Proof.
  unfold G1.extract_contamination_data.
  destruct (g1_page_total pages 418 ltac:(lia)) as [water_text ->].
  destruct (g1_page_total pages 419 ltac:(lia)) as [snow_text ->].
  bind_some.
  destruct (water_table_rows water_text) as (water & -> & Hwater).
  destruct (snow_tables_rows snow_text)
    as (slush & dry & compact & -> & Hsnow).
  bind_some. exists water, slush, dry, compact.
  split; [done|]. split; [done|]. split; [done|].
  split; [by apply water_rows_length|]. by apply snow_rows_lengths.
Qed.

(** X14.  [extract_vref_data] of G1 on any document.  It never raises,
    and every table it saves is saved under one of the five file names
    up.csv, up ice.csv, 50 ice.csv, 50.csv and 100.csv, and is the header
    followed by exactly five rows, for the weights 4000, 4500, 5000, 5500
    and 6000 in this order, each value a run of decimal digits: the last
    five numbers of the line the table was read from. *)
Theorem vref_tables_shape (pages : G1.document) :
  exists tables,
    G1.extract_vref_data pages = Some tables
    /\ forall name table,
         tables !! name = Some table -> name ∈ vref_files /\ vref_table table.
Proof.
  unfold G1.extract_vref_data.
  destruct (g1_page_total pages 380 ltac:(lia)) as [text ->]. bind_some.
  eexists. split; [done|]. intros name table H.
  by apply (vref_tables_ok text name table).
Qed.

End ContaminationThm.

(* ===================================================================== *)
(** * Documents with fewer pages than the tables need *)
(* ===================================================================== *)

Section ShortDocuments.

Lemma g1_page_beyond (pages : G1.document) (page_num : Z) :
  (Z.of_nat (length pages) < page_num)%Z ->
  G1.extract_text_from_page pages page_num = Some EmptyString.
Proof.
  intros H. unfold G1.extract_text_from_page.
  destruct (Z.leb_spec page_num (Z.of_nat (length pages))); [lia | done].
Qed.

Lemma g2_page_beyond (pages : G2Plus.document) (page_num : Z) :
  (Z.of_nat (length pages) <= page_num)%Z ->
  G2Plus.extract_text_from_page pages page_num = Some EmptyString.
Proof.
  intros H. unfold G2Plus.extract_text_from_page.
  destruct (Z.ltb_spec page_num (Z.of_nat (length pages))); [lia | done].
Qed.

Lemma parse_takeoff_beyond (pages : G1.document) (page_num weight : Z) :
  (Z.of_nat (length pages) < page_num)%Z ->
  G1.parse_takeoff_tables pages page_num weight = Some ([], []).
Proof.
  intros H. unfold G1.parse_takeoff_tables. by rewrite g1_page_beyond.
Qed.

Lemma parse_landing_beyond (pages : G1.document) (page_num weight : Z)
    (flap_setting : string) :
  (Z.of_nat (length pages) < page_num)%Z ->
  G1.parse_landing_tables pages page_num weight flap_setting = Some ([], []).
Proof.
  intros H. unfold G1.parse_landing_tables. by rewrite g1_page_beyond.
Qed.

Lemma parse_climb_beyond (pages : G1.document) (start_page end_page : Z) :
  (Z.of_nat (length pages) < start_page)%Z ->
  (end_page = start_page + 5)%Z ->
  G1.parse_climb_gradient_tables pages start_page end_page = Some [header].
Proof.
  intros H ->. unfold G1.parse_climb_gradient_tables.
  rewrite (for_each_ext _ _
    (fun all_text _ => Some (all_text +:+ String "010" EmptyString))).
  2:{ intros all_text page Hpage. unfold Py.range in Hpage.
      apply list_elem_of_fmap in Hpage as (k & -> & _).
      by rewrite g1_page_beyond by lia. }
  unfold Py.range. rewrite for_each_fmap.
  replace (Z.to_nat (start_page + 5 + 1 - start_page)) with 6 by lia.
  vm_compute. reflexivity.
Qed.

End ShortDocuments.

Section ShortDocumentsThm.

Lemma takeoff_page_beyond (pages : G2Plus.document) (weight : Z)
    (acc : list row * list row) (page_num : Z) :
  (Z.of_nat (length pages) <= page_num)%Z ->
  G2Plus.takeoff_page pages weight acc page_num = Some acc.
Proof.
  intros H. unfold G2Plus.takeoff_page. rewrite g2_page_beyond by done.
  by destruct acc.
Qed.

Lemma landing_page_beyond (pages : G2Plus.document) (weight : Z)
    (acc : list row * list row) (page_num : Z) :
  (Z.of_nat (length pages) <= page_num)%Z ->
  G2Plus.landing_page pages weight acc page_num = Some acc.
Proof.
  intros H. unfold G2Plus.landing_page. rewrite g2_page_beyond by done.
  by destruct acc.
Qed.

(** X15.  G1 on a document that ends before the first page the tables
    are read from, page 271: no extraction raises, and every table comes
    out as its header alone.  The takeoff, landing and climb tables, the
    water table and the three snow tables hold no data row, and no
    reference-speed table is saved. *)
Theorem g1_short_document (pages : G1.document) :
  length pages < 271 ->
  G1.extract_takeoff_data pages = Some ([header], [header])
  /\ G1.extract_landing_data pages
     = Some [ ("100"%string, ([header], [header]));
              ("50"%string, ([header], [header]));
              ("50 ice"%string, ([header], [header])) ]
  /\ G1.extract_climb_data pages = Some ([header], [header])
  /\ G1.extract_contamination_data pages
     = Some ([["distance"; "depth"; "value"]%string],
             G1.Snow [["distance"; "depth"; "value"]%string]
               [["distance"; "value"]%string] [["distance"; "value"]%string])
  /\ G1.extract_vref_data pages = Some ∅.
Proof.
  intros Hn. split; [|split; [|split; [|split]]].
  - unfold G1.extract_takeoff_data, G1.takeoff_locations.
    cbn [Py.for_each fst snd].
    rewrite !parse_takeoff_beyond by lia. reflexivity.
  - unfold G1.extract_landing_data, G1.flap_configs, G1.landing_tables.
    cbn [Py.for_each fst snd].
    rewrite !parse_landing_beyond by lia. reflexivity.
  - unfold G1.extract_climb_data, G1.parse_climb_rate_tables.
    rewrite !parse_climb_beyond by lia. reflexivity.
  - unfold G1.extract_contamination_data.
    rewrite !g1_page_beyond by lia. reflexivity.
  - unfold G1.extract_vref_data. rewrite g1_page_beyond by lia. reflexivity.
Qed.

Lemma g1_short_document_witness :
  G1.extract_takeoff_data [anchor_line] = Some ([header], [header])
  /\ G1.extract_vref_data [anchor_line] = Some ∅.
Proof.
  pose proof (g1_short_document [anchor_line] ltac:(simpl; lia)) as H.
  split; [apply (proj1 H) | apply (proj2 (proj2 (proj2 (proj2 H))))].
Defined.

(** X16.  G2+ on a document of four pages or fewer, which ends before
    the first page the tables are read from, page index 4: no extraction
    raises, and the takeoff, landing and climb tables come out as their
    headers alone. *)
Theorem g2_short_document (pages : G2Plus.document) :
  length pages <= 4 ->
  G2Plus.extract_takeoff_data pages = Some ([header], [header])
  /\ G2Plus.extract_landing_data pages
     = Some [ ("100"%string, ([header], [header]));
              ("50"%string, ([header], [header])) ]
  /\ G2Plus.extract_climb_data pages = Some ([header], [header]).
Proof.
  intros Hn. split; [|split].
  - unfold G2Plus.extract_takeoff_data, G2Plus.weight_pages.
    cbn [Py.for_each].
    rewrite !takeoff_page_beyond by lia. reflexivity.
  - unfold G2Plus.extract_landing_data, G2Plus.landing_configs,
      G2Plus.landing_tables.
    cbn [Py.for_each fst snd].
    rewrite !landing_page_beyond by lia. reflexivity.
  - unfold G2Plus.extract_climb_data, G2Plus.parse_climb_gradient_tables,
      G2Plus.parse_climb_rate_tables.
    destruct (Nat.ltb_spec 9 (length pages)); [lia|].
    destruct (Nat.ltb_spec 15 (length pages)); [lia|].
    change (Py.range 10 15) with (10 :: Py.range 11 15)%Z.
    change (Py.range 16 21) with (16 :: Py.range 17 21)%Z.
    change (Some [header] ≫= ?f) with (f [header]). cbv beta.
    cbn [G2Plus.climb_pages].
    destruct (Z.leb_spec (Z.of_nat (length pages)) 10); [|lia].
    destruct (Z.leb_spec (Z.of_nat (length pages)) 16); [|lia].
    reflexivity.
Qed.

Lemma g2_short_document_witness :
  G2Plus.extract_climb_data [anchor_line] = Some ([header], [header]).
Proof.
  apply (proj2 (proj2 (g2_short_document [anchor_line] ltac:(simpl; lia)))).
Defined.

End ShortDocumentsThm.
